(** * OpenClaw TUI: the data layer of [monitoring/openclaw_tui.py]

    A shallow embedding of the parsing, polling and log-tailing core of the
    dashboard, and the properties of it that the specification states.  The
    last part, More of the program, goes on to the two JSON files the program
    rewrites, the widgets and the key handling of the screens.

    Conventions of the embedding.
    - A Python value that comes out of [json.loads] is a [json]; [JNull] is
      Python's [None], a JSON object is the list of its items in insertion
      order.
    - A Python [str] is a [string]; one [ascii] stands for one character.
      Where a [str] holds block characters it is a [text], the list of its
      code points.
    - Numbers are exact rationals ([Q]): epoch milliseconds, with or without
      a fractional part.  Rounding of floats is not modelled.
    - A Python exception is [Raise e]; [try ... except Exception] is
      [try_except].  Dynamic type errors ([None.get], [5[:8]], ...) are raised
      where Python raises them. *)

From Stdlib Require Import String Ascii List Bool Arith ZArith QArith Lia Lqa.
From Stdlib Require Import DecimalString DecimalNat Qround.
Import ListNotations.
Local Close Scope Q_scope.
Local Open Scope nat_scope.
Local Open Scope string_scope.
Local Open Scope list_scope.

Set Implicit Arguments.
Local Set Warnings "-register-all".

(** ** Exceptions *)

Inductive exn : Type :=
| TypeError
| AttributeError
| ValueError      (* json.JSONDecodeError is a ValueError *)
| OSError         (* file and subprocess failures, timeouts included *)
| QueueEmpty.

Inductive result (A : Type) : Type :=
| Ok (a : A)
| Raise (e : exn).

Arguments Ok {A} a.
Arguments Raise {A} e.

Definition bind {A B : Type} (c : result A) (k : A -> result B) : result B :=
  match c with
  | Ok a => k a
  | Raise e => Raise e
  end.

Declare Scope py_scope.
Delimit Scope py_scope with py.
Notation "x <- c ;; k" := (bind c (fun x => k))
  (at level 61, c at next level, right associativity) : py_scope.
Local Open Scope py_scope.

(** [try: c  except Exception: h]: the handler is a computation too. *)
Definition try_except {A : Type} (c : result A) (h : result A) : result A :=
  match c with
  | Ok a => Ok a
  | Raise _ => h
  end.

Fixpoint mapM {A B : Type} (f : A -> result B) (l : list A) : result (list B) :=
  match l with
  | [] => Ok []
  | x :: l' => y <- f x ;; ys <- mapM f l' ;; Ok (y :: ys)
  end.

(** ** Values *)

Inductive json : Type :=
| JNull
| JBool (b : bool)
| JNum (q : Q)
| JStr (s : string)
| JArr (l : list json)
| JObj (items : list (string * json)).

Definition dict : Type := list (string * json).

(** The empty [str]. *)
Definition empty_str : string := EmptyString.

(** Python truthiness, as [if v:] tests it. *)
Definition truthy (v : json) : bool :=
  match v with
  | JNull => false
  | JBool b => b
  | JNum q => negb (Qeq_bool q 0%Q)
  | JStr s => negb (String.eqb s empty_str)
  | JArr l => match l with [] => false | _ => true end
  | JObj d => match d with [] => false | _ => true end
  end.

Fixpoint lookup (k : string) (d : dict) : option json :=
  match d with
  | [] => None
  | (k', v) :: d' => if String.eqb k k' then Some v else lookup k d'
  end.

(** [d.get(k, dflt)] on a dict. *)
Definition dict_get (d : dict) (k : string) (dflt : json) : json :=
  match lookup k d with
  | Some v => v
  | None => dflt
  end.

(** [o.get(k, dflt)] on any value: only a dict has [get]. *)
Definition py_get (o : json) (k : string) (dflt : json) : result json :=
  match o with
  | JObj d => Ok (dict_get d k dflt)
  | _ => Raise AttributeError
  end.

(** [o.items()] *)
Definition py_items (o : json) : result dict :=
  match o with
  | JObj d => Ok d
  | _ => Raise AttributeError
  end.

Fixpoint chars (s : string) : list json :=
  match s with
  | EmptyString => []
  | String c s' => JStr (String c EmptyString) :: chars s'
  end.

(** [for p in v]: a list yields its elements, a dict its keys, a str its
    characters; nothing else is iterable. *)
Definition py_iter (v : json) : result (list json) :=
  match v with
  | JArr l => Ok l
  | JObj d => Ok (map (fun kv => JStr (fst kv)) d)
  | JStr s => Ok (chars s)
  | _ => Raise TypeError
  end.

(** [[x] + v]: a list is concatenated with a list only. *)
Definition list_plus (l : list json) (v : json) : result (list json) :=
  match v with
  | JArr l' => Ok (l ++ l')
  | _ => Raise TypeError
  end.

(** ** Strings *)

(** [s[:n]] *)
Fixpoint str_take (n : nat) (s : string) : string :=
  match n, s with
  | O, _ => EmptyString
  | S _, EmptyString => EmptyString
  | S n', String c s' => String c (str_take n' s')
  end.

(** [s[n:]] *)
Fixpoint str_drop (n : nat) (s : string) : string :=
  match n, s with
  | O, _ => s
  | S _, EmptyString => EmptyString
  | S n', String _ s' => str_drop n' s'
  end.

(** [s.startswith(p)] *)
Definition startswith (p s : string) : bool := String.prefix p s.

(** [s.removeprefix(p)] *)
Definition removeprefix (p s : string) : string :=
  if startswith p s then str_drop (String.length p) s else s.

(** [s.split(sep)] for a one-character separator: the pieces between the
    separators, at least one piece. *)
Fixpoint split_on (sep : ascii) (s : string) : list string :=
  match s with
  | EmptyString => [EmptyString]
  | String c s' =>
      if Ascii.eqb c sep then EmptyString :: split_on sep s'
      else match split_on sep s' with
           | [] => [String c EmptyString]
           | p :: ps => String c p :: ps
           end
  end.

(** [p in s] for strings. *)
Fixpoint contains (p s : string) : bool :=
  String.prefix p s ||
  match s with
  | EmptyString => false
  | String _ s' => contains p s'
  end.

(** [str(i)] of a non-negative int. *)
Definition str_of_nat (n : nat) : string :=
  NilEmpty.string_of_uint (Nat.to_uint n).

(** ** Model status ([parse_model_status]) *)

Definition _shorten (model_id : string) : string :=
  match split_on "/" model_id with
  | [provider; name] => (removeprefix "google-" provider ++ "/" ++ name)%string
  | _ => model_id
  end.

(** [_shorten(model)] as called on an untyped value: [model.split] exists on
    a str only. *)
Definition shorten_value (model : json) : result string :=
  match model with
  | JStr s => Ok (_shorten s)
  | _ => Raise AttributeError
  end.

Record rotation_entry : Type := {
  re_model : json;
  re_label : string;
  re_status : string;
  re_position : nat;
  re_alias : option string
}.

Record oauth_profile : Type := {
  op_profile_id : json;
  op_provider : json;
  op_status : json;
  op_expires_at : json;
  op_remaining_ms : json
}.

Record snapshot : Type := {
  sn_default : json;
  sn_rotation : list rotation_entry;
  sn_oauth_profiles : list oauth_profile;
  sn_aliases : json;
  sn_raw : json
}.

(** A value can be a dict key when it is hashable: lists and dicts are not. *)
Definition hashable (v : json) : bool :=
  match v with
  | JArr _ | JObj _ => false
  | _ => true
  end.

(** [{v: k for k, v in aliases.items()}], kept as the (value, alias) pairs in
    iteration order: a later pair replaces an earlier one with the same
    value. *)
Definition invert (items : dict) : result (list (json * string)) :=
  mapM (fun kv : string * json =>
          if hashable (snd kv) then Ok (snd kv, fst kv) else Raise TypeError)
       items.

Definition is_str (s : string) (v : json) : bool :=
  match v with
  | JStr s' => String.eqb s s'
  | _ => false
  end.

(** [aliases_inv.get(model)] for a str [model]: the alias written last. *)
Fixpoint inv_get (inv : list (json * string)) (model : string) : option string :=
  match inv with
  | [] => None
  | (v, k) :: inv' =>
      match inv_get inv' model with
      | Some k' => Some k'
      | None => if is_str model v then Some k else None
      end
  end.

Definition alias_of (inv : list (json * string)) (model : json) : option string :=
  match model with
  | JStr s => inv_get inv s
  | _ => None
  end.

(** The [for i, model in enumerate(...)] loop, from index [i] on. *)
Fixpoint rotation_loop (inv : list (json * string)) (i : nat) (models : list json)
  : result (list rotation_entry) :=
  match models with
  | [] => Ok []
  | model :: rest =>
      let status := if Nat.eqb i 0 then "ACTIVE" else ("#" ++ str_of_nat i)%string in
      label <- shorten_value model ;;
      entries <- rotation_loop inv (S i) rest ;;
      Ok ({| re_model := model;
             re_label := label;
             re_status := status;
             re_position := i;
             re_alias := alias_of inv model |} :: entries)
  end.

Definition oauth_entry (p : json) : result oauth_profile :=
  profile_id <- py_get p "profileId" (JStr empty_str) ;;
  provider <- py_get p "provider" (JStr empty_str) ;;
  status <- py_get p "status" (JStr empty_str) ;;
  expires_at <- py_get p "expiresAt" JNull ;;
  remaining_ms <- py_get p "remainingMs" (JNum 0%Q) ;;
  Ok {| op_profile_id := profile_id;
        op_provider := provider;
        op_status := status;
        op_expires_at := expires_at;
        op_remaining_ms := remaining_ms |}.

Definition parse_model_status (raw : json) : result snapshot :=
  default <- py_get raw "defaultModel" (JStr empty_str) ;;
  fallbacks <- py_get raw "fallbacks" (JArr []) ;;
  aliases <- py_get raw "aliases" (JObj []) ;;
  items <- py_items aliases ;;
  aliases_inv <- invert items ;;
  models <- list_plus [default] fallbacks ;;
  rotation <- rotation_loop aliases_inv 0 models ;;
  auth <- py_get raw "auth" (JObj []) ;;
  oauth <- py_get auth "oauth" (JObj []) ;;
  profiles <- py_get oauth "profiles" (JArr []) ;;
  ps <- py_iter profiles ;;
  oauth_profiles <- mapM oauth_entry ps ;;
  Ok {| sn_default := default;
        sn_rotation := rotation;
        sn_oauth_profiles := oauth_profiles;
        sn_aliases := aliases;
        sn_raw := raw |}.

(** ** The library functions the program calls

    [json.loads], [json.dumps] and [repr] belong to Python, not to the
    program: the embedding takes them as an interface.  [MiniJson] below
    implements it for a fragment of JSON, to run the program on concrete
    lines. *)

Class PyJson : Type := {
  json_loads : string -> result json;
  json_dumps : json -> string;
  py_repr : json -> string
}.

(** What the program relies on: the empty string is not a JSON document. *)
Class PyJsonLaws (P : PyJson) : Prop := {
  loads_empty : exists e, json_loads empty_str = Raise e
}.

(** [str(v)] *)
Definition py_str `{PyJson} (v : json) : string :=
  match v with
  | JStr s => s
  | _ => py_repr v
  end.

(** ** More strings: [strip], [splitlines], [join], [upper], [replace] *)

Definition nl : ascii := ascii_of_nat 10.

(** [c.isspace()] *)
Definition is_space (c : ascii) : bool :=
  let n := nat_of_ascii c in
  (Nat.leb 9 n && Nat.leb n 13) || (Nat.leb 28 n && Nat.leb n 32)
  || Nat.eqb n 133 || Nat.eqb n 160.

Fixpoint lstrip (s : string) : string :=
  match s with
  | EmptyString => EmptyString
  | String c s' => if is_space c then lstrip s' else s
  end.

Fixpoint rstrip (s : string) : string :=
  match s with
  | EmptyString => EmptyString
  | String c s' =>
      match rstrip s' with
      | EmptyString => if is_space c then EmptyString else String c EmptyString
      | r => String c r
      end
  end.

(** [s.strip()] *)
Definition strip (s : string) : string := rstrip (lstrip s).

(** The line boundaries of [str.splitlines]. *)
Definition is_linebreak (c : ascii) : bool :=
  let n := nat_of_ascii c in
  (Nat.leb 10 n && Nat.leb n 13) || (Nat.leb 28 n && Nat.leb n 30)
  || Nat.eqb n 133.

Definition snoc (s : string) (c : ascii) : string :=
  (s ++ String c EmptyString)%string.

(** [splitlines], with [cur] the line read so far: a boundary closes the
    line, [\r\n] is one boundary, no empty line after the last boundary. *)
Fixpoint splitlines_from (cur : string) (s : string) : list string :=
  match s with
  | EmptyString =>
      match cur with EmptyString => [] | _ => [cur] end
  | String c s' =>
      if is_linebreak c then
        match s' with
        | String c' s'' =>
            if Nat.eqb (nat_of_ascii c) 13 && Nat.eqb (nat_of_ascii c') 10
            then cur :: splitlines_from EmptyString s''
            else cur :: splitlines_from EmptyString s'
        | EmptyString => [cur]
        end
      else splitlines_from (snoc cur c) s'
  end.

(** [s.splitlines()] *)
Definition splitlines (s : string) : list string :=
  splitlines_from EmptyString s.

(** [sep.join(l)] *)
Fixpoint join (sep : string) (l : list string) : string :=
  match l with
  | [] => EmptyString
  | [x] => x
  | x :: l' => (x ++ sep ++ join sep l')%string
  end.

(** [c.upper()] on the ASCII letters. *)
Definition upper_char (c : ascii) : ascii :=
  let n := nat_of_ascii c in
  if Nat.leb 97 n && Nat.leb n 122 then ascii_of_nat (n - 32) else c.

(** [s.upper()] *)
Fixpoint upper (s : string) : string :=
  match s with
  | EmptyString => EmptyString
  | String c s' => String (upper_char c) (upper s')
  end.

(** [s.replace(a, b)] for one-character [a] and [b]. *)
Fixpoint replace_char (a b : ascii) (s : string) : string :=
  match s with
  | EmptyString => EmptyString
  | String c s' =>
      String (if Ascii.eqb c a then b else c) (replace_char a b s')
  end.

(** ** Auth profiles ([read_auth_profiles]) *)

(** What the program reads from outside on one poll, and the wall clock:
    reading [k] of the clock is [w_clock k], [w_ticks] readings were taken
    so far. *)
Record world : Type := {
  w_clock : nat -> Q;
  w_ticks : nat;
  w_auth_file : result string;      (* AUTH_PROFILES.read_text() *)
  w_models_status : result string   (* stdout of `openclaw models status --json` *)
}.

(** [datetime.now(timezone.utc).timestamp() * 1000] *)
Definition now_ms (w : world) : Q * world :=
  (w_clock w (w_ticks w),
   {| w_clock := w_clock w;
      w_ticks := S (w_ticks w);
      w_auth_file := w_auth_file w;
      w_models_status := w_models_status w |}).

Record auth_profile : Type := {
  ap_profile_id : string;
  ap_provider : json;
  ap_auth_type : json;
  ap_email : json;
  ap_api_key : option string;
  ap_expires_ms : json;
  ap_in_cooldown : bool;
  ap_cooldown_remaining_ms : Q;
  ap_error_count : json;
  ap_last_used_ms : json
}.

(** A value as an operand of [>] and [-] against a float: numbers only
    ([bool] is a number in Python). *)
Definition as_number (v : json) : result Q :=
  match v with
  | JNum q => Ok q
  | JBool b => Ok (if b then 1%Q else 0%Q)
  | _ => Raise TypeError
  end.

(** [a > b] *)
Definition Qgtb (a b : Q) : bool := negb (Qle_bool a b).

(** [max(0, x)] *)
Definition max0 (x : Q) : Q := if Qgtb x 0%Q then x else 0%Q.

Definition ELLIPSIS : string := "...".

(** [v[:8] + "..."]: a str only (a list slices but does not add to a str). *)
Definition key_hint (v : json) : result string :=
  match v with
  | JStr s => Ok (str_take 8 s ++ ELLIPSIS)%string
  | _ => Raise TypeError
  end.

(** [pid.split(":")[0]] *)
Definition provider_of_id (pid : string) : string :=
  hd EmptyString (split_on ":" pid).

(** One iteration of the loop over [profiles_raw.items()]. *)
Definition profile_entry (usage : json) (now : Q) (pid : string) (pdata : json)
  : result auth_profile :=
  stats <- py_get usage pid (JObj []) ;;
  cooldown_until <- py_get stats "cooldownUntil" (JNum 0%Q) ;;
  cu <- as_number cooldown_until ;;
  let in_cooldown := Qgtb cu now in
  let cooldown_remaining_ms :=
    if in_cooldown then max0 (cu - now)%Q else 0%Q in
  provider <- py_get pdata "provider" (JStr (provider_of_id pid)) ;;
  auth_type <- py_get pdata "type" (JStr "unknown") ;;
  email <- py_get pdata "email" JNull ;;
  key <- py_get pdata "apiKey" JNull ;;
  api_key <- (if truthy key
              then k <- py_get pdata "apiKey" (JStr empty_str) ;;
                   h <- key_hint k ;; Ok (Some h)
              else Ok None) ;;
  expires <- py_get pdata "expires" JNull ;;
  error_count <- py_get stats "errorCount" (JNum 0%Q) ;;
  last_used <- py_get stats "lastUsed" JNull ;;
  Ok {| ap_profile_id := pid;
        ap_provider := provider;
        ap_auth_type := auth_type;
        ap_email := email;
        ap_api_key := api_key;
        ap_expires_ms := expires;
        ap_in_cooldown := in_cooldown;
        ap_cooldown_remaining_ms := cooldown_remaining_ms;
        ap_error_count := error_count;
        ap_last_used_ms := last_used |}.

(** The loop: every profile is computed against the same [now]. *)
Definition profile_loop (usage : json) (now : Q) (items : dict)
  : result (list auth_profile) :=
  mapM (fun kv : string * json => profile_entry usage now (fst kv) (snd kv))
       items.

(** The call from [raw.get("profiles", {})] on.  The clock is read after the
    two tables were taken from [raw]. *)
Definition read_profiles_of (raw : json) (w : world)
  : result (list auth_profile) * world :=
  match py_get raw "profiles" (JObj []) with
  | Raise e => (Raise e, w)
  | Ok profiles_raw =>
      match py_get raw "usageStats" (JObj []) with
      | Raise e => (Raise e, w)
      | Ok usage =>
          let (now, w') := now_ms w in
          (items <- py_items profiles_raw ;; profile_loop usage now items, w')
      end
  end.

(** [read_auth_profiles(raw)]; [JNull] is the default [raw=None]. *)
Definition read_auth_profiles `{PyJson} (raw : json) (w : world)
  : result (list auth_profile) * world :=
  match raw with
  | JNull =>
      match (text <- w_auth_file w ;; json_loads text) with
      | Raise _ => (Ok [], w)
      | Ok raw' => read_profiles_of raw' w
      end
  | _ => read_profiles_of raw w
  end.

(** ** Fetching the model status ([fetch_model_status]) *)

(** [lines[json_start:]] for the first line that starts with a brace; no
    line left when there is none. *)
Fixpoint from_json_start (lines : list string) : list string :=
  match lines with
  | [] => []
  | l :: rest => if startswith "{" l then lines else from_json_start rest
  end.

(** [None] is Python's [None]. *)
Definition fetch_model_status `{PyJson} (run : result string)
  : result (option snapshot) :=
  try_except
    (stdout <- run ;;
     let lines := splitlines (strip stdout) in
     match from_json_start lines with
     | [] => Ok None
     | tail => raw <- json_loads (join (String nl EmptyString) tail) ;;
               parsed <- parse_model_status raw ;;
               Ok (Some parsed)
     end)
    (Ok None).

(** ** Log lines ([_parse_log_line]) *)

Definition LOG_IMPORTANT_SUBSYSTEMS : list string :=
  ["model"; "ratelimit"; "fallback"; "error"; "gateway/reload"].

(** [s in LOG_IMPORTANT_SUBSYSTEMS] *)
Definition str_in (s : string) (l : list string) : bool :=
  existsb (String.eqb s) l.

Record log_event : Type := {
  ev_time : string;
  ev_subsystem : string;
  ev_message : string;
  ev_level : string;
  ev_important : bool
}.

(** A method of [str] called on any value. *)
Definition str_method (f : string -> string) (v : json) : result string :=
  match v with
  | JStr s => Ok (f s)
  | _ => Raise AttributeError
  end.

(** [v[:19].replace("T", " ")]: a str slices and replaces, a list slices
    and then has no [replace], nothing else slices. *)
Definition time_field (v : json) : result string :=
  match v with
  | JStr s => Ok (replace_char "T" " " (str_take 19 s))
  | JArr _ => Raise AttributeError
  | _ => Raise TypeError
  end.

Section LogLine.
Context `{PyJson}.

(** The inner [try]: the subsystem out of the [name] field. *)
Definition subsystem_of (name_raw : json) : result string :=
  try_except
    (name_obj <- match name_raw with
                 | JStr s => json_loads s
                 | _ => Ok name_raw
                 end ;;
     sub <- py_get name_obj "subsystem" (JStr "unknown") ;;
     str_method (removeprefix "gateway/") sub)
    (Ok (py_str name_raw)).

(** The body of the outer [try], from the decoded line on. *)
Definition parse_log_obj (obj : json) : result (option log_event) :=
  meta <- py_get obj "_meta" (JObj []) ;;
  name_raw <- py_get meta "name" (JStr "{}") ;;
  subsystem <- subsystem_of name_raw ;;
  msg_raw <- py_get obj "1" (JStr empty_str) ;;
  let msg := match msg_raw with
             | JStr s => s
             | _ => json_dumps msg_raw
             end in
  level_raw <- py_get meta "logLevelName" (JStr "INFO") ;;
  level <- str_method upper level_raw ;;
  time_raw <- py_get obj "time" (JStr empty_str) ;;
  ts <- time_field time_raw ;;
  Ok (Some {| ev_time := ts;
              ev_subsystem := subsystem;
              ev_message := msg;
              ev_level := level;
              ev_important := str_in subsystem LOG_IMPORTANT_SUBSYSTEMS
                              || String.eqb level "ERROR" |}).

Definition parse_log_body (raw_line : string) : result (option log_event) :=
  obj <- json_loads raw_line ;;
  parse_log_obj obj.

Definition _parse_log_line (raw_line : string) : result (option log_event) :=
  try_except (parse_log_body raw_line) (Ok None).
End LogLine.

(** ** The event queue ([queue.Queue(maxsize=500)])

    The queue is the list of its items, oldest first. *)

Definition LOG_QUEUE_MAXSIZE : nat := 500.

Inductive put_outcome (A : Type) : Type :=
| PutDone (q : list A)     (* the item is in, [put] returns *)
| PutBlocks.               (* no free slot: the caller waits inside [put] *)

Arguments PutDone {A} q.
Arguments PutBlocks {A}.

(** [q.put(x)], with the defaults [block=True, timeout=None]. *)
Definition queue_put {A : Type} (maxsize : nat) (q : list A) (x : A)
  : put_outcome A :=
  if Nat.ltb 0 maxsize && Nat.leb maxsize (length q)
  then PutBlocks
  else PutDone (q ++ [x]).

(** [q.get_nowait()] *)
Definition get_nowait {A : Type} (q : list A) : result (A * list A) :=
  match q with
  | [] => Raise QueueEmpty
  | x :: q' => Ok (x, q')
  end.

(** ** The tailer ([LogTailer._run]) *)

(** [LOG_DIR / f"openclaw-{today}.log"], [today] the date as
    [strftime("%Y-%m-%d")] prints it. *)
Definition log_path (today : string) : string :=
  ("/tmp/openclaw/openclaw-" ++ today ++ ".log")%string.

Inductive read_outcome : Type :=
| ReadLine (line : string)   (* [readline] returned a line *)
| ReadNothing                (* [readline] returned the empty str *)
| ReadError.                 (* an exception inside the [with] block *)

(** What the tailer thread observes on one turn of its loops. *)
Record env : Type := {
  stop_set : bool;                (* self._stop.is_set() *)
  today : string;                 (* the current date *)
  path_exists : string -> bool;   (* path.exists() *)
  open_ok : bool;                 (* open and seek went through *)
  next_read : read_outcome        (* f.readline() *)
}.

(** Where the thread is. *)
Inductive control : Type :=
| AtOuter                                   (* top of the outer [while] *)
| Tailing (path : string)                   (* top of the inner [while], [path] open *)
| InPut (path : string) (ev : log_event)    (* waiting inside [self._q.put], [path] open *)
| Finished.                                 (* [_run] returned *)

Record DataLayer : Type := {
  _log_queue : list log_event;
  _tailer : control;
  _status : option snapshot;   (* [None] is the initial empty dict *)
  _profiles : list auth_profile
}.

Definition DataLayer_init : DataLayer :=
  {| _log_queue := []; _tailer := AtOuter; _status := None; _profiles := [] |}.

Definition with_tailer (dl : DataLayer) (c : control) (q : list log_event)
  : DataLayer :=
  {| _log_queue := q; _tailer := c;
     _status := _status dl; _profiles := _profiles dl |}.

(** [self._q.put(parsed)] from the inner loop on file [path]. *)
Definition tailer_put (dl : DataLayer) (path : string) (ev : log_event)
  : DataLayer :=
  match queue_put LOG_QUEUE_MAXSIZE (_log_queue dl) ev with
  | PutDone q' => with_tailer dl (Tailing path) q'
  | PutBlocks => with_tailer dl (InPut path ev) (_log_queue dl)
  end.

Section Tailer.
Context `{PyJson}.

(** One turn of the thread: one test of a [while] condition and the body
    that follows, or one more look at the queue from inside [put]. *)
Definition tailer_step (e : env) (dl : DataLayer) : DataLayer :=
  let q := _log_queue dl in
  match _tailer dl with
  | Finished => dl
  | AtOuter =>
      if stop_set e then with_tailer dl Finished q
      else
        let path := log_path (today e) in
        if negb (path_exists e path) then dl              (* wait(2); continue *)
        else if open_ok e then with_tailer dl (Tailing path) q
        else dl                                           (* except: wait(1) *)
  | Tailing path =>
      if stop_set e then with_tailer dl AtOuter q         (* file closed *)
      else
        match next_read e with
        | ReadError => with_tailer dl AtOuter q           (* except: wait(1) *)
        | ReadNothing => dl                               (* wait(0.2) *)
        | ReadLine line =>
            match _parse_log_line (strip line) with
            | Raise _ => with_tailer dl AtOuter q
            | Ok None => dl
            | Ok (Some parsed) => tailer_put dl path parsed
            end
        end
  | InPut path ev => tailer_put dl path ev
  end.
End Tailer.

(** The two threads together: a turn of the tailer, or one
    [get_nowait] of the polling side. *)
Inductive action : Type :=
| TailerTurn (e : env)
| ConsumerGet.

Section System.
Context `{PyJson}.

Definition act (dl : DataLayer) (a : action) : DataLayer :=
  match a with
  | TailerTurn e => tailer_step e dl
  | ConsumerGet =>
      match get_nowait (_log_queue dl) with
      | Ok (_, q') => with_tailer dl (_tailer dl) q'
      | Raise _ => dl
      end
  end.

Definition run (acts : list action) (dl : DataLayer) : DataLayer :=
  fold_left act acts dl.
End System.

(** The file the thread has open. *)
Definition open_file (dl : DataLayer) : option string :=
  match _tailer dl with
  | Tailing path => Some path
  | InPut path _ => Some path
  | _ => None
  end.

(** ** The data layer ([DataLayer]) *)

Section Data.
Context `{PyJson}.

Definition refresh (dl : DataLayer) (w : world)
  : result unit * DataLayer * world :=
  match fetch_model_status (w_models_status w) with
  | Raise e => (Raise e, dl, w)
  | Ok status =>
      let dl1 :=
        match status with
        | Some st =>                                   (* if status: *)
            {| _log_queue := _log_queue dl; _tailer := _tailer dl;
               _status := Some st; _profiles := _profiles dl |}
        | None => dl
        end in
      match read_auth_profiles JNull w with
      | (Ok ps, w') =>
          (Ok tt,
           {| _log_queue := _log_queue dl1; _tailer := _tailer dl1;
              _status := _status dl1; _profiles := ps |},
           w')
      | (Raise e, w') => (Raise e, dl1, w')
      end
  end.
End Data.

(** The [rotation] property. *)
Definition rotation (dl : DataLayer) : list rotation_entry :=
  match _status dl with
  | Some s => sn_rotation s
  | None => []
  end.

(** The [profiles] property. *)
Definition profiles (dl : DataLayer) : list auth_profile := _profiles dl.

(** The [default_model] property. *)
Definition default_model (dl : DataLayer) : json :=
  match _status dl with
  | Some s => sn_default s
  | None => JStr empty_str
  end.

(** [drain_logs()].  The tailer thread runs while the loop does, so the
    call is taken one turn of its loop at a time: [acts] are the turns of the
    two threads from the call on, a [ConsumerGet] being one test of
    [while not self._log_queue.empty()] with the [get_nowait] that follows
    it.  (The tailer only adds to the queue, so a turn of it between the
    test and the [get_nowait] changes nothing of what the [get_nowait]
    returns.)  The call returns on the first [ConsumerGet] that finds the
    queue empty; the turns after that one are not looked at. *)
Inductive drain : Type :=
| Returns (events : list log_event) (dl : DataLayer)
| Draining (events : list log_event) (dl : DataLayer).
                                   (* [acts] ends with the call in its loop *)

Section Drain.
Context `{PyJson}.

Fixpoint drain_loop (acts : list action) (events : list log_event)
         (dl : DataLayer) : drain :=
  match acts with
  | [] => Draining events dl
  | TailerTurn e :: rest => drain_loop rest events (tailer_step e dl)
  | ConsumerGet :: rest =>
      match _log_queue dl with
      | [] => Returns events dl                  (* [empty()]: return events *)
      | _ =>
          match get_nowait (_log_queue dl) with
          | Ok (x, q') =>
              drain_loop rest (events ++ [x]) (with_tailer dl (_tailer dl) q')
          | Raise _ => Returns events dl         (* except queue.Empty: break *)
          end
      end
  end.

Definition drain_logs (acts : list action) (dl : DataLayer) : drain :=
  drain_loop acts [] dl.

End Drain.

(** ** Gateway health ([fetch_gateway_status]) *)

Definition is_digit (c : ascii) : bool :=
  let n := nat_of_ascii c in Nat.leb 48 n && Nat.leb n 57.

(** [re.search(r"(\d{4,})", line)]: the first run of four or more digits,
    to its end; [run] is the run of digits just read. *)
Fixpoint search_digits4 (run : string) (s : string) : option string :=
  match s with
  | EmptyString => if Nat.leb 4 (String.length run) then Some run else None
  | String c s' =>
      if is_digit c then search_digits4 (snoc run c) s'
      else if Nat.leb 4 (String.length run) then Some run
           else search_digits4 EmptyString s'
  end.

(** The digits a string starts with, and what follows them. *)
Fixpoint span_digits (s : string) : string * string :=
  match s with
  | EmptyString => (EmptyString, EmptyString)
  | String c s' =>
      if is_digit c
      then let (ds, rest) := span_digits s' in (String c ds, rest)
      else (EmptyString, s)
  end.

(** [re.search(r"\((\d+) entries\)", line)] *)
Fixpoint search_entries (s : string) : option string :=
  match s with
  | EmptyString => None
  | String c s' =>
      let here :=
        if Ascii.eqb c "(" then
          let (ds, rest) := span_digits s' in
          match ds with
          | EmptyString => None
          | _ => if startswith " entries)" rest then Some ds else None
          end
        else None in
      match here with
      | Some ds => Some ds
      | None => search_entries s'
      end
  end.

(** [s.split(":", 1)[1]] for an [s] with a colon in it. *)
Fixpoint after_colon (s : string) : string :=
  match s with
  | EmptyString => EmptyString
  | String c s' => if Ascii.eqb c ":" then s' else after_colon s'
  end.

Record gateway_status : Type := {
  gw_gateway : string;
  gw_pid : option string;
  gw_sessions : option string;
  gw_agents : option json;     (* a count, or the placeholder str *)
  gw_version : option string
}.

(** The body of the [for line in out.splitlines()] loop. *)
Definition health_line (result : gateway_status) (line : string)
  : gateway_status :=
  if contains "PID" line || contains "pid" line then
    match search_digits4 EmptyString line with
    | Some m => {| gw_gateway := gw_gateway result; gw_pid := Some m;
                   gw_sessions := gw_sessions result;
                   gw_agents := gw_agents result;
                   gw_version := gw_version result |}
    | None => result
    end
  else if contains "Session store" line then
    match search_entries line with
    | Some m => {| gw_gateway := gw_gateway result; gw_pid := gw_pid result;
                   gw_sessions := Some m;
                   gw_agents := gw_agents result;
                   gw_version := gw_version result |}
    | None => result
    end
  else if startswith "Agents:" (strip line) then
    let agents := strip (after_colon line) in
    let n := length (split_on "," agents) in
    {| gw_gateway := gw_gateway result; gw_pid := gw_pid result;
       gw_sessions := gw_sessions result;
       gw_agents := Some (JNum (inject_Z (Z.of_nat n)));
       gw_version := gw_version result |}
  else result.

Definition PLACEHOLDER : string := "?".

(** The dict of the [except] branch. *)
Definition gateway_err : gateway_status :=
  {| gw_gateway := "ERR";
     gw_pid := Some PLACEHOLDER;
     gw_sessions := Some PLACEHOLDER;
     gw_agents := Some (JStr PLACEHOLDER);
     gw_version := Some PLACEHOLDER |}.

(** [health] and [version] are what the two [subprocess.run] calls give:
    the captured stdout, or the exception they raise. *)
Definition fetch_gateway_status (health version : result string)
  : result gateway_status :=
  try_except
    (out <- health ;;
     let result :=
       fold_left health_line (splitlines out)
         {| gw_gateway := "RUN"; gw_pid := None; gw_sessions := None;
            gw_agents := None; gw_version := None |} in
     ver <- version ;;
     Ok {| gw_gateway := gw_gateway result; gw_pid := gw_pid result;
           gw_sessions := gw_sessions result; gw_agents := gw_agents result;
           gw_version := Some (str_take 20 (strip ver)) |})
    (Ok gateway_err).

(** ** A codec for a fragment of JSON

    An implementation of the [PyJson] interface to run the program on
    concrete lines.  The fragment: objects, arrays, strings with the
    one-letter escapes, integers, [true], [false], [null]; no exponents, no
    fractions, no [\u] escapes in the input.  On the fragment the functions
    agree with Python's. *)

Module MiniJson.

Definition dq : ascii := ascii_of_nat 34.         (* the double quote *)
Definition backslash : ascii := ascii_of_nat 92.

Definition is_ws (c : ascii) : bool :=
  let n := nat_of_ascii c in
  Nat.eqb n 32 || Nat.eqb n 9 || Nat.eqb n 10 || Nat.eqb n 13.

Fixpoint skip_ws (s : string) : string :=
  match s with
  | String c s' => if is_ws c then skip_ws s' else s
  | EmptyString => s
  end.

Definition unescape (c : ascii) : option ascii :=
  let n := nat_of_ascii c in
  if Nat.eqb n 34 then Some dq
  else if Nat.eqb n 92 then Some backslash
  else if Nat.eqb n 47 then Some "/"%char
  else if Nat.eqb n 98 then Some (ascii_of_nat 8)
  else if Nat.eqb n 102 then Some (ascii_of_nat 12)
  else if Nat.eqb n 110 then Some (ascii_of_nat 10)
  else if Nat.eqb n 114 then Some (ascii_of_nat 13)
  else if Nat.eqb n 116 then Some (ascii_of_nat 9)
  else None.

(** A string literal, after its opening quote. *)
Fixpoint parse_string (acc : string) (s : string) : option (string * string) :=
  match s with
  | EmptyString => None
  | String c s' =>
      if Ascii.eqb c dq then Some (acc, s')
      else if Ascii.eqb c backslash then
        match s' with
        | String e s'' =>
            match unescape e with
            | Some c' => parse_string (snoc acc c') s''
            | None => None
            end
        | EmptyString => None
        end
      else if Nat.ltb (nat_of_ascii c) 32 then None
      else parse_string (snoc acc c) s'
  end.

Definition digit_val (c : ascii) : Z := Z.of_nat (nat_of_ascii c - 48).

Fixpoint digits_val (acc : Z) (ds : string) : Z :=
  match ds with
  | EmptyString => acc
  | String c ds' => digits_val (10 * acc + digit_val c)%Z ds'
  end.

(** An integer without sign: no leading zero, nothing of a fraction or an
    exponent after it. *)
Definition parse_nat (s : string) : option (Z * string) :=
  let (ds, rest) := span_digits s in
  let fraction_follows :=
    match rest with
    | String c _ => Ascii.eqb c "." || Ascii.eqb c "e" || Ascii.eqb c "E"
    | EmptyString => false
    end in
  match ds with
  | EmptyString => None
  | String d ds' =>
      if fraction_follows then None
      else if Ascii.eqb d "0" && negb (String.eqb ds' EmptyString) then None
      else Some (digits_val 0 ds, rest)
  end.

(** [d[k] = v] *)
Fixpoint dict_set (d : dict) (k : string) (v : json) : dict :=
  match d with
  | [] => [(k, v)]
  | (k', v') :: d' =>
      if String.eqb k k' then (k, v) :: d' else (k', v') :: dict_set d' k v
  end.

Fixpoint parse_value (fuel : nat) (s : string) : option (json * string) :=
  match fuel with
  | O => None
  | S fuel' =>
      match skip_ws s with
      | EmptyString => None
      | String c s' =>
          if Ascii.eqb c "{" then
            match skip_ws s' with
            | String c' s'' =>
                if Ascii.eqb c' "}" then Some (JObj [], s'')
                else parse_members fuel' [] (skip_ws s')
            | EmptyString => None
            end
          else if Ascii.eqb c "[" then
            match skip_ws s' with
            | String c' s'' =>
                if Ascii.eqb c' "]" then Some (JArr [], s'')
                else parse_elements fuel' [] (skip_ws s')
            | EmptyString => None
            end
          else if Ascii.eqb c dq then
            match parse_string EmptyString s' with
            | Some (str, rest) => Some (JStr str, rest)
            | None => None
            end
          else if Ascii.eqb c "-" then
            match parse_nat s' with
            | Some (n, rest) => Some (JNum (inject_Z (- n)), rest)
            | None => None
            end
          else if is_digit c then
            match parse_nat (String c s') with
            | Some (n, rest) => Some (JNum (inject_Z n), rest)
            | None => None
            end
          else if startswith "true" (String c s') then
            Some (JBool true, str_drop 4 (String c s'))
          else if startswith "false" (String c s') then
            Some (JBool false, str_drop 5 (String c s'))
          else if startswith "null" (String c s') then
            Some (JNull, str_drop 4 (String c s'))
          else None
      end
  end

(** The members of an object from a key on, [acc] the ones read. *)
with parse_members (fuel : nat) (acc : dict) (s : string)
  : option (json * string) :=
  match fuel with
  | O => None
  | S fuel' =>
      match s with
      | String c s' =>
          if Ascii.eqb c dq then
            match parse_string EmptyString s' with
            | Some (k, rest) =>
                match skip_ws rest with
                | String c1 rest1 =>
                    if Ascii.eqb c1 ":" then
                      match parse_value fuel' rest1 with
                      | Some (v, rest2) =>
                          match skip_ws rest2 with
                          | String c2 rest3 =>
                              if Ascii.eqb c2 "," then
                                parse_members fuel' (dict_set acc k v)
                                  (skip_ws rest3)
                              else if Ascii.eqb c2 "}" then
                                Some (JObj (dict_set acc k v), rest3)
                              else None
                          | EmptyString => None
                          end
                      | None => None
                      end
                    else None
                | EmptyString => None
                end
            | None => None
            end
          else None
      | EmptyString => None
      end
  end

(** The elements of an array from a value on, [acc] the ones read. *)
with parse_elements (fuel : nat) (acc : list json) (s : string)
  : option (json * string) :=
  match fuel with
  | O => None
  | S fuel' =>
      match parse_value fuel' s with
      | Some (v, rest) =>
          match skip_ws rest with
          | String c rest1 =>
              if Ascii.eqb c "," then parse_elements fuel' (acc ++ [v]) rest1
              else if Ascii.eqb c "]" then Some (JArr (acc ++ [v]), rest1)
              else None
          | EmptyString => None
          end
      | None => None
      end
  end.

Definition loads (s : string) : result json :=
  match parse_value (2 * String.length s + 2) s with
  | Some (v, rest) =>
      match skip_ws rest with
      | EmptyString => Ok v
      | _ => Raise ValueError
      end
  | None => Raise ValueError
  end.

(** Printing. *)

Definition str_of_Z (z : Z) : string :=
  match z with
  | Z0 => "0"
  | Zpos p => str_of_nat (Pos.to_nat p)
  | Zneg p => ("-" ++ str_of_nat (Pos.to_nat p))%string
  end.

(** An integer prints as Python prints an int.  Any other number is
    outside the fragment; it prints as a quotient. *)
Definition str_of_num (q : Q) : string :=
  match Qden q with
  | xH => str_of_Z (Qnum q)
  | d => (str_of_Z (Qnum q) ++ "/" ++ str_of_Z (Zpos d))%string
  end.

Definition hex_digit (n : nat) : ascii :=
  if Nat.ltb n 10 then ascii_of_nat (48 + n) else ascii_of_nat (87 + n).

(** One character inside a [json.dumps] string ([ensure_ascii=True]). *)
Definition dumps_char (c : ascii) : string :=
  let n := nat_of_ascii c in
  if Nat.eqb n 34 then String backslash (String dq EmptyString)
  else if Nat.eqb n 92 then String backslash (String backslash EmptyString)
  else if Nat.eqb n 10 then String backslash "n"
  else if Nat.eqb n 13 then String backslash "r"
  else if Nat.eqb n 9 then String backslash "t"
  else if Nat.eqb n 8 then String backslash "b"
  else if Nat.eqb n 12 then String backslash "f"
  else if Nat.ltb n 32 || Nat.leb 127 n then
    String backslash
      ("u00" ++ String (hex_digit (n / 16))
                  (String (hex_digit (n mod 16)) EmptyString))%string
  else String c EmptyString.

Fixpoint dumps_chars (s : string) : string :=
  match s with
  | EmptyString => EmptyString
  | String c s' => (dumps_char c ++ dumps_chars s')%string
  end.

Definition dumps_str (s : string) : string :=
  String dq (dumps_chars s ++ String dq EmptyString)%string.

(** [json.dumps(v)] with the default separators. *)
Fixpoint dumps (v : json) : string :=
  match v with
  | JNull => "null"
  | JBool true => "true"
  | JBool false => "false"
  | JNum q => str_of_num q
  | JStr s => dumps_str s
  | JArr l => ("[" ++ join ", " (map dumps l) ++ "]")%string
  | JObj d =>
      ("{" ++ join ", "
                (map (fun kv : string * json =>
                        let (k, x) := kv in
                        (dumps_str k ++ ": " ++ dumps x)%string) d)
           ++ "}")%string
  end.

(** [repr(s)] of a str without quotes, backslashes or control
    characters in it. *)
Definition repr_str (s : string) : string := ("'" ++ s ++ "'")%string.

(** [repr(v)] *)
Fixpoint repr (v : json) : string :=
  match v with
  | JNull => "None"
  | JBool true => "True"
  | JBool false => "False"
  | JNum q => str_of_num q
  | JStr s => repr_str s
  | JArr l => ("[" ++ join ", " (map repr l) ++ "]")%string
  | JObj d =>
      ("{" ++ join ", "
                (map (fun kv : string * json =>
                        let (k, x) := kv in
                        (repr_str k ++ ": " ++ repr x)%string) d)
           ++ "}")%string
  end.

#[export] Instance codec : PyJson :=
  {| json_loads := loads; json_dumps := dumps; py_repr := repr |}.

End MiniJson.


(** ** Inputs of the tests ([test_data_layer.py]) *)

Definition SAMPLE_STATUS : json :=
  JObj
    [("defaultModel", JStr "google-gemini-cli/gemini-3-flash");
     ("fallbacks", JArr [JStr "google-gemini-cli/gemini-3-pro-preview";
                         JStr "groq/llama-3.3-70b-versatile"]);
     ("aliases", JObj [("gemini-flash", JStr "google-gemini-cli/gemini-3-flash")]);
     ("auth",
      JObj [("oauth",
             JObj [("profiles",
                    JArr [JObj [("profileId", JStr "google-gemini-cli:bob");
                                ("provider", JStr "google-gemini-cli");
                                ("status", JStr "ok");
                                ("expiresAt", JNum (9999999999000 # 1));
                                ("remainingMs", JNum (3600000 # 1))]])]);
            ("providers", JArr [])]);
     ("allowed", JArr [JStr "google-gemini-cli/gemini-3-flash"])].

Definition SAMPLE_AUTH : json :=
  JObj
    [("profiles",
      JObj [("groq:manual",
             JObj [("type", JStr "apiKey"); ("provider", JStr "groq");
                   ("apiKey", JStr "gsk_abc")]);
            ("google-gemini-cli:bob",
             JObj [("type", JStr "oauth"); ("provider", JStr "google-gemini-cli");
                   ("expires", JNum (9999999999000 # 1));
                   ("email", JStr "bob@example.com")])]);
     ("usageStats",
      JObj [("google-gemini-cli:bob",
             JObj [("lastUsed", JNum (1770900000000 # 1));
                   ("errorCount", JNum (2 # 1));
                   ("cooldownUntil", JNum (9999999999000 # 1));
                   ("failureCounts", JObj [("rate_limit", JNum (2 # 1))])])])].

(** ** The types of a status dict

    [parse_model_status] returns on the dicts whose fields have the types
    the CLI gives them (lemma [parse_model_status_returns_iff]); on any
    other dict a dynamic type error is raised. *)

Definition is_dict (v : json) : bool :=
  match v with JObj _ => true | _ => false end.

Definition is_string (v : json) : bool :=
  match v with JStr _ => true | _ => false end.

(** [defaultModel]: a str, when present. *)
Definition default_typed (d : dict) : bool :=
  is_string (dict_get d "defaultModel" (JStr empty_str)).

(** [fallbacks]: a list of str, when present. *)
Definition fallbacks_typed (d : dict) : bool :=
  match dict_get d "fallbacks" (JArr []) with
  | JArr l => forallb is_string l
  | _ => false
  end.

(** [aliases]: a dict with hashable values, when present. *)
Definition aliases_typed (d : dict) : bool :=
  match dict_get d "aliases" (JObj []) with
  | JObj items => forallb (fun kv : string * json => hashable (snd kv)) items
  | _ => false
  end.

(** [auth.oauth.profiles]: dicts all the way, the profiles an iterable of
    dicts, each level when present. *)
Definition oauth_typed (d : dict) : bool :=
  match dict_get d "auth" (JObj []) with
  | JObj a =>
      match dict_get a "oauth" (JObj []) with
      | JObj o =>
          match py_iter (dict_get o "profiles" (JArr [])) with
          | Ok ps => forallb is_dict ps
          | Raise _ => false
          end
      | _ => false
      end
  | _ => false
  end.

Definition status_typed (d : dict) : bool :=
  default_typed d && fallbacks_typed d && aliases_typed d && oauth_typed d.

(** The number of fallbacks of a status dict. *)
Definition n_fallbacks (d : dict) : nat :=
  match dict_get d "fallbacks" (JArr []) with
  | JArr l => length l
  | _ => 0
  end.

(** The status label of position [i]. *)
Definition status_label (i : nat) : string :=
  if Nat.eqb i 0 then "ACTIVE" else ("#" ++ str_of_nat i)%string.

(** ** Concrete log lines *)

(** [quoted s] is [s] between double quotes. *)
Definition quoted (s : string) : string :=
  String MiniJson.dq (s ++ String MiniJson.dq EmptyString)%string.

(** [s] between double quotes that are escaped for a JSON string. *)
Definition escaped (s : string) : string :=
  (String MiniJson.backslash (String MiniJson.dq s)
   ++ String MiniJson.backslash (String MiniJson.dq EmptyString))%string.

(** A line of the gateway log as the gateway writes it: the [name] field
    holds the JSON text of an object with the subsystem, here
    [gateway/reload], the level is [INFO]. *)
Definition reload_line : string :=
  ("{" ++ quoted "_meta" ++ ": {"
       ++ quoted "name" ++ ": "
       ++ quoted ("{" ++ escaped "subsystem" ++ ": " ++ escaped "gateway/reload" ++ "}")
       ++ ", " ++ quoted "logLevelName" ++ ": " ++ quoted "INFO" ++ "}, "
       ++ quoted "1" ++ ": " ++ quoted "config reloaded" ++ ", "
       ++ quoted "time" ++ ": " ++ quoted "2026-02-12T10:11:12.345Z"
       ++ "}")%string.

(** A JSON object with no fields at all; the message field [1] is missing. *)
Definition empty_object_line : string := "{}".

(** ** A day in the life of the tailer *)

(** The event of [reload_line]. *)
Definition reload_event : log_event :=
  {| ev_time := "2026-02-12 10:11:12";
     ev_subsystem := "reload";
     ev_message := "config reloaded";
     ev_level := "INFO";
     ev_important := false |}.

Definition old_path : string := log_path "2026-02-12".


(** The next day: the file of 2026-02-13 exists, nothing more is written
    to the file of the day before. *)
Definition env_next_day : env :=
  {| stop_set := false;
     today := "2026-02-13";
     path_exists := fun _ => true;
     open_ok := true;
     next_read := ReadNothing |}.

(** The tailer on the file of 2026-02-12, with 500 events queued. *)
Definition dl_full : DataLayer :=
  {| _log_queue := repeat reload_event 500;
     _tailer := Tailing old_path;
     _status := None;
     _profiles := [] |}.

(** ** The source of a read, and the types of its entries *)

(** The value [read_auth_profiles] takes the two tables from: the argument,
    or, for the default [None], the decoded credential file. *)
Definition loaded_source `{PyJson} (raw : json) (w : world) : result json :=
  match raw with
  | JNull => text <- w_auth_file w ;; json_loads text
  | _ => Ok raw
  end.

(** The usage entry of [pid] is a dict, when present, and its
    [cooldownUntil] a number, when present. *)
Definition stats_typed (usage : json) (pid : string) : bool :=
  match usage with
  | JObj u =>
      match dict_get u pid (JObj []) with
      | JObj st =>
          match dict_get st "cooldownUntil" (JNum 0%Q) with
          | JNum _ | JBool _ => true
          | _ => false
          end
      | _ => false
      end
  | _ => false
  end.

(** The profile entry is a dict, and its [apiKey] a str unless it is
    falsy. *)
Definition pdata_typed (pdata : json) : bool :=
  match pdata with
  | JObj pd =>
      let key := dict_get pd "apiKey" JNull in
      negb (truthy key) || is_string key
  | _ => false
  end.

Definition profiles_typed (usage : json) (items : dict) : bool :=
  forallb (fun kv : string * json =>
             stats_typed usage (fst kv) && pdata_typed (snd kv)) items.

(** The cooldown of the profile [pid], as a read at time [now] must report
    it in [p], given the usage table [u]:
    - an entry with [cooldownUntil = T + 5000] read at [T] is in cooldown,
      with a remaining time in (0, 5000]; read at [T + 6000] it is not, and
      the remaining time is 0;
    - without a cooldown entry the profile is not in cooldown. *)
Definition cooldown_ok (u : dict) (now : Q) (pid : string) (p : auth_profile)
  : Prop :=
  (forall st cu T,
      lookup pid u = Some (JObj st) ->
      lookup "cooldownUntil" st = Some (JNum cu) ->
      (cu == T + 5000)%Q ->
      ((now == T)%Q ->
       ap_in_cooldown p = true /\
       (0 < ap_cooldown_remaining_ms p)%Q /\
       (ap_cooldown_remaining_ms p <= 5000)%Q) /\
      ((now == T + 6000)%Q ->
       ap_in_cooldown p = false /\
       (ap_cooldown_remaining_ms p == 0)%Q)) /\
  ((0 <= now)%Q ->
   (lookup pid u = None \/
    exists st, lookup pid u = Some (JObj st) /\
               lookup "cooldownUntil" st = None) ->
   ap_in_cooldown p = false /\ (ap_cooldown_remaining_ms p == 0)%Q).

(** ** Worlds of the examples *)

(** The CLI times out and the credential file cannot be read. *)
Definition w_offline : world :=
  {| w_clock := fun _ => (1770900000000 # 1)%Q;
     w_ticks := 0;
     w_auth_file := Raise OSError;
     w_models_status := Raise OSError |}.

(** A machine whose clock stands one millisecond before the epoch. *)
Definition w_pre_epoch : world :=
  {| w_clock := fun _ => (-1 # 1)%Q;
     w_ticks := 0;
     w_auth_file := Raise OSError;
     w_models_status := Raise OSError |}.

(** A credential store with one profile in cooldown until 5000 ms after
    the clock of [w_offline], and one profile without a usage entry. *)
Definition cooling_auth : json :=
  JObj
    [("profiles",
      JObj [("google-gemini-cli:bob",
             JObj [("type", JStr "oauth"); ("provider", JStr "google-gemini-cli")]);
            ("groq:manual",
             JObj [("type", JStr "apiKey"); ("provider", JStr "groq");
                   ("apiKey", JStr "gsk_0123456789abcdef")])]);
     ("usageStats",
      JObj [("google-gemini-cli:bob",
             JObj [("errorCount", JNum (2 # 1));
                   ("cooldownUntil", JNum (1770900005000 # 1))])])].

(** A data layer that holds the snapshot of [SAMPLE_STATUS]. *)
Definition dl_sample : DataLayer :=
  {| _log_queue := [];
     _tailer := AtOuter;
     _status := match parse_model_status SAMPLE_STATUS with
                | Ok snap => Some snap
                | Raise _ => None
                end;
     _profiles := [] |}.

(** ** What a health snapshot may hold

    [pid], [sessions] and [agents] of [g] are set only to what one of
    [lines] gives: a field that no line gives stays unset. *)
Definition found_in (lines : list string) (g : gateway_status) : Prop :=
  (forall m, gw_pid g = Some m ->
     exists l, In l lines /\
               (contains "PID" l || contains "pid" l) = true /\
               search_digits4 EmptyString l = Some m) /\
  (forall m, gw_sessions g = Some m ->
     exists l, In l lines /\
               contains "Session store" l = true /\
               search_entries l = Some m) /\
  (forall v, gw_agents g = Some v ->
     exists l, In l lines /\
               startswith "Agents:" (strip l) = true /\
               v = JNum (inject_Z (Z.of_nat
                     (length (split_on "," (strip (after_colon l))))))).

(** ** The lines that give an event

    What [_parse_log_line] needs of a decoded line to return an event: an
    object, whose [_meta] is an object when present, whose [logLevelName] is
    a str when present, and whose [time] is a str when present. *)
Definition log_line_typed (decoded : result json) : bool :=
  match decoded with
  | Ok (JObj d) =>
      match dict_get d "_meta" (JObj []) with
      | JObj meta =>
          is_string (dict_get meta "logLevelName" (JStr "INFO"))
          && is_string (dict_get d "time" (JStr empty_str))
      | _ => false
      end
  | _ => false
  end.

(** ** The events that pass through the queue

    Three readings of a run, for the statement that nothing is lost on the
    way from the log file to the poller. *)

(** The event a turn of the tailer takes from the file. *)
Definition accepted `{PyJson} (e : env) (dl : DataLayer) : list log_event :=
  match _tailer dl with
  | Tailing _ =>
      if stop_set e then []
      else match next_read e with
           | ReadLine line =>
               match _parse_log_line (strip line) with
               | Ok (Some parsed) => [parsed]
               | _ => []
               end
           | _ => []
           end
  | _ => []
  end.

(** The events in flight: the queue, then the event the tailer holds
    inside [put]. *)
Definition in_flight (dl : DataLayer) : list log_event :=
  _log_queue dl ++
  match _tailer dl with
  | InPut _ ev => [ev]
  | _ => []
  end.

(** The events a run takes from the file, and the events its
    [get_nowait] calls return, in order. *)
Fixpoint run_accepted `{PyJson} (acts : list action) (dl : DataLayer)
  : list log_event :=
  match acts with
  | [] => []
  | a :: rest =>
      match a with
      | TailerTurn e => accepted e dl
      | ConsumerGet => []
      end ++ run_accepted rest (act dl a)
  end.

Fixpoint run_delivered `{PyJson} (acts : list action) (dl : DataLayer)
  : list log_event :=
  match acts with
  | [] => []
  | a :: rest =>
      match a with
      | TailerTurn _ => []
      | ConsumerGet =>
          match get_nowait (_log_queue dl) with
          | Ok (x, _) => [x]
          | Raise _ => []
          end
      end ++ run_delivered rest (act dl a)
  end.

(** ** Dict updates, as the program does them in place

    A decoded document is a tree without sharing, so an update in place of
    a value inside it is the update of the tree. *)

(** [d[k] = v]: the value is replaced where the key stands, a new key
    goes to the end. *)
Fixpoint dict_put (d : dict) (k : string) (v : json) : dict :=
  match d with
  | [] => [(k, v)]
  | (k', v') :: d' =>
      if String.eqb k k' then (k, v) :: d' else (k', v') :: dict_put d' k v
  end.

(** [d.pop(k, None)], for the dict that remains. *)
Definition dict_pop (d : dict) (k : string) : dict :=
  filter (fun kv : string * json => negb (String.eqb k (fst kv))) d.

(** [o.setdefault(k, dflt)]: the value now under [k], and the dict [o] has
    become. *)
Definition py_setdefault (o : json) (k : string) (dflt : json)
  : result (json * dict) :=
  match o with
  | JObj d =>
      match lookup k d with
      | Some v => Ok (v, d)
      | None => Ok (dflt, d ++ [(k, dflt)])
      end
  | _ => Raise AttributeError
  end.

(** [x in v] for a str [x]: a key of a dict, an element of a list, a
    substring of a str. *)
Definition py_in (x : string) (v : json) : result bool :=
  match v with
  | JObj d => Ok (match lookup x d with Some _ => true | None => false end)
  | JArr l => Ok (existsb (is_str x) l)
  | JStr s => Ok (contains x s)
  | _ => Raise TypeError
  end.

(** [v[k]] for a str [k]: a dict only (a list or a str wants an int). *)
Definition py_getitem (v : json) (k : string) : result json :=
  match v with
  | JObj d => match lookup k d with
              | Some x => Ok x
              | None => Raise ValueError      (* KeyError *)
              end
  | _ => Raise TypeError
  end.

(** [v.pop(k, None)], for what [v] has become: a dict only ([list.pop]
    takes one argument, nothing else has [pop]). *)
Definition py_pop (v : json) (k : string) : result dict :=
  match v with
  | JObj d => Ok (dict_pop d k)
  | JArr _ => Raise TypeError
  | _ => Raise AttributeError
  end.

(** [v[k] = x] for a str [k], for what [v] has become. *)
Definition py_setitem (v : json) (k : string) (x : json) : result dict :=
  match v with
  | JObj d => Ok (dict_put d k x)
  | _ => Raise TypeError
  end.

(** [v.append(x)], for what [v] has become. *)
Definition py_append (v : json) (x : json) : result (list json) :=
  match v with
  | JArr l => Ok (l ++ [x])
  | _ => Raise AttributeError
  end.

(** [o.values()] *)
Definition py_values (o : json) : result (list json) :=
  match o with
  | JObj d => Ok (map snd d)
  | _ => Raise AttributeError
  end.

(** ** The two files the program reads and writes *)

(** [json.dumps(v, indent=2)] *)
Class PyJsonIndent : Type := {
  json_dumps_indent2 : json -> string
}.

(** How a [write_text] that raises leaves the file.  [write_text] opens
    the file with mode ["w"] and then writes: when the [open] raises, the
    file is as it was; once it is open it has been truncated, and what the
    exception leaves in it is the part of the text written so far, the first
    [reached] characters (none of it, or all of it when it is the closing
    that raises). *)
Inductive write_failure : Type :=
| OpenFails
| WriteFails (reached : nat).

(** [f_auth] and [f_config] are what [read_text] gives for
    [AUTH_PROFILES] and [OPENCLAW_JSON]: the text, or the exception.  The
    other fields say what the next [write_text] to each file does: whether
    it raises, and how when it does. *)
Record files : Type := {
  f_auth : result string;
  f_config : result string;
  f_auth_write_fails : bool;
  f_config_write_fails : bool;
  f_auth_failure : write_failure;
  f_config_failure : write_failure
}.


Definition with_config (fs : files) (content : result string) : files :=
  {| f_auth := f_auth fs; f_config := content;
     f_auth_write_fails := f_auth_write_fails fs;
     f_config_write_fails := f_config_write_fails fs;
     f_auth_failure := f_auth_failure fs;
     f_config_failure := f_config_failure fs |}.

(** What is in a file after a [write_text(text)] that raised. *)
Definition after_failure (how : write_failure) (before : result string)
           (text : string) : result string :=
  match how with
  | OpenFails => before
  | WriteFails reached => Ok (str_take reached text)
  end.


(** [OPENCLAW_JSON.write_text(text)] *)
Definition write_config (fs : files) (text : string) : result unit * files :=
  if f_config_write_fails fs
  then (Raise OSError,
        with_config fs
          (after_failure (f_config_failure fs) (f_config fs) text))
  else (Ok tt, with_config fs (Ok text)).

(** ** Clearing a cooldown ([_clear_cooldown_in_file]) *)

(** The lines between the read and the write: what [data] has become. *)
Definition clear_cooldown (profile_id : string) (data : json) : result json :=
  sd <- py_setdefault data "usageStats" (JObj []) ;;
  let (stats, d1) := sd in
  present <- py_in profile_id stats ;;
  if present then
    entry <- py_getitem stats profile_id ;;
    popped <- py_pop entry "cooldownUntil" ;;
    let entry' := dict_put popped "errorCount" (JNum 0%Q) in
    stats' <- py_setitem stats profile_id (JObj entry') ;;
    Ok (JObj (dict_put d1 "usageStats" (JObj stats')))
  else Ok (JObj d1).

Section Files.
Context `{PyJson} `{PyJsonIndent}.


End Files.

(** ** The provider list ([_load_providers]) *)

Record provider : Type := {
  pv_id : string;
  pv_base_url : json;
  pv_api_key : json;
  pv_models : json;
  pv_auth_tag : string
}.

Definition PLACEHOLDER_KEY : string := "from-auth-profiles".

(** [sum(1 for p in ... if p.get("provider") == pid and p.get("type") == "oauth")] *)
Fixpoint count_oauth (pid : string) (ps : list json) : result nat :=
  match ps with
  | [] => Ok 0
  | p :: rest =>
      prov <- py_get p "provider" JNull ;;
      hit <- (if is_str pid prov
              then ty <- py_get p "type" JNull ;; Ok (is_str "oauth" ty)
              else Ok false) ;;
      n <- count_oauth pid rest ;;
      Ok (if hit then S n else n)
  end.

(** [v.startswith(p)] on any value. *)
Definition py_startswith (p : string) (v : json) : result bool :=
  match v with
  | JStr s => Ok (startswith p s)
  | _ => Raise AttributeError
  end.

(** The [if]/[elif] chain that gives the tag. *)
Definition auth_tag_of (oauth_count : nat) (api_key : json) (pdata : json)
  : result string :=
  if negb (Nat.eqb oauth_count 0) then
    Ok ("OAUTH " ++ str_of_nat oauth_count)%string
  else if truthy api_key && negb (is_str PLACEHOLDER_KEY api_key) then
    Ok "API KEY"
  else
    url <- py_get pdata "baseUrl" (JStr empty_str) ;;
    loopback <- py_startswith "http://127" url ;;
    if loopback then Ok "LOCAL  "
    else
      url' <- py_get pdata "baseUrl" (JStr empty_str) ;;
      localhost <- py_startswith "http://localhost" url' ;;
      if localhost then Ok "LOCAL  " else Ok "CUSTOM ".

(** One turn of the loop over [providers_cfg.items()]. *)
Definition provider_entry (auth_profiles : json) (pid : string) (pdata : json)
  : result provider :=
  profs <- py_get auth_profiles "profiles" (JObj []) ;;
  vals <- py_values profs ;;
  oauth_count <- count_oauth pid vals ;;
  api_key <- py_get pdata "apiKey" (JStr empty_str) ;;
  auth_tag <- auth_tag_of oauth_count api_key pdata ;;
  base_url <- py_get pdata "baseUrl" (JStr empty_str) ;;
  models <- py_get pdata "models" (JArr []) ;;
  Ok {| pv_id := pid;
        pv_base_url := base_url;
        pv_api_key := api_key;
        pv_models := models;
        pv_auth_tag := auth_tag |}.

(** The loop, given the provider table and the decoded credential store. *)
Definition providers_of (providers_cfg auth_profiles : json)
  : result (list provider) :=
  items <- py_items providers_cfg ;;
  mapM (fun kv : string * json =>
          provider_entry auth_profiles (fst kv) (snd kv)) items.

(** ** Adding and removing a provider
       ([_write_new_provider], [ProviderScreen._remove_current]) *)

(** [api_key or "from-auth-profiles"] *)
Definition key_or_placeholder (api_key : string) : string :=
  if String.eqb api_key EmptyString then PLACEHOLDER_KEY else api_key.

Definition new_provider (base_url api_key : string) : json :=
  JObj [("baseUrl", JStr base_url);
        ("apiKey", JStr (key_or_placeholder api_key));
        ("api", JStr "openai-completions");
        ("models", JArr [])].

(** The first half of [_write_new_provider]: [cfg] after
    [providers[name] = {...}]. *)
Definition put_provider (name base_url api_key : string) (cfg : json)
  : result dict :=
  sm <- py_setdefault cfg "models" (JObj []) ;;
  let (models, d1) := sm in
  sp <- py_setdefault models "providers" (JObj []) ;;
  let (providers, m1) := sp in
  providers' <- py_setitem providers name (new_provider base_url api_key) ;;
  Ok (dict_put d1 "models" (JObj (dict_put m1 "providers" (JObj providers')))).

(** The second half, under [if add_to_rotation]: [cfg] after
    [fallbacks.append(f"{name}/default")]. *)
Definition append_fallback (name : string) (d : dict) : result dict :=
  sa <- py_setdefault (JObj d) "agents" (JObj []) ;;
  let (agents, d1) := sa in
  sd <- py_setdefault agents "defaults" (JObj []) ;;
  let (defaults, a1) := sd in
  sm <- py_setdefault defaults "model" (JObj []) ;;
  let (model, df1) := sm in
  sf <- py_setdefault model "fallbacks" (JArr []) ;;
  let (fallbacks, mo1) := sf in
  fallbacks' <- py_append fallbacks (JStr (name ++ "/default")) ;;
  Ok (dict_put d1 "agents"
        (JObj (dict_put a1 "defaults"
           (JObj (dict_put df1 "model"
              (JObj (dict_put mo1 "fallbacks" (JArr fallbacks')))))))).

Definition add_provider (name base_url api_key : string)
           (add_to_rotation : bool) (cfg : json) : result json :=
  d <- put_provider name base_url api_key cfg ;;
  if add_to_rotation
  then d' <- append_fallback name d ;; Ok (JObj d')
  else Ok (JObj d).

(** [cfg.get("models", {}).get("providers", {}).pop(pid, None)]: what
    [cfg] has become.  A default that [get] returns is not part of [cfg], so
    popping from it changes nothing. *)
Definition remove_provider (pid : string) (cfg : json) : result json :=
  models <- py_get cfg "models" (JObj []) ;;
  providers <- py_get models "providers" (JObj []) ;;
  providers' <- py_pop providers pid ;;
  Ok match cfg, models with
     | JObj d, JObj m =>
         match lookup "models" d, lookup "providers" m with
         | Some _, Some _ =>
             JObj (dict_put d "models"
                     (JObj (dict_put m "providers" (JObj providers'))))
         | _, _ => cfg
         end
     | _, _ => cfg
     end.

Section ConfigFiles.
Context `{PyJson} `{PyJsonIndent}.

Definition _load_providers (fs : files) : result (list provider) :=
  try_except
    (text <- f_config fs ;;
     cfg <- json_loads text ;;
     models <- py_get cfg "models" (JObj []) ;;
     providers_cfg <- py_get models "providers" (JObj []) ;;
     auth_text <- f_auth fs ;;
     auth_profiles <- json_loads auth_text ;;
     providers_of providers_cfg auth_profiles)
    (Ok []).

(** [try: cfg = ...; change; write_text(json.dumps(cfg, indent=2))
    except Exception: pass], for the files it leaves: [change] is what the
    lines between the read and the write make of [cfg].  An exception of the
    write is passed over like any other, and what the write did to the file
    before it raised stays done. *)
Definition rewrite_config (change : json -> result json) (fs : files)
  : result files :=
  match (text <- f_config fs ;;
         cfg <- json_loads text ;;
         change cfg) with
  | Ok cfg' => Ok (snd (write_config fs (json_dumps_indent2 cfg')))
  | Raise _ => Ok fs                          (* except Exception: pass *)
  end.

Definition _write_new_provider (name base_url api_key : string)
           (add_to_rotation : bool) (fs : files) : result files :=
  rewrite_config (add_provider name base_url api_key add_to_rotation) fs.

(** The [try] block of [_remove_current]. *)
Definition remove_provider_in_file (pid : string) (fs : files) : result files :=
  rewrite_config (remove_provider pid) fs.

End ConfigFiles.

(** ** [json.dumps(v, indent=2)] for the fragment *)

Module MiniJsonIndent.

Fixpoint indent_of (level : nat) : string :=
  match level with
  | O => EmptyString
  | S level' => ("  " ++ indent_of level')%string
  end.

Definition newline_indent (level : nat) : string :=
  String nl (indent_of level).

(** Items one per line at [level + 1], the closing bracket at [level];
    an empty container on one line. *)
Definition block (open_ close_ : string) (level : nat) (items : list string)
  : string :=
  match items with
  | [] => (open_ ++ close_)%string
  | _ => (open_ ++ newline_indent (S level)
            ++ join ("," ++ newline_indent (S level)) items
            ++ newline_indent level ++ close_)%string
  end.

Fixpoint dumps (level : nat) (v : json) : string :=
  match v with
  | JArr l => block "[" "]" level (map (dumps (S level)) l)
  | JObj d =>
      block "{" "}" level
        (map (fun kv : string * json =>
                let (k, x) := kv in
                (MiniJson.dumps_str k ++ ": " ++ dumps (S level) x)%string) d)
  | _ => MiniJson.dumps v
  end.

#[export] Instance printer : PyJsonIndent :=
  {| json_dumps_indent2 := dumps 0 |}.

End MiniJsonIndent.

(** ** A profile after its cooldown was cleared

    [p] as a read reports it once [_clear_cooldown_in_file] has run for
    [profile_id]: not in cooldown, nothing remaining, no errors counted; any
    other profile as it was. *)
Definition cleared (profile_id : string) (p : auth_profile) : auth_profile :=
  if String.eqb (ap_profile_id p) profile_id then
    {| ap_profile_id := ap_profile_id p;
       ap_provider := ap_provider p;
       ap_auth_type := ap_auth_type p;
       ap_email := ap_email p;
       ap_api_key := ap_api_key p;
       ap_expires_ms := ap_expires_ms p;
       ap_in_cooldown := false;
       ap_cooldown_remaining_ms := 0%Q;
       ap_error_count := JNum 0%Q;
       ap_last_used_ms := ap_last_used_ms p |}
  else p.

(** ** Readings of a configuration document *)

(** [p] is an OAuth profile of the provider [pid]. *)
Definition is_oauth_of (pid : string) (p : json) : bool :=
  match p with
  | JObj pd =>
      is_str pid (dict_get pd "provider" JNull)
      && is_str "oauth" (dict_get pd "type" JNull)
  | _ => false
  end.

(** The profiles of a decoded credential store. *)
Definition profiles_of_store (auth_profiles : json) : list json :=
  match auth_profiles with
  | JObj a =>
      match dict_get a "profiles" (JObj []) with
      | JObj ps => map snd ps
      | _ => []
      end
  | _ => []
  end.

(** [models.providers] of a configuration, empty when it is not there. *)
Definition providers_table (d : dict) : dict :=
  match dict_get d "models" (JObj []) with
  | JObj m =>
      match dict_get m "providers" (JObj []) with
      | JObj p => p
      | _ => []
      end
  | _ => []
  end.

(** [agents.defaults.model.fallbacks] of a configuration, empty when it is
    not there. *)
Definition fallbacks_of (d : dict) : list json :=
  match dict_get d "agents" (JObj []) with
  | JObj a =>
      match dict_get a "defaults" (JObj []) with
      | JObj df =>
          match dict_get df "model" (JObj []) with
          | JObj mo =>
              match dict_get mo "fallbacks" (JArr []) with
              | JArr l => l
              | _ => []
              end
          | _ => []
          end
      | _ => []
      end
  | _ => []
  end.

(** ** Sample files for the provider functions *)

(** A configuration with three providers and one fallback. *)
Definition config_doc : json :=
  JObj [("models",
         JObj [("mode", JStr "merge");
               ("providers",
                JObj [("groq",
                       JObj [("baseUrl", JStr "https://api.groq.com/openai/v1");
                             ("apiKey", JStr "gsk_abc");
                             ("models", JArr [JStr "llama-3.3-70b-versatile"])]);
                      ("ollama",
                       JObj [("baseUrl", JStr "http://127.0.0.1:11434/v1")]);
                      ("google-gemini-cli",
                       JObj [("apiKey", JStr "from-auth-profiles")])])]);
        ("agents",
         JObj [("defaults",
                JObj [("model",
                       JObj [("primary", JStr "groq/llama-3.3-70b-versatile");
                             ("fallbacks",
                              JArr [JStr "ollama/qwen3"])])])])].

(** A credential store with an OAuth profile for one of them. *)
Definition store_doc : json :=
  JObj [("profiles",
         JObj [("groq:manual",
                JObj [("type", JStr "apiKey"); ("provider", JStr "groq");
                      ("apiKey", JStr "gsk_abc")]);
               ("google-gemini-cli:bob",
                JObj [("type", JStr "oauth");
                      ("provider", JStr "google-gemini-cli");
                      ("expires", JNum 5000%Q)])]);
        ("usageStats", JObj [])].

Definition config_files : files :=
  {| f_auth := Ok (MiniJsonIndent.dumps 0 store_doc);
     f_config := Ok (MiniJsonIndent.dumps 0 config_doc);
     f_auth_write_fails := false;
     f_config_write_fails := false;
     f_auth_failure := OpenFails;
     f_config_failure := OpenFails |}.



(** ** Bars ([make_bar], [bar_color]) *)

(** A [str] that has characters beyond Latin-1, the block characters of a
    bar: the list of its code points. *)
Definition text : Type := list N.

Definition of_str (s : string) : text :=
  map N_of_ascii (list_ascii_of_string s).

(** [t * n]: nothing for a negative [n]. *)
Definition py_repeat (t : text) (n : Z) : text :=
  concat (repeat t (Z.to_nat n)).

Definition LEFT_EDGE : text := [9621%N].      (* U+2595 *)
Definition FULL_BLOCK : text := [9608%N].     (* U+2588 *)
Definition LIGHT_SHADE : text := [9617%N].    (* U+2591 *)
Definition RIGHT_EDGE : text := [9615%N].     (* U+258F *)
Definition POINTER : text := [9658%N].        (* U+25BA *)

(** [min(1.0, x)] *)
Definition min1 (x : Q) : Q := if Qgtb 1%Q x then x else 1%Q.

(** [round(x)]: to the nearest integer, a tie to the even one. *)
Definition py_round (x : Q) : Z :=
  let f := Qfloor x in
  match Qcompare (x - inject_Z f)%Q (1 # 2)%Q with
  | Lt => f
  | Gt => (f + 1)%Z
  | Eq => if Z.even f then f else (f + 1)%Z
  end.

(** The local [filled] of [make_bar]. *)
Definition filled (pct : Q) (width : Z) : Z :=
  py_round (max0 (min1 pct) * inject_Z width)%Q.

Definition make_bar (pct : Q) (width : Z) : text :=
  LEFT_EDGE ++ py_repeat FULL_BLOCK (filled pct width)
            ++ py_repeat LIGHT_SHADE (width - filled pct width)%Z
            ++ RIGHT_EDGE.

Definition bar_color (pct : Q) : string :=
  if Qgtb pct (1 # 2)%Q then "green"
  else if Qgtb pct (1 # 5)%Q then "yellow"
  else "red".

(** ** The account panel ([AuthPanelWidget.render]) *)

(** [Text(content, style=style)] *)
Record Text : Type := {
  content : text;
  style : string
}.

(** [Text(s, style=st)] for a [str] of plain characters. *)
Definition plain (s : string) (st : string) : Text :=
  {| content := of_str s; style := st |}.

(** [int(x)]: towards zero. *)
Definition py_int (x : Q) : Z := Z.quot (Qnum x) (Zpos (Qden x)).

(** [f"{n:02d}"] *)
Definition pad2 (n : Z) : string :=
  if Z.leb 0 n && Z.ltb n 10 then ("0" ++ MiniJson.str_of_Z n)%string
  else MiniJson.str_of_Z n.

(** [f"{rem_s // 60}m {rem_s % 60:02d}s"] *)
Definition minutes_seconds (rem_s : Z) : string :=
  (MiniJson.str_of_Z (rem_s / 60) ++ "m " ++ pad2 (rem_s mod 60) ++ "s")%string.

Definition BAR_WIDTH : Z := 18.

(** [p.get("api_key") or "key set"] *)
Definition key_or_set (api_key : option string) : string :=
  match api_key with
  | Some s => if String.eqb s EmptyString then "key set" else s
  | None => "key set"
  end.

(** What the [else] branch shows of an expiry that is there: the text
    after [expires], the fraction of the bar and the colour. *)
Definition expiry_display (exp_ms now : Q) : string * Q * string :=
  let rem_ms := max0 (exp_ms - now)%Q in
  let pct := min1 (rem_ms / 3600000)%Q in
  let rem_s := py_int (rem_ms / 1000)%Q in
  let (rem_fmt, pct') :=
    if Z.leb rem_s 0 then ("EXPIRED", 0%Q)
    else (minutes_seconds rem_s, pct) in
  (rem_fmt, pct', bar_color pct').

(** One turn of the loop over [self.profiles]: the lines it appends. *)
Definition profile_lines (now : Q) (p : auth_profile) : result (list Text) :=
  let pid := ap_profile_id p in
  let short := str_take 22 (last (split_on ":" pid) EmptyString) in
  provider_short <-
    str_method (fun s => str_take 14 (removeprefix "google-" s))
               (ap_provider p) ;;
  let label := (provider_short ++ ":" ++ short)%string in
  if ap_in_cooldown p then
    let rem_s := py_int (ap_cooldown_remaining_ms p / 1000)%Q in
    Ok [plain EmptyString EmptyString;
        plain ("  " ++ label) "bold red";
        plain ("  COOLDOWN  " ++ minutes_seconds rem_s ++ " remaining") "red";
        {| content := of_str "  " ++ make_bar 1%Q BAR_WIDTH ++ of_str "  100%";
           style := "red" |}]
  else if is_str "apiKey" (ap_auth_type p) then
    Ok [plain EmptyString EmptyString;
        plain ("  " ++ label) "yellow";
        plain ("  API KEY  " ++ key_or_set (ap_api_key p)) "dim yellow";
        {| content := of_str "  " ++ make_bar 0%Q BAR_WIDTH ++ of_str "  no exp";
           style := "dim" |}]
  else if truthy (ap_expires_ms p) then
    exp_ms <- as_number (ap_expires_ms p) ;;
    let '(rem_fmt, pct, color) := expiry_display exp_ms now in
    let pct_int := py_int (pct * 100)%Q in
    Ok [plain EmptyString EmptyString;
        plain ("  " ++ label) color;
        plain ("  expires  " ++ rem_fmt) "dim";
        {| content := of_str "  " ++ make_bar pct BAR_WIDTH
                      ++ of_str ("  " ++ MiniJson.str_of_Z pct_int ++ "%");
           style := color |}]
  else
    Ok [plain EmptyString EmptyString;
        plain ("  " ++ label) "cyan";
        plain "  OAuth  no expiry data" "dim"].

(** [AuthPanelWidget.render], [now] being the one reading of the clock at
    its start: the [Text]s of the group it returns. *)
Definition auth_panel_render (now : Q) (profiles : list auth_profile)
  : result (list Text) :=
  lines <- mapM (profile_lines now) profiles ;;
  Ok (plain " AUTH ACCOUNTS" "bold" :: concat lines).

(** ** The model table ([ctx_label], [ModelTableWidget.render]) *)

Definition CTX_MAP : list (string * string) :=
  [("google-gemini-cli", "1024k");
   ("google-antigravity", "1024k");
   ("groq", "128k");
   ("qwen-portal", "125k");
   ("opencode", "256k");
   ("ollama", "125k")].

(** [CTX_MAP.get(provider, dflt)] *)
Fixpoint map_get (m : list (string * string)) (k dflt : string) : string :=
  match m with
  | [] => dflt
  | (k', v) :: m' => if String.eqb k k' then v else map_get m' k dflt
  end.

(** [raw_ctx] is an int or [None]. *)
Definition ctx_label (model_id : string) (raw_ctx : option Z) : string :=
  let given :=
    match raw_ctx with
    | Some n => negb (Z.eqb n 0)
    | None => false
    end in
  let n := match raw_ctx with Some n => n | None => 0%Z end in
  if given then
    if Z.leb 1000000 n then (MiniJson.str_of_Z (n / 1000) ++ "k")%string
    else if Z.leb 1000 n then (MiniJson.str_of_Z (n / 1000) ++ "k")%string
    else MiniJson.str_of_Z n
  else
    let provider := hd EmptyString (split_on "/" model_id) in
    if contains "deepseek" model_id then "16k"
    else if contains "gemma2-9b" model_id then "8k"
    else if contains "sonnet" model_id || contains "claude" model_id
    then "195k"
    else map_get CTX_MAP provider "???".

(** [s.ljust(n)] *)
Definition ljust (n : nat) (s : string) : string :=
  (s ++ string_of_list_ascii (repeat " "%char (n - String.length s)))%string.

(** A row of the table: the name, a [Text] put together from pieces, the
    context size and the status. *)
Record table_row : Type := {
  row_name : list Text;
  row_ctx : string;
  row_status : Text
}.

(** One turn of the loop over [self.rotation]. *)
Definition table_row_of (entry : rotation_entry) : result table_row :=
  let label := re_label entry in
  let status := re_status entry in
  let is_active := String.eqb status "ACTIVE" in
  match re_model entry with
  | JStr model =>
      let provider := hd EmptyString (split_on "/" model) in
      let is_local := String.eqb provider "ollama" in
      let name_text :=
        if is_active then
          [{| content := POINTER; style := "bold cyan" |};
           plain (" " ++ label) "bold cyan"]
        else
          [plain ("  " ++ label)
                 (if negb is_local then "dim white" else "green")] in
      let status_text :=
        if String.eqb status "ACTIVE" then plain "[ACTIVE]" "bold cyan"
        else if is_local then plain "[LOCAL] " "bold green"
        else if contains "COOLDOWN" status then plain "COOLDOWN" "bold red"
        else plain (ljust 7 status) "dim white" in
      Ok {| row_name := name_text;
            row_ctx := ctx_label model None;
            row_status := status_text |}
  | _ => Raise AttributeError        (* [model.split] *)
  end.

(** [ModelTableWidget.render]: the rows of the table it returns. *)
Definition model_table_render (rotation : list rotation_entry)
  : result (list table_row) :=
  mapM table_row_of rotation.

(** The model of an entry is one of the provider [ollama]. *)
Definition is_local_entry (e : rotation_entry) : bool :=
  match re_model e with
  | JStr model => String.eqb (hd EmptyString (split_on "/" model)) "ollama"
  | _ => false
  end.

(** ** The log panel ([DashboardScreen._drain_logs]) *)

(** [log.write(line)] on the panel, a [RichLog(markup=True)]: the line is
    read as console markup, and a line that the library cannot read (a
    closing tag with nothing to close, as a message with [[/tmp/x]] in it
    makes one) raises.  Which lines those are is the library's:
    [markup_ok line] says that [log.write(line)] returns. *)
Class RichMarkup : Type := {
  markup_ok : string -> bool
}.

Module DashboardScreen.

(** What the method reads and changes: the [verbose] flag, the data layer,
    the text of [#log-header] and the lines written to [#log-panel], oldest
    first. *)
Record screen : Type := {
  verbose : bool;
  _data : DataLayer;
  log_header : string;
  log_panel : list string
}.

(** The [if]/[elif] chain that gives [style]. *)
Definition style_of (level subsys : string) : string :=
  if String.eqb level "ERROR" || contains "error" subsys then "red"
  else if str_in subsys ["ratelimit"; "fallback"] then "yellow"
  else if String.eqb subsys "model" then "cyan"
  else "dim white".

(** The line that [log.write] gets for an event. *)
Definition markup (event : log_event) : string :=
  let level := ev_level event in
  let subsys := ev_subsystem event in
  let msg := ev_message event in
  let ts := str_take 8 (str_drop 11 (ev_time event)) in
  ("[dim]" ++ ts ++ "[/]  [" ++ style_of level subsys ++ "]"
   ++ ljust 12 subsys ++ "[/] " ++ str_take 80 msg)%string.

(** The method returned; or a [log.write] raised and the exception left
    the method, the screen being as it was then; or [acts] ends with
    [drain_logs] in its loop. *)
Inductive poll : Type :=
| Polled (s : screen)
| PollRaised (s : screen)
| PollDraining (s : screen).

Section Methods.
Context `{PyJson} `{RichMarkup}.

(** The [for] loop over the drained events: whether it ran to its end, and
    the panel when it ended or a [log.write] raised. *)
Fixpoint write_events (verbose : bool) (events : list log_event)
         (panel : list string) : bool * list string :=
  match events with
  | [] => (true, panel)
  | event :: rest =>
      if negb verbose && negb (ev_important event)
      then write_events verbose rest panel                  (* continue *)
      else if markup_ok (markup event)
           then write_events verbose rest (panel ++ [markup event])
           else (false, panel)                      (* [log.write] raises *)
  end.

(** [acts] are the turns of the two threads from the call of [drain_logs]
    on. *)
Definition _drain_logs (acts : list action) (s : screen) : poll :=
  let mode := if verbose s then "[VERBOSE]" else "[FILTERED]" in
  let header := (" LOG  " ++ mode)%string in
  match drain_logs acts (_data s) with
  | Draining _ data =>
      PollDraining {| verbose := verbose s; _data := data;
                      log_header := header; log_panel := log_panel s |}
  | Returns events data =>
      let (done, panel) := write_events (verbose s) events (log_panel s) in
      let s' := {| verbose := verbose s; _data := data;
                   log_header := header; log_panel := panel |} in
      if done then Polled s' else PollRaised s'
  end.

End Methods.

Definition action_toggle_verbose (s : screen) : screen :=
  {| verbose := negb (verbose s);
     _data := _data s;
     log_header := log_header s;
     log_panel := log_panel s |}.

End DashboardScreen.

(** For the examples: a panel that cannot read a line with the closing tag
    [[/tmp/x]] in it, and reads every other line. *)
Definition no_tmp_x : RichMarkup :=
  {| markup_ok := fun line => negb (contains "[/tmp/x]" line) |}.

(** An error whose message names a path in brackets. *)
Definition path_event : log_event :=
  {| ev_time := "2026-02-12 10:11:13";
     ev_subsystem := "model";
     ev_message := "cannot read [/tmp/x]";
     ev_level := "ERROR";
     ev_important := true |}.

(** A dashboard in filtered mode with two events queued, the second
    one [path_event]. *)
Definition dashboard_two : DashboardScreen.screen :=
  {| DashboardScreen.verbose := false;
     DashboardScreen._data :=
       {| _log_queue := [reload_event; path_event];
          _tailer := Tailing old_path;
          _status := None;
          _profiles := [] |};
     DashboardScreen.log_header := " LOG  [FILTERED]";
     DashboardScreen.log_panel := [] |}.



(** ** More of [str] and [list]: [lower], [isprintable], [l[i]] *)

(** [c.lower()], for the characters of Latin-1. *)
Definition lower_char (c : ascii) : ascii :=
  let n := nat_of_ascii c in
  if Nat.leb 65 n && Nat.leb n 90
     || Nat.leb 192 n && Nat.leb n 214
     || Nat.leb 216 n && Nat.leb n 222
  then ascii_of_nat (n + 32) else c.

(** [s.lower()] *)
Fixpoint lower (s : string) : string :=
  match s with
  | EmptyString => EmptyString
  | String c s' => String (lower_char c) (lower s')
  end.

Definition isprintable_char (c : ascii) : bool :=
  let n := nat_of_ascii c in
  Nat.leb 32 n && Nat.leb n 126
  || Nat.leb 161 n && Nat.leb n 172
  || Nat.leb 174 n.

(** [s.isprintable()] *)
Fixpoint isprintable (s : string) : bool :=
  match s with
  | EmptyString => true
  | String c s' => isprintable_char c && isprintable s'
  end.

(** [s[:-1]] *)
Definition drop_last (s : string) : string :=
  str_take (String.length s - 1) s.

(** [l[i]] for an int [i], counted from the end when it is negative;
    [None] is the [IndexError]. *)
Definition py_index {A : Type} (l : list A) (i : Z) : option A :=
  if Z.leb 0 i then nth_error l (Z.to_nat i)
  else if Z.leb (- Z.of_nat (length l)) i
       then nth_error l (Z.to_nat (Z.of_nat (length l) + i))
       else None.

(** ** The model picker ([SwitchModelScreen]) *)

Module SwitchModelScreen.

(** [list_body] is what [#model-list-body] shows: a row is the list of
    the pieces appended to its [Text]. *)
Record screen : Type := {
  _rotation : list rotation_entry;
  _cursor : Z;
  _filter : string;
  list_body : list (list Text)
}.

Definition init (rotation : list rotation_entry) : screen :=
  {| _rotation := rotation; _cursor := 0; _filter := EmptyString;
     list_body := [] |}.

Definition _filtered (s : screen) : list rotation_entry :=
  if String.eqb (_filter s) EmptyString then _rotation s
  else filter (fun e => contains (lower (_filter s)) (lower (re_label e)))
              (_rotation s).

(** One turn of the loop of [_render_list], for the entry at index [i]. *)
Definition row_of (cursor : Z) (i : nat) (e : rotation_entry)
  : result (list Text) :=
  let status := re_status e in
  is_local <- py_startswith "ollama/" (re_model e) ;;
  let (tag, tag_style) :=
    if String.eqb status "ACTIVE" then ("[ACTIVE]", "bold cyan")
    else if is_local then ("[LOCAL] ", "bold green")
    else ((" " ++ ljust 7 status)%string, "dim white") in
  Ok (if Z.eqb (Z.of_nat i) cursor then
        [{| content := POINTER; style := "bold cyan" |};
         plain (" " ++ tag ++ " ") tag_style;
         plain (re_label e) "bold cyan on #1a2a3a"]
      else
        [plain "  " EmptyString;
         plain (" " ++ tag ++ " ") tag_style;
         plain (re_label e)
               (if negb is_local then "dim white" else "green")]).

Fixpoint rows_from (cursor : Z) (i : nat) (entries : list rotation_entry)
  : result (list (list Text)) :=
  match entries with
  | [] => Ok []
  | e :: rest =>
      row <- row_of cursor i e ;;
      rows <- rows_from cursor (S i) rest ;;
      Ok (row :: rows)
  end.

Definition _render_list (s : screen) : result screen :=
  lines <- rows_from (_cursor s) 0 (_filtered s) ;;
  Ok {| _rotation := _rotation s; _cursor := _cursor s;
        _filter := _filter s; list_body := lines |}.

Definition with_cursor (s : screen) (cursor : Z) : screen :=
  {| _rotation := _rotation s; _cursor := cursor;
     _filter := _filter s; list_body := list_body s |}.

Definition with_filter (s : screen) (flt : string) : screen :=
  {| _rotation := _rotation s; _cursor := _cursor s;
     _filter := flt; list_body := list_body s |}.

(** [on_key(event)], [key] being [event.key]. *)
Definition on_key (key : string) (s : screen) : result screen :=
  let entries := _filtered s in
  if String.eqb key "up" then
    _render_list (with_cursor s (Z.max 0 (_cursor s - 1)))
  else if String.eqb key "down" then
    _render_list
      (with_cursor s (Z.min (Z.of_nat (length entries) - 1) (_cursor s + 1)))
  else if String.eqb key "slash" then
    _render_list (with_filter s EmptyString)
  else if Nat.eqb (String.length key) 1 && isprintable key
          && negb (contains key (String nl (String (ascii_of_nat 13)
                                                   EmptyString))) then
    _render_list (with_cursor (with_filter s (_filter s ++ key)) 0)
  else if String.eqb key "backspace"
          && negb (String.eqb (_filter s) EmptyString) then
    _render_list (with_cursor (with_filter s (drop_last (_filter s))) 0)
  else Ok s.

(** What [action_select] does: it dismisses the screen with a model, does
    nothing, or raises from [entries[self._cursor]]. *)
Inductive selection : Type :=
| Dismissed (model : json)
| Nothing
| IndexError.

Definition action_select (s : screen) : selection :=
  let entries := _filtered s in
  match entries with
  | [] => Nothing
  | _ => match py_index entries (_cursor s) with
         | Some e => Dismissed (re_model e)
         | None => IndexError
         end
  end.

(** The keys of [keys], one after the other. *)
Fixpoint run (keys : list string) (s : screen) : result screen :=
  match keys with
  | [] => Ok s
  | key :: rest => s' <- on_key key s ;; run rest s'
  end.

End SwitchModelScreen.

(** The cursor of a list screen is where the screens keep it: at [-1] at
    the least, and at 0 or before the end of the list shown. *)
Definition cursor_in (cursor : Z) (shown : nat) : Prop :=
  (-1 <= cursor)%Z /\ ((cursor <= 0)%Z \/ (cursor < Z.of_nat shown)%Z).

(** A rotation as [parse_model_status] makes it: the models are strs. *)
Definition models_typed (rotation : list rotation_entry) : Prop :=
  Forall (fun e => is_string (re_model e) = true) rotation.

(** The rotation of [SAMPLE_STATUS]. *)
Definition sample_rotation : list rotation_entry :=
  match parse_model_status SAMPLE_STATUS with
  | Ok snap => sn_rotation snap
  | Raise _ => []
  end.

(** ** The cooldown picker ([ClearCooldownScreen]) *)

Module ClearCooldownScreen.

(** [list_body] is what [#cooldown-list] shows: rows of pieces, or the one
    plain line of [on_mount]. *)
Record screen : Type := {
  _profiles : list auth_profile;
  _cursor : Z;
  list_body : list (list Text)
}.

Definition init (profiles : list auth_profile) : screen :=
  {| _profiles := filter ap_in_cooldown profiles;
     _cursor := 0;
     list_body := [] |}.

(** One turn of the loop of [_render], for the profile at index [i]. *)
Definition row_of (cursor : Z) (i : nat) (p : auth_profile) : list Text :=
  let rem_s := py_int (ap_cooldown_remaining_ms p / 1000)%Q in
  let rem := minutes_seconds rem_s in
  if Z.eqb (Z.of_nat i) cursor then
    [{| content := POINTER; style := "bold cyan" |};
     plain ("  " ++ ljust 30 (ap_profile_id p) ++ " " ++ rem)
           "bold red on #1a2a3a"]
  else
    [plain ("   " ++ ljust 30 (ap_profile_id p) ++ " " ++ rem) "red"].

Fixpoint rows_from (cursor : Z) (i : nat) (profiles : list auth_profile)
  : list (list Text) :=
  match profiles with
  | [] => []
  | p :: rest => row_of cursor i p :: rows_from cursor (S i) rest
  end.

(** The method past its imports.  It opens with an import of [Group]
    from [rich.text]; whether that import raises is the library's and is not
    part of the model. *)
Definition _render (s : screen) : screen :=
  {| _profiles := _profiles s; _cursor := _cursor s;
     list_body := rows_from (_cursor s) 0 (_profiles s) |}.

Definition on_mount (s : screen) : screen :=
  match _profiles s with
  | [] => {| _profiles := _profiles s; _cursor := _cursor s;
             list_body := [[plain "  No accounts in cooldown" EmptyString]] |}
  | _ => _render s
  end.

Definition with_cursor (s : screen) (cursor : Z) : screen :=
  {| _profiles := _profiles s; _cursor := cursor;
     list_body := list_body s |}.

(** What a key does: the screen goes on, is dismissed with a profile id,
    or [self._profiles[self._cursor]] raises. *)
Inductive outcome : Type :=
| Open (s : screen)
| Dismissed (profile_id : string)
| IndexError.

Definition on_key (key : string) (s : screen) : outcome :=
  if String.eqb key "up" then
    Open (_render (with_cursor s (Z.max 0 (_cursor s - 1))))
  else if String.eqb key "down" then
    Open (_render
            (with_cursor s (Z.min (Z.of_nat (length (_profiles s)) - 1)
                                  (_cursor s + 1))))
  else if String.eqb key "enter"
          && match _profiles s with [] => false | _ => true end then
    match py_index (_profiles s) (_cursor s) with
    | Some p => Dismissed (ap_profile_id p)
    | None => IndexError
    end
  else Open s.

(** The keys of [keys], one after the other, as long as the screen is
    open. *)
Fixpoint run (keys : list string) (s : screen) : outcome :=
  match keys with
  | [] => Open s
  | key :: rest =>
      match on_key key s with
      | Open s' => run rest s'
      | o => o
      end
  end.

End ClearCooldownScreen.

(** ** Removing the provider at the cursor ([ProviderScreen._remove_current]) *)

Module ProviderScreen.

Record screen : Type := {
  _providers : list provider;
  _cursor : Z
}.

(** The method returns, leaving the screen and the files so, or
    [self._providers[self._cursor]] raises. *)
Inductive outcome : Type :=
| Returned (s : screen) (fs : files)
| IndexError.

Section Methods.
Context `{PyJson} `{PyJsonIndent}.

(** The method up to the two calls that redraw the screen; these are not
    part of the model. *)
Definition _remove_current (fs : files) (s : screen) : outcome :=
  match _providers s with
  | [] => Returned s fs
  | _ =>
      match py_index (_providers s) (_cursor s) with
      | None => IndexError
      | Some p =>
          let pid := pv_id p in
          match remove_provider_in_file pid fs with
          | Raise _ => Returned s fs    (* does not happen: [except: pass] *)
          | Ok fs' =>
              let providers :=
                match _load_providers fs' with
                | Ok ps => ps
                | Raise _ => []         (* does not happen either *)
                end in
              Returned
                {| _providers := providers;
                   _cursor :=
                     Z.max 0 (Z.min (_cursor s)
                                    (Z.of_nat (length providers) - 1)) |}
                fs'
          end
      end
  end.

End Methods.

End ProviderScreen.

(** ** The wizard ([AddProviderWizard]) *)

Module AddProviderWizard.

(** [self._form]: a dict from strs to the strs of the input fields. *)
Definition form : Type := list (string * string).

Fixpoint form_get (f : form) (k : string) : option string :=
  match f with
  | [] => None
  | (k', v) :: f' => if String.eqb k k' then Some v else form_get f' k
  end.

(** [f[k] = v] *)
Fixpoint form_set (f : form) (k v : string) : form :=
  match f with
  | [] => [(k, v)]
  | (k', v') :: f' =>
      if String.eqb k k' then (k, v) :: f' else (k', v') :: form_set f' k v
  end.

(** [oauth_threads] counts the threads that [_render] has started. *)
Record screen : Type := {
  _step : nat;
  _type : option string;
  _type_cursor : Z;
  _form : form;
  _confirm_cursor : Z;
  _waiting_oauth : bool;
  oauth_threads : nat
}.

Definition init : screen :=
  {| _step := 1; _type := None; _type_cursor := 0; _form := [];
     _confirm_cursor := 0; _waiting_oauth := false; oauth_threads := 0 |}.

(** A key event, and what [query_one(...).value] gives for each of the
    three input fields when the key arrives: the value, or [None] when the
    query raises. *)
Record event : Type := {
  key : string;
  inp_name : option string;
  inp_url : option string;
  inp_key : option string
}.

(** [_render], for what it does to the screen object: it starts the OAuth
    thread, once.  The texts it puts on the screen are not part of the
    model, nor are its imports: the branch that starts the thread, like the
    branches of steps 1 and 3, first imports [Group] from [rich.text], and
    whether that import raises is the library's. *)
Definition _render (s : screen) : screen :=
  if Nat.eqb (_step s) 2
     && match _type s with Some t => String.eqb t "oauth" | None => false end
     && negb (_waiting_oauth s)
  then {| _step := _step s; _type := _type s;
          _type_cursor := _type_cursor s; _form := _form s;
          _confirm_cursor := _confirm_cursor s;
          _waiting_oauth := true;
          oauth_threads := S (oauth_threads s) |}
  else s.

(** The screen goes on, is dismissed with [None] or with
    [{"added": name}], or an index or a key is missing. *)
Inductive outcome : Type :=
| Open (s : screen) (fs : files)
| Cancelled (fs : files)
| Added (name : string) (fs : files)
| LookupError.

Section Methods.
Context `{PyJson} `{PyJsonIndent}.

Definition _confirm (s : screen) (fs : files) : outcome :=
  if Z.eqb (_confirm_cursor s) 2 then Cancelled fs
  else
    let f := _form s in
    let add_to_rotation := Z.eqb (_confirm_cursor s) 0 in
    match form_get f "name", form_get f "url" with
    | Some name, Some url =>
        let api_key :=
          match form_get f "key" with Some k => k | None => EmptyString end in
        match _write_new_provider name url api_key add_to_rotation fs with
        | Ok fs' => Added name fs'
        | Raise _ => Added name fs      (* does not happen: [except: pass] *)
        end
    | _, _ => LookupError
    end.

Definition with_type_cursor (s : screen) (c : Z) : screen :=
  {| _step := _step s; _type := _type s; _type_cursor := c;
     _form := _form s; _confirm_cursor := _confirm_cursor s;
     _waiting_oauth := _waiting_oauth s; oauth_threads := oauth_threads s |}.

Definition with_confirm_cursor (s : screen) (c : Z) : screen :=
  {| _step := _step s; _type := _type s; _type_cursor := _type_cursor s;
     _form := _form s; _confirm_cursor := c;
     _waiting_oauth := _waiting_oauth s; oauth_threads := oauth_threads s |}.

Definition with_form (s : screen) (f : form) : screen :=
  {| _step := _step s; _type := _type s; _type_cursor := _type_cursor s;
     _form := f; _confirm_cursor := _confirm_cursor s;
     _waiting_oauth := _waiting_oauth s; oauth_threads := oauth_threads s |}.

Definition with_step (s : screen) (step : nat) (type : option string)
  : screen :=
  {| _step := step; _type := type; _type_cursor := _type_cursor s;
     _form := _form s; _confirm_cursor := _confirm_cursor s;
     _waiting_oauth := _waiting_oauth s; oauth_threads := oauth_threads s |}.

(** The [try] block of step 2: the three assignments, each after its
    query, and the move to step 3. *)
Definition read_inputs (ev : event) (s : screen) : screen :=
  match inp_name ev with
  | None => s
  | Some name =>
      let s1 := with_form s (form_set (_form s) "name" name) in
      match inp_url ev with
      | None => s1
      | Some url =>
          let s2 := with_form s1 (form_set (_form s1) "url" url) in
          match inp_key ev with
          | None => s2
          | Some api_key =>
              let s3 := with_form s2 (form_set (_form s2) "key" api_key) in
              if negb (String.eqb name EmptyString)
                 && negb (String.eqb url EmptyString)
              then _render (with_step s3 3 (_type s3))
              else s3
          end
      end
  end.

Definition on_key (ev : event) (s : screen) (fs : files) : outcome :=
  if Nat.eqb (_step s) 1 then
    if String.eqb (key ev) "up" then
      Open (_render (with_type_cursor s (Z.max 0 (_type_cursor s - 1)))) fs
    else if String.eqb (key ev) "down" then
      Open (_render (with_type_cursor s (Z.min 2 (_type_cursor s + 1)))) fs
    else if String.eqb (key ev) "enter" then
      match py_index ["apikey"; "oauth"; "custom"] (_type_cursor s) with
      | Some t => Open (_render (with_step s 2 (Some t))) fs
      | None => LookupError
      end
    else Open s fs
  else if Nat.eqb (_step s) 2
          && match _type s with
             | Some t => String.eqb t "apikey" || String.eqb t "custom"
             | None => false
             end then
    if String.eqb (key ev) "enter" then Open (read_inputs ev s) fs
    else Open s fs
  else if Nat.eqb (_step s) 3 then
    if String.eqb (key ev) "up" then
      Open (_render (with_confirm_cursor
                       s (Z.max 0 (_confirm_cursor s - 1)))) fs
    else if String.eqb (key ev) "down" then
      Open (_render (with_confirm_cursor
                       s (Z.min 2 (_confirm_cursor s + 1)))) fs
    else if String.eqb (key ev) "enter" then _confirm s fs
    else Open s fs
  else Open s fs.

(** The events of [events], one after the other, as long as the wizard is
    open. *)
Fixpoint run (events : list event) (s : screen) (fs : files) : outcome :=
  match events with
  | [] => Open s fs
  | ev :: rest =>
      match on_key ev s fs with
      | Open s' fs' => run rest s' fs'
      | o => o
      end
  end.

End Methods.

End AddProviderWizard.

(** [ev] is an [Enter] that found the three values in the input fields,
    name and URL not empty. *)
Definition entered (ev : AddProviderWizard.event)
           (name url api_key : string) : Prop :=
  AddProviderWizard.key ev = "enter" /\
  AddProviderWizard.inp_name ev = Some name /\
  AddProviderWizard.inp_url ev = Some url /\
  AddProviderWizard.inp_key ev = Some api_key /\
  name <> EmptyString /\ url <> EmptyString.

(** What holds of the wizard after the events [seen]. *)
Definition wizard_ok (seen : list AddProviderWizard.event)
           (s : AddProviderWizard.screen) : Prop :=
  (0 <= AddProviderWizard._type_cursor s <= 2)%Z /\
  (0 <= AddProviderWizard._confirm_cursor s <= 2)%Z /\
  AddProviderWizard.oauth_threads s =
    (if AddProviderWizard._waiting_oauth s then 1 else 0) /\
  (AddProviderWizard._step s = 3 ->
   exists ev name url api_key,
     In ev seen /\ entered ev name url api_key /\
     AddProviderWizard.form_get (AddProviderWizard._form s) "name"
       = Some name /\
     AddProviderWizard.form_get (AddProviderWizard._form s) "url"
       = Some url /\
     AddProviderWizard.form_get (AddProviderWizard._form s) "key"
       = Some api_key).

(** * Properties *)

(** ** The error monad *)

Lemma bind_Ok_inv {A B : Type} (c : result A) (k : A -> result B) (b : B) :
  bind c k = Ok b -> exists a, c = Ok a /\ k a = Ok b.
Proof.
  destruct c as [a | e]; simpl; intros Hk.
  - exists a; split; [reflexivity | exact Hk].
  - discriminate Hk.
Qed.

Lemma try_except_total {A : Type} (c : result A) (a : A) :
  exists r, try_except c (Ok a) = Ok r.
Proof.
  destruct c as [x | e]; simpl; eauto.
Qed.

Lemma mapM_Ok_Forall2 {A B : Type} (f : A -> result B) (l : list A) :
  forall ys, mapM f l = Ok ys -> Forall2 (fun x y => f x = Ok y) l ys.
Proof.
  induction l as [| x l IH]; simpl; intros ys Hm.
  - injection Hm as <-. constructor.
  - apply bind_Ok_inv in Hm. destruct Hm as (y & Hy & Hm).
    apply bind_Ok_inv in Hm. destruct Hm as (ys' & Hys & Hm).
    injection Hm as <-. constructor; auto.
Qed.

Lemma mapM_total {A B : Type} (f : A -> result B) (l : list A) :
  Forall (fun x => exists y, f x = Ok y) l -> exists ys, mapM f l = Ok ys.
Proof.
  induction 1 as [| x l (y & Hy) _ (ys & Hys)]; simpl.
  - eauto.
  - rewrite Hy, Hys. simpl. eauto.
Qed.

Lemma Forall2_nth_error_l {A B : Type} (R : A -> B -> Prop) l ys :
  Forall2 R l ys ->
  forall k x, nth_error l k = Some x -> exists y, nth_error ys k = Some y /\ R x y.
Proof.
  induction 1 as [| x0 y0 l ys HR _ IH]; intros k x Hk.
  - destruct k; discriminate Hk.
  - destruct k as [| k]; simpl in *.
    + injection Hk as <-. eauto.
    + eauto.
Qed.

(** ** [parse_model_status] *)

Lemma rotation_loop_spec inv :
  forall models i entries,
    rotation_loop inv i models = Ok entries ->
    length entries = length models /\
    forall k m, nth_error models k = Some m ->
      exists e, nth_error entries k = Some e /\
                re_model e = m /\
                re_status e = status_label (i + k) /\
                re_position e = i + k.
Proof.
  induction models as [| model rest IH]; simpl; intros i entries Hl.
  - injection Hl as <-. split; [reflexivity |].
    intros k m Hk. destruct k; discriminate Hk.
  - apply bind_Ok_inv in Hl. destruct Hl as (label & _ & Hl).
    apply bind_Ok_inv in Hl. destruct Hl as (es & Hes & Hl).
    injection Hl as <-.
    destruct (IH _ _ Hes) as (Hlen & Hnth).
    split; [simpl; congruence |].
    intros [| k] m Hk; simpl in *.
    + injection Hk as <-. eexists; split; [reflexivity |].
      simpl. rewrite Nat.add_0_r. auto.
    + destruct (Hnth _ _ Hk) as (e & He & Hm & Hs & Hp).
      exists e. rewrite <- plus_n_Sm. auto.
Qed.

Lemma rotation_loop_total inv :
  forall models i,
    forallb is_string models = true ->
    exists entries, rotation_loop inv i models = Ok entries.
Proof.
  induction models as [| model rest IH]; simpl; intros i Hs.
  - eauto.
  - apply andb_true_iff in Hs. destruct Hs as (Hm & Hs).
    destruct model; try discriminate Hm. simpl.
    destruct (IH (S i) Hs) as (es & ->). simpl. eauto.
Qed.

Lemma rotation_loop_strings inv :
  forall models i entries,
    rotation_loop inv i models = Ok entries -> forallb is_string models = true.
Proof.
  induction models as [| model rest IH]; simpl; intros i entries Hl.
  - reflexivity.
  - apply bind_Ok_inv in Hl. destruct Hl as (label & Hlab & Hl).
    apply bind_Ok_inv in Hl. destruct Hl as (es & Hes & _).
    destruct model; try discriminate Hlab. simpl. eauto.
Qed.

Lemma invert_total items :
  forallb (fun kv : string * json => hashable (snd kv)) items = true ->
  exists inv, invert items = Ok inv.
Proof.
  intros Hh. apply mapM_total. rewrite forallb_forall in Hh.
  apply Forall_forall. intros kv Hin. rewrite (Hh kv Hin). eauto.
Qed.

Lemma invert_hashable items inv :
  invert items = Ok inv ->
  forallb (fun kv : string * json => hashable (snd kv)) items = true.
Proof.
  revert inv. induction items as [| kv items IH]; simpl; intros inv Hi.
  - reflexivity.
  - apply bind_Ok_inv in Hi. destruct Hi as (y & Hy & Hi).
    apply bind_Ok_inv in Hi. destruct Hi as (ys & Hys & _).
    destruct (hashable (snd kv)); [| discriminate Hy].
    simpl. exact (IH _ Hys).
Qed.

Lemma oauth_entries_total ps :
  forallb is_dict ps = true -> exists os, mapM oauth_entry ps = Ok os.
Proof.
  intros Hd. apply mapM_total. rewrite forallb_forall in Hd.
  apply Forall_forall. intros p Hin. specialize (Hd p Hin).
  destruct p; try discriminate Hd. unfold oauth_entry. simpl. eauto.
Qed.

Lemma oauth_entries_dicts ps os :
  mapM oauth_entry ps = Ok os -> forallb is_dict ps = true.
Proof.
  revert os. induction ps as [| p ps IH]; simpl; intros os Hm.
  - reflexivity.
  - apply bind_Ok_inv in Hm. destruct Hm as (y & Hy & Hm).
    apply bind_Ok_inv in Hm. destruct Hm as (ys & Hys & _).
    destruct p; try discriminate Hy. simpl. exact (IH _ Hys).
Qed.

Lemma parse_model_status_inv d snap :
  parse_model_status (JObj d) = Ok snap ->
  exists fl inv,
    dict_get d "fallbacks" (JArr []) = JArr fl /\
    sn_default snap = dict_get d "defaultModel" (JStr empty_str) /\
    rotation_loop inv 0 (sn_default snap :: fl) = Ok (sn_rotation snap).
Proof.
  unfold parse_model_status. simpl. intros Hp.
  apply bind_Ok_inv in Hp. destruct Hp as (items & _ & Hp).
  apply bind_Ok_inv in Hp. destruct Hp as (inv & _ & Hp).
  apply bind_Ok_inv in Hp. destruct Hp as (models & Hmodels & Hp).
  apply bind_Ok_inv in Hp. destruct Hp as (rot & Hrot & Hp).
  apply bind_Ok_inv in Hp. destruct Hp as (oauth & _ & Hp).
  apply bind_Ok_inv in Hp. destruct Hp as (profs & _ & Hp).
  apply bind_Ok_inv in Hp. destruct Hp as (ps & _ & Hp).
  apply bind_Ok_inv in Hp. destruct Hp as (os & _ & Hp).
  injection Hp as <-. simpl.
  destruct (dict_get d "fallbacks" (JArr [])) as [| | | | fl |];
    try discriminate Hmodels.
  injection Hmodels as <-. exists fl, inv. auto.
Qed.

Lemma parse_model_status_total d :
  status_typed d = true -> exists snap, parse_model_status (JObj d) = Ok snap.
Proof.
  unfold status_typed, default_typed, fallbacks_typed, aliases_typed,
    oauth_typed.
  intros Ht.
  apply andb_true_iff in Ht. destruct Ht as (Ht & Hoauth).
  apply andb_true_iff in Ht. destruct Ht as (Ht & Hal).
  apply andb_true_iff in Ht. destruct Ht as (Hdef & Hfb).
  unfold parse_model_status. simpl.
  destruct (dict_get d "aliases" (JObj [])) as [| | | | | items];
    try discriminate Hal.
  simpl. destruct (invert_total _ Hal) as (inv & ->). simpl.
  destruct (dict_get d "fallbacks" (JArr [])) as [| | | | fl |];
    try discriminate Hfb.
  simpl.
  destruct (rotation_loop_total inv
              (dict_get d "defaultModel" (JStr empty_str) :: fl) 0)
    as (rot & Hrot).
  { simpl. rewrite Hdef, Hfb. reflexivity. }
  simpl in Hrot. rewrite Hrot. simpl.
  destruct (dict_get d "auth" (JObj [])) as [| | | | | a];
    try discriminate Hoauth.
  simpl.
  destruct (dict_get a "oauth" (JObj [])) as [| | | | | o];
    try discriminate Hoauth.
  simpl.
  destruct (py_iter (dict_get o "profiles" (JArr []))) as [ps | e];
    [| discriminate Hoauth].
  simpl. destruct (oauth_entries_total _ Hoauth) as (os & ->). simpl. eauto.
Qed.

Lemma parse_model_status_typed d snap :
  parse_model_status (JObj d) = Ok snap -> status_typed d = true.
Proof.
  unfold parse_model_status. simpl. intros Hp.
  apply bind_Ok_inv in Hp. destruct Hp as (items & Hitems & Hp).
  apply bind_Ok_inv in Hp. destruct Hp as (inv & Hinv & Hp).
  apply bind_Ok_inv in Hp. destruct Hp as (models & Hmodels & Hp).
  apply bind_Ok_inv in Hp. destruct Hp as (rot & Hrot & Hp).
  apply bind_Ok_inv in Hp. destruct Hp as (oauth & Hoauth & Hp).
  apply bind_Ok_inv in Hp. destruct Hp as (profs & Hprofs & Hp).
  apply bind_Ok_inv in Hp. destruct Hp as (ps & Hps & Hp).
  apply bind_Ok_inv in Hp. destruct Hp as (os & Hos & _).
  unfold status_typed, default_typed, fallbacks_typed, aliases_typed,
    oauth_typed.
  destruct (dict_get d "fallbacks" (JArr [])) as [| | | | fl |];
    try discriminate Hmodels.
  injection Hmodels as <-.
  apply rotation_loop_strings in Hrot. simpl in Hrot. rewrite Hrot. simpl.
  destruct (dict_get d "aliases" (JObj [])) as [| | | | | al];
    try discriminate Hitems.
  injection Hitems as <-. rewrite (invert_hashable _ Hinv). simpl.
  destruct (dict_get d "auth" (JObj [])) as [| | | | | a];
    try discriminate Hoauth.
  simpl in Hoauth. injection Hoauth as <-.
  destruct (dict_get a "oauth" (JObj [])) as [| | | | | o];
    try discriminate Hprofs.
  simpl in Hprofs. injection Hprofs as <-.
  rewrite Hps. exact (oauth_entries_dicts _ Hos).
Qed.

(** [parse_model_status] returns exactly on the well-typed dicts. *)
Lemma parse_model_status_returns_iff d :
  (exists snap, parse_model_status (JObj d) = Ok snap) <-> status_typed d = true.
Proof.
  split.
  - intros (snap & Hp). exact (parse_model_status_typed _ Hp).
  - apply parse_model_status_total.
Qed.

(** The tests of [test_data_layer.py] on [parse_model_status]. *)
Example test_parse_model_status_extracts_default :
  exists result,
    parse_model_status SAMPLE_STATUS = Ok result /\
    sn_default result = JStr "google-gemini-cli/gemini-3-flash".
Proof. eexists. split; reflexivity. Qed.

Example test_parse_model_status_rotation_list :
  exists result e1,
    parse_model_status SAMPLE_STATUS = Ok result /\
    nth_error (sn_rotation result) 0
    = Some {| re_model := JStr "google-gemini-cli/gemini-3-flash";
              re_label := "gemini-cli/gemini-3-flash";
              re_status := "ACTIVE";
              re_position := 0;
              re_alias := Some "gemini-flash" |} /\
    nth_error (sn_rotation result) 1 = Some e1 /\
    re_status e1 = "#1".
Proof. eexists. eexists. repeat split; reflexivity. Qed.

Example test_parse_model_status_oauth_profiles :
  exists result o,
    parse_model_status SAMPLE_STATUS = Ok result /\
    sn_oauth_profiles result = [o] /\
    op_remaining_ms o = JNum (3600000 # 1).
Proof. eexists. eexists. repeat split; reflexivity. Qed.

(** C1.  For a status dict with default model [D] and fallback list
    [f1, f2, ...] (and the other fields typed as the CLI types them),
    [parse_model_status] returns a snapshot whose rotation has, at index 0,
    model [D], status [ACTIVE] and position 0, and at every index [i >= 1],
    model [f_i], status [#i] and position [i]; the [default] field of the
    snapshot is the model of rotation entry 0. *)
Theorem C1_rotation_order (d : dict) (D : string) (fs : list string) :
  lookup "defaultModel" d = Some (JStr D) ->
  lookup "fallbacks" d = Some (JArr (map JStr fs)) ->
  aliases_typed d = true ->
  oauth_typed d = true ->
  exists snap e0,
    parse_model_status (JObj d) = Ok snap /\
    nth_error (sn_rotation snap) 0 = Some e0 /\
    re_model e0 = JStr D /\ re_status e0 = "ACTIVE" /\ re_position e0 = 0 /\
    sn_default snap = re_model e0 /\
    length (sn_rotation snap) = S (length fs) /\
    forall i f, 1 <= i -> nth_error fs (i - 1) = Some f ->
      exists e, nth_error (sn_rotation snap) i = Some e /\
                re_model e = JStr f /\
                re_status e = ("#" ++ str_of_nat i)%string /\
                re_position e = i.
Proof.
  intros Hdef Hfb Hal Hoa.
  assert (Hgd : dict_get d "defaultModel" (JStr empty_str) = JStr D)
    by (unfold dict_get; rewrite Hdef; reflexivity).
  assert (Hgf : dict_get d "fallbacks" (JArr []) = JArr (map JStr fs))
    by (unfold dict_get; rewrite Hfb; reflexivity).
  assert (Hstr : forallb is_string (map JStr fs) = true).
  { apply forallb_forall. intros v Hin. apply in_map_iff in Hin.
    destruct Hin as (s & <- & _). reflexivity. }
  destruct (parse_model_status_total d) as (snap & Hp).
  { unfold status_typed, default_typed, fallbacks_typed.
    rewrite Hgd, Hgf, Hstr, Hal, Hoa. reflexivity. }
  destruct (parse_model_status_inv _ Hp) as (fl & inv & Hfl & Hsd & Hrot).
  rewrite Hgf in Hfl. injection Hfl as <-. rewrite Hgd in Hsd.
  rewrite Hsd in Hrot.
  destruct (rotation_loop_spec _ _ _ Hrot) as (Hlen & Hnth).
  destruct (Hnth 0 (JStr D) eq_refl) as (e0 & He0 & Hm0 & Hs0 & Hp0).
  exists snap, e0. repeat split; auto.
  - congruence.
  - rewrite Hlen. simpl. rewrite length_map. reflexivity.
  - intros i f Hi Hf.
    destruct i as [| i]; [lia |].
    simpl in Hf. rewrite Nat.sub_0_r in Hf.
    destruct (Hnth (S i) (JStr f)) as (e & He & Hm & Hs & Hpos).
    { simpl. rewrite nth_error_map, Hf. reflexivity. }
    exists e. repeat split; auto.
Qed.

Lemma C1_rotation_order_witness :
  exists snap e0,
    parse_model_status SAMPLE_STATUS = Ok snap /\
    nth_error (sn_rotation snap) 0 = Some e0 /\
    re_model e0 = JStr "google-gemini-cli/gemini-3-flash" /\
    re_status e0 = "ACTIVE" /\ re_position e0 = 0 /\
    sn_default snap = re_model e0 /\
    length (sn_rotation snap) = 3 /\
    forall i f, 1 <= i ->
      nth_error ["google-gemini-cli/gemini-3-pro-preview";
                 "groq/llama-3.3-70b-versatile"] (i - 1) = Some f ->
      exists e, nth_error (sn_rotation snap) i = Some e /\
                re_model e = JStr f /\
                re_status e = ("#" ++ str_of_nat i)%string /\
                re_position e = i.
Proof.
  apply (@C1_rotation_order
           (match SAMPLE_STATUS with JObj d => d | _ => [] end)
           "google-gemini-cli/gemini-3-flash"
           ["google-gemini-cli/gemini-3-pro-preview";
            "groq/llama-3.3-70b-versatile"]);
    reflexivity.
Defined.

(** C10.  On every well-typed input dict, the empty dict and the dicts
    without [defaultModel] among them, [parse_model_status] returns a
    rotation of length 1 + (number of fallbacks), so never an empty one;
    when [defaultModel] is absent, entry 0 is an ACTIVE entry at position 0
    whose model id is the empty string. *)
Theorem C10_rotation_never_empty (d : dict) :
  status_typed d = true ->
  exists snap,
    parse_model_status (JObj d) = Ok snap /\
    length (sn_rotation snap) = 1 + n_fallbacks d /\
    sn_rotation snap <> [] /\
    (lookup "defaultModel" d = None ->
     exists e0 rest,
       sn_rotation snap = e0 :: rest /\
       re_model e0 = JStr empty_str /\
       re_status e0 = "ACTIVE" /\ re_position e0 = 0).
Proof.
  intros Ht.
  destruct (parse_model_status_total d Ht) as (snap & Hp).
  destruct (parse_model_status_inv _ Hp) as (fl & inv & Hfl & Hsd & Hrot).
  destruct (rotation_loop_spec _ _ _ Hrot) as (Hlen & Hnth).
  exists snap. split; [exact Hp |].
  assert (Hl : length (sn_rotation snap) = 1 + n_fallbacks d).
  { unfold n_fallbacks. rewrite Hfl, Hlen. reflexivity. }
  split; [exact Hl |]. split.
  - intros Hnil. rewrite Hnil in Hl. discriminate Hl.
  - intros Habs.
    destruct (Hnth 0 (sn_default snap) eq_refl) as (e0 & He0 & Hm & Hs & Hpos).
    destruct (sn_rotation snap) as [| e rest]; [discriminate He0 |].
    injection He0 as ->. exists e0, rest.
    repeat split; auto.
    rewrite Hm, Hsd. unfold dict_get. rewrite Habs. reflexivity.
Qed.

Lemma C10_rotation_never_empty_witness :
  exists snap,
    parse_model_status (JObj []) = Ok snap /\
    length (sn_rotation snap) = 1 + n_fallbacks [] /\
    sn_rotation snap <> [] /\
    (lookup "defaultModel" [] = None ->
     exists e0 rest,
       sn_rotation snap = e0 :: rest /\
       re_model e0 = JStr empty_str /\
       re_status e0 = "ACTIVE" /\ re_position e0 = 0).
Proof.
  apply (@C10_rotation_never_empty []). reflexivity.
Defined.


(** ** [_parse_log_line] *)

#[export] Instance MiniJson_laws : PyJsonLaws MiniJson.codec.
Proof.
  constructor. exists ValueError. reflexivity.
Qed.

Section LogLineFacts.
Context {P : PyJson}.

(** The outer [except] catches everything. *)
Lemma parse_log_line_total (line : string) :
  exists r, _parse_log_line line = Ok r.
Proof.
  unfold _parse_log_line. apply try_except_total.
Qed.

Lemma parse_log_line_undecodable (line : string) (e : exn) :
  json_loads line = Raise e -> _parse_log_line line = Ok None.
Proof.
  intros Hl. unfold _parse_log_line, parse_log_body. rewrite Hl. reflexivity.
Qed.

Lemma subsystem_of_total (name_raw : json) :
  exists s, subsystem_of name_raw = Ok s.
Proof.
  unfold subsystem_of. apply try_except_total.
Qed.

(** What an event holds, read off the body of the function. *)
Lemma parse_log_obj_event (obj : json) (ev : log_event) :
  parse_log_obj obj = Ok (Some ev) ->
  exists d,
    obj = JObj d /\
    ev_message ev =
      (match dict_get d "1" (JStr empty_str) with
       | JStr s => s
       | v => json_dumps v
       end) /\
    ev_important ev =
      (str_in (ev_subsystem ev) LOG_IMPORTANT_SUBSYSTEMS
       || String.eqb (ev_level ev) "ERROR").
Proof.
  unfold parse_log_obj. intros Hp.
  apply bind_Ok_inv in Hp. destruct Hp as (meta & Hmeta & Hp).
  apply bind_Ok_inv in Hp. destruct Hp as (name_raw & _ & Hp).
  apply bind_Ok_inv in Hp. destruct Hp as (sub & _ & Hp).
  apply bind_Ok_inv in Hp. destruct Hp as (msg_raw & Hmsg & Hp).
  apply bind_Ok_inv in Hp. destruct Hp as (level_raw & _ & Hp).
  apply bind_Ok_inv in Hp. destruct Hp as (level & _ & Hp).
  apply bind_Ok_inv in Hp. destruct Hp as (time_raw & _ & Hp).
  apply bind_Ok_inv in Hp. destruct Hp as (ts & _ & Hp).
  injection Hp as <-.
  destruct obj as [| | | | | d]; try discriminate Hmeta.
  simpl in Hmsg. injection Hmsg as <-.
  exists d. simpl. repeat split; try reflexivity.
  destruct (dict_get d "1" (JStr empty_str)); reflexivity.
Qed.

Lemma parse_log_line_event (line : string) (ev : log_event) :
  _parse_log_line line = Ok (Some ev) ->
  exists obj, json_loads line = Ok obj /\ parse_log_obj obj = Ok (Some ev).
Proof.
  unfold _parse_log_line, parse_log_body.
  destruct (json_loads line) as [obj | e]; simpl; [| discriminate].
  intros Hp. exists obj. split; [reflexivity |].
  destruct (parse_log_obj obj) as [r | e]; simpl in Hp; congruence.
Qed.

(** A missing message field reads as the empty message. *)
Lemma parse_log_obj_default_message (d : dict) :
  lookup "1" d = None ->
  parse_log_obj (JObj d) = parse_log_obj (JObj (("1", JStr empty_str) :: d)).
Proof.
  intros Hd. unfold parse_log_obj. simpl.
  unfold dict_get. simpl. rewrite Hd. reflexivity.
Qed.

End LogLineFacts.

(** C4, in the form that holds of the code.  [_parse_log_line] never raises; a line that is not
    JSON, and the empty line, give [None]; a JSON object without the message
    field is read as one whose message is the empty string, so an event that
    comes out of it has the empty message. *)
Theorem C4_parse_log_line_malformed
  (P : PyJson) (L : PyJsonLaws P) (line : string) :
  (exists r, _parse_log_line line = Ok r) /\
  (forall e, json_loads line = Raise e -> _parse_log_line line = Ok None) /\
  _parse_log_line empty_str = Ok None /\
  (forall d, json_loads line = Ok (JObj d) -> lookup "1" d = None ->
     _parse_log_line line
     = try_except (parse_log_obj (JObj (("1", JStr empty_str) :: d))) (Ok None)
     /\ forall ev, _parse_log_line line = Ok (Some ev) ->
                   ev_message ev = empty_str).
Proof.
  split; [apply parse_log_line_total |].
  split; [apply parse_log_line_undecodable |].
  split.
  - destruct (@loads_empty P L) as (e & He).
    exact (parse_log_line_undecodable _ He).
  - intros d Hl Hd. split.
    + unfold _parse_log_line, parse_log_body. rewrite Hl. simpl.
      rewrite (parse_log_obj_default_message _ Hd). reflexivity.
    + intros ev Hev.
      destruct (parse_log_line_event _ Hev) as (obj & Hobj & Hp).
      rewrite Hl in Hobj. injection Hobj as <-.
      destruct (parse_log_obj_event _ Hp) as (d' & Hd' & Hmsg & _).
      injection Hd' as <-. rewrite Hmsg.
      unfold dict_get. rewrite Hd. reflexivity.
Qed.

Lemma C4_parse_log_line_malformed_witness :
  _parse_log_line (H := MiniJson.codec) "not json" = Ok None.
Proof.
  apply (proj1 (proj2 (C4_parse_log_line_malformed
                         MiniJson_laws "not json")) ValueError).
  reflexivity.
Defined.

(** C4, as the specification states it, fails: a JSON object without the
    message field does not give [None].  The line [{}] gives an event. *)
Lemma C4_missing_message_counterexample :
  ~ (forall (P : PyJson) (line : string) (d : dict),
       json_loads line = Ok (JObj d) -> lookup "1" d = None ->
       _parse_log_line line = Ok None).
Proof.
  intros Hclaim.
  specialize (Hclaim MiniJson.codec empty_object_line [] eq_refl eq_refl).
  vm_compute in Hclaim. discriminate Hclaim.
Qed.

(** C5.  The code at a [gateway/reload] line of level INFO: the prefix is
    stripped, the subsystem is [reload], and the event is not flagged,
    because the set the code tests against holds [gateway/reload]. *)
Theorem C5_reload_not_important :
  _parse_log_line (H := MiniJson.codec) reload_line
  = Ok (Some {| ev_time := "2026-02-12 10:11:12";
                ev_subsystem := "reload";
                ev_message := "config reloaded";
                ev_level := "INFO";
                ev_important := false |})
  /\ str_in "reload" LOG_IMPORTANT_SUBSYSTEMS = false
  /\ str_in "gateway/reload" LOG_IMPORTANT_SUBSYSTEMS = true.
Proof.
  repeat split; vm_compute; reflexivity.
Qed.

(** ** The queue and the tailer *)






Lemma tailer_put_open_file dl path ev :
  open_file (tailer_put dl path ev) = Some path.
Proof.
  unfold tailer_put.
  destruct (queue_put LOG_QUEUE_MAXSIZE (_log_queue dl) ev); reflexivity.
Qed.

Section TailerFacts.
Context {P : PyJson}.




(** With no stop and no I/O error, a turn leaves the open file open. *)
Lemma tailer_step_keeps_file e dl path :
  open_file dl = Some path ->
  stop_set e = false -> next_read e <> ReadError ->
  open_file (tailer_step e dl) = Some path.
Proof.
  intros Hopen Hstop Hread. unfold tailer_step, open_file in *.
  destruct (_tailer dl) as [| p | p ev |] eqn:Ht; try discriminate Hopen.
  - injection Hopen as ->. rewrite Hstop.
    destruct (next_read e) as [line | |]; try congruence.
    + destruct (parse_log_line_total (strip line)) as (r & ->).
      destruct r as [parsed |].
      * apply tailer_put_open_file.
      * rewrite Ht. reflexivity.
    + rewrite Ht. reflexivity.
  - injection Hopen as ->. apply tailer_put_open_file.
Qed.

Lemma act_keeps_file a dl path :
  open_file dl = Some path ->
  (forall e, a = TailerTurn e -> stop_set e = false /\ next_read e <> ReadError) ->
  open_file (act dl a) = Some path.
Proof.
  intros Hopen Ha. destruct a as [e |]; simpl.
  - destruct (Ha e eq_refl) as (Hstop & Hread).
    apply tailer_step_keeps_file; assumption.
  - destruct (get_nowait (_log_queue dl)) as [[x q'] | err]; exact Hopen.
Qed.

(** A turn at the top of the outer loop resolves the path from the date of
    that turn. *)
Lemma outer_turn_resolves_path e dl path :
  _tailer dl = AtOuter ->
  open_file (tailer_step e dl) = Some path ->
  path = log_path (today e) /\ stop_set e = false.
Proof.
  intros Ht. unfold tailer_step. rewrite Ht.
  destruct (stop_set e); [discriminate |].
  destruct (negb (path_exists e (log_path (today e)))).
  - unfold open_file. rewrite Ht. discriminate.
  - destruct (open_ok e).
    + unfold open_file. simpl. intros Hp. injection Hp as <-. auto.
    + unfold open_file. rewrite Ht. discriminate.
Qed.

End TailerFacts.

(** C8.  The code after a day rollover: once the tailer has opened a file,
    it keeps that file open on every turn, whatever the current date is, as
    long as the stop flag is not set and no read fails.  The path is not
    resolved again. *)
Theorem C8_tailer_keeps_old_file
  (P : PyJson) (acts : list action) (dl : DataLayer) (path : string) :
  open_file dl = Some path ->
  (forall e, In (TailerTurn e) acts ->
             stop_set e = false /\ next_read e <> ReadError) ->
  open_file (run acts dl) = Some path.
Proof.
  unfold run. revert dl.
  induction acts as [| a acts IH]; intros dl Hopen Hacts; simpl.
  - exact Hopen.
  - apply IH.
    + apply act_keeps_file; [exact Hopen |].
      intros e ->. apply Hacts. left. reflexivity.
    + intros e Hin. apply Hacts. right. exact Hin.
Qed.

Lemma C8_tailer_keeps_old_file_witness :
  open_file
    (run (H := MiniJson.codec)
         [TailerTurn env_next_day; ConsumerGet; TailerTurn env_next_day]
         dl_full)
  = Some old_path
  /\ log_path (today env_next_day) <> old_path.
Proof.
  split.
  - apply C8_tailer_keeps_old_file; [reflexivity |].
    intros e [He | [He | [He | []]]]; try discriminate He.
    + injection He as <-. split; [reflexivity | discriminate].
    + injection He as <-. split; [reflexivity | discriminate].
  - vm_compute. discriminate.
Defined.

Section DrainFacts.
Context {P : PyJson}.

Lemma tailer_put_queue dl path ev :
  exists more, _log_queue (tailer_put dl path ev) = _log_queue dl ++ more.
Proof.
  unfold tailer_put, queue_put.
  destruct (Nat.ltb 0 LOG_QUEUE_MAXSIZE
            && Nat.leb LOG_QUEUE_MAXSIZE (length (_log_queue dl))); simpl.
  - exists []. rewrite app_nil_r. reflexivity.
  - exists [ev]. reflexivity.
Qed.

(** The tailer only adds to the queue, at its end. *)
Lemma tailer_step_queue e dl :
  exists more, _log_queue (tailer_step e dl) = _log_queue dl ++ more.
Proof.
  assert (Hsame : forall c,
             exists more,
               _log_queue (with_tailer dl c (_log_queue dl))
               = _log_queue dl ++ more)
    by (intros c; exists []; rewrite app_nil_r; reflexivity).
  assert (Hdl : exists more, _log_queue dl = _log_queue dl ++ more)
    by (exists []; rewrite app_nil_r; reflexivity).
  unfold tailer_step.
  destruct (_tailer dl) as [| path | path ev |].
  - destruct (stop_set e); [apply Hsame |].
    destruct (negb (path_exists e (log_path (today e)))); [exact Hdl |].
    destruct (open_ok e); [apply Hsame | exact Hdl].
  - destruct (stop_set e); [apply Hsame |].
    destruct (next_read e) as [line | |]; [| exact Hdl | apply Hsame].
    destruct (_parse_log_line (strip line)) as [[ev |] | err];
      [apply tailer_put_queue | exact Hdl | apply Hsame].
  - apply tailer_put_queue.
  - exact Hdl.
Qed.

(** What a drain returns starts with what was queued when it was called, and
    it returns on an empty queue. *)
Lemma drain_loop_returns acts :
  forall events dl events' dl',
    drain_loop acts events dl = Returns events' dl' ->
    _log_queue dl' = [] /\
    exists more, events' = events ++ _log_queue dl ++ more.
Proof.
  induction acts as [| a acts IH]; intros events dl events' dl' Hd;
    simpl in Hd; [discriminate Hd |].
  destruct a as [e |].
  - destruct (IH _ _ _ _ Hd) as (Hq & more & ->).
    destruct (tailer_step_queue e dl) as (added & ->).
    split; [exact Hq |]. exists (added ++ more).
    rewrite <- !app_assoc. reflexivity.
  - destruct (_log_queue dl) as [| x q'] eqn:Hdl.
    + injection Hd as <- <-. split; [exact Hdl |].
      exists []. simpl. rewrite app_nil_r. reflexivity.
    + simpl in Hd. destruct (IH _ _ _ _ Hd) as (Hq & more & ->).
      split; [exact Hq |]. exists more. simpl.
      rewrite <- !app_assoc. reflexivity.
Qed.




End DrainFacts.




(** ** [refresh] *)

Lemma fetch_model_status_total {P : PyJson} (run : result string) :
  exists r, fetch_model_status run = Ok r.
Proof.
  unfold fetch_model_status. apply try_except_total.
Qed.

(** A fetch that succeeds gives a rotation that is not empty, with the
    default model at its head. *)
Lemma fetch_model_status_rotation {P : PyJson} (run : result string)
      (snap : snapshot) :
  fetch_model_status run = Ok (Some snap) ->
  exists e0 rest,
    sn_rotation snap = e0 :: rest /\
    sn_default snap = re_model e0 /\
    re_status e0 = "ACTIVE" /\ re_position e0 = 0.
Proof.
  unfold fetch_model_status. intros Hf.
  assert (Hbody : forall c : result (option snapshot),
             try_except c (Ok None) = Ok (Some snap) -> c = Ok (Some snap)).
  { intros [r | e]; simpl; [auto | discriminate]. }
  apply Hbody in Hf. clear Hbody.
  apply bind_Ok_inv in Hf. destruct Hf as (stdout & _ & Hf).
  destruct (from_json_start (splitlines (strip stdout))) as [| l tail];
    [discriminate Hf |].
  apply bind_Ok_inv in Hf. destruct Hf as (raw & _ & Hf).
  apply bind_Ok_inv in Hf. destruct Hf as (parsed & Hp & Hf).
  injection Hf as <-.
  destruct raw as [| | | | | d]; try discriminate Hp.
  destruct (@parse_model_status_inv d parsed Hp) as (fl & inv & _ & _ & Hrot).
  destruct (rotation_loop_spec _ _ _ Hrot) as (_ & Hnth).
  destruct (Hnth 0 (sn_default parsed) eq_refl) as (e0 & He0 & Hm & Hs & Hpos).
  destruct (sn_rotation parsed) as [| e rest]; [discriminate He0 |].
  injection He0 as ->. exists e0, rest. auto.
Qed.

(** C2.  A refresh whose model-status fetch fails leaves [rotation] and
    [default_model] as they were.  Whatever the fetch gives, the auth
    profiles are read again: the refresh ends as that read ends, and when
    the read returns, [profiles] is the list it returned. *)
Theorem C2_refresh_failed_fetch (P : PyJson) (dl : DataLayer) (w : world) :
  let out := refresh dl w in
  let dl' := snd (fst out) in
  (fetch_model_status (w_models_status w) = Ok None ->
   rotation dl' = rotation dl /\ default_model dl' = default_model dl) /\
  snd out = snd (read_auth_profiles JNull w) /\
  match fst (read_auth_profiles JNull w) with
  | Ok ps => fst (fst out) = Ok tt /\ profiles dl' = ps
  | Raise e => fst (fst out) = Raise e /\ profiles dl' = profiles dl
  end.
Proof.
  unfold refresh.
  destruct (fetch_model_status_total (w_models_status w)) as (r & ->).
  destruct (read_auth_profiles JNull w) as [[ps | e] w']; simpl.
  - split; [| split; [reflexivity | split; reflexivity]].
    intros Hr. injection Hr as ->. split; reflexivity.
  - split; [| split; [reflexivity | split; [reflexivity |]]].
    + intros Hr. injection Hr as ->. split; reflexivity.
    + destruct r; reflexivity.
Qed.

Lemma C2_refresh_failed_fetch_witness :
  fetch_model_status (H := MiniJson.codec) (w_models_status w_offline) = Ok None /\
  rotation (snd (fst (refresh (H := MiniJson.codec) dl_sample w_offline)))
  = rotation dl_sample /\
  default_model (snd (fst (refresh (H := MiniJson.codec) dl_sample w_offline)))
  = default_model dl_sample.
Proof.
  split; [reflexivity |].
  apply (proj1 (@C2_refresh_failed_fetch MiniJson.codec dl_sample w_offline)).
  reflexivity.
Defined.

(** ** [fetch_gateway_status] *)

Lemma found_in_more (seen : list string) (l : string) (g : gateway_status) :
  found_in seen g -> found_in (seen ++ [l]) g.
Proof.
  intros (Hpid & Hses & Hag). repeat split.
  - intros m Hm. destruct (Hpid m Hm) as (l0 & Hin & H0).
    exists l0. split; [apply in_or_app; left; exact Hin | exact H0].
  - intros m Hm. destruct (Hses m Hm) as (l0 & Hin & H0).
    exists l0. split; [apply in_or_app; left; exact Hin | exact H0].
  - intros v Hv. destruct (Hag v Hv) as (l0 & Hin & H0).
    exists l0. split; [apply in_or_app; left; exact Hin | exact H0].
Qed.

Lemma health_line_found (seen : list string) (l : string) (g : gateway_status) :
  found_in seen g -> found_in (seen ++ [l]) (health_line g l).
Proof.
  intros Hg. pose proof (@found_in_more seen l g Hg) as (Hpid & Hses & Hag).
  assert (Hl : In l (seen ++ [l])) by (apply in_or_app; right; left; reflexivity).
  unfold health_line.
  destruct (contains "PID" l || contains "pid" l) eqn:Hp.
  - destruct (search_digits4 EmptyString l) as [m |] eqn:Hm;
      [| repeat split; assumption].
    repeat split; simpl; try assumption.
    intros m' Hm'. injection Hm' as <-. exists l. auto.
  - destruct (contains "Session store" l) eqn:Hs.
    + destruct (search_entries l) as [m |] eqn:Hm;
        [| repeat split; assumption].
      repeat split; simpl; try assumption.
      intros m' Hm'. injection Hm' as <-. exists l. auto.
    + destruct (startswith "Agents:" (strip l)) eqn:Ha;
        [| repeat split; assumption].
      repeat split; simpl; try assumption.
      intros v Hv. injection Hv as <-. exists l. auto.
Qed.

Lemma health_lines_found (lines : list string) :
  forall seen g,
    found_in seen g ->
    found_in (seen ++ lines) (fold_left health_line lines g).
Proof.
  induction lines as [| l lines IH]; intros seen g Hg; simpl.
  - rewrite app_nil_r. exact Hg.
  - replace (seen ++ l :: lines) with ((seen ++ [l]) ++ lines)
      by (rewrite <- app_assoc; reflexivity).
    apply IH. apply health_line_found. exact Hg.
Qed.

Lemma health_lines_run (lines : list string) :
  forall g, gw_gateway g = "RUN" ->
            gw_gateway (fold_left health_line lines g) = "RUN".
Proof.
  induction lines as [| l lines IH]; intros g Hg; simpl; [exact Hg |].
  apply IH. unfold health_line.
  destruct (contains "PID" l || contains "pid" l).
  - destruct (search_digits4 EmptyString l); exact Hg.
  - destruct (contains "Session store" l).
    + destruct (search_entries l); exact Hg.
    + destruct (startswith "Agents:" (strip l)); exact Hg.
Qed.

(** C9, in the form that holds of the code.  [fetch_gateway_status] never
    raises.  When one of the two commands raises it returns the dict of the
    [except] branch: the state is [ERR], and [pid], [sessions], [agents] and
    [version] are all set, to the placeholder [?].  When both commands
    return, the state is [RUN], the version is set, and each of [pid],
    [sessions] and [agents] is set only if a line of the health text gives
    it. *)
Theorem C9_gateway_status_sentinel (health version : result string) :
  (exists g, fetch_gateway_status health version = Ok g) /\
  ((exists e, health = Raise e) \/ (exists e, version = Raise e) ->
   fetch_gateway_status health version = Ok gateway_err) /\
  (gw_gateway gateway_err = "ERR" /\
   gw_pid gateway_err = Some "?" /\
   gw_sessions gateway_err = Some "?" /\
   gw_agents gateway_err = Some (JStr "?") /\
   gw_version gateway_err = Some "?") /\
  (forall out ver, health = Ok out -> version = Ok ver ->
     exists g, fetch_gateway_status health version = Ok g /\
               gw_gateway g = "RUN" /\
               gw_version g = Some (str_take 20 (strip ver)) /\
               found_in (splitlines out) g).
Proof.
  split; [apply try_except_total |].
  split.
  { intros [(e & ->) | (e & ->)]; unfold fetch_gateway_status.
    - reflexivity.
    - destruct health as [out | e']; reflexivity. }
  split; [repeat split; reflexivity |].
  intros out ver -> ->. unfold fetch_gateway_status. simpl.
  eexists. split; [reflexivity |]. simpl.
  split; [apply health_lines_run; reflexivity |].
  split; [reflexivity |].
  apply (@health_lines_found (splitlines out) []).
  repeat split; simpl; intros x Hx; discriminate Hx.
Qed.

Lemma C9_gateway_status_sentinel_witness :
  fetch_gateway_status (Raise OSError) (Ok "openclaw 1.2.3") = Ok gateway_err.
Proof.
  apply (proj1 (proj2 (C9_gateway_status_sentinel
                         (Raise OSError) (Ok "openclaw 1.2.3")))).
  left. exists OSError. reflexivity.
Defined.

(** C9, as the specification states it, fails: in the snapshot returned
    after an exception the optional fields are not absent. *)
Lemma C9_sentinel_fields_counterexample :
  ~ (forall health version g,
       (exists e, health = Raise e) ->
       fetch_gateway_status health version = Ok g ->
       gw_pid g = None /\ gw_sessions g = None /\
       gw_agents g = None /\ gw_version g = None).
Proof.
  intros Hclaim.
  destruct (Hclaim (Raise OSError) (Ok "openclaw 1.2.3") gateway_err)
    as (Hpid & _).
  - exists OSError. reflexivity.
  - reflexivity.
  - discriminate Hpid.
Qed.

(** ** [read_auth_profiles] *)

Lemma Qgtb_true (a b : Q) : Qgtb a b = true <-> (b < a)%Q.
Proof.
  unfold Qgtb. rewrite negb_true_iff. split.
  - intros Hb. apply Qnot_le_lt. intros Hle.
    apply Qle_bool_iff in Hle. congruence.
  - intros Hlt. destruct (Qle_bool a b) eqn:Hb; [| reflexivity].
    apply Qle_bool_iff in Hb. exfalso. exact (Qlt_not_le _ _ Hlt Hb).
Qed.

Lemma Qgtb_false (a b : Q) : Qgtb a b = false <-> (a <= b)%Q.
Proof.
  unfold Qgtb. rewrite negb_false_iff. apply Qle_bool_iff.
Qed.

Section ReadFacts.
Context {P : PyJson}.

Lemma read_auth_profiles_source (raw : json) (w : world) :
  read_auth_profiles raw w =
  match loaded_source raw w with
  | Ok src => read_profiles_of src w
  | Raise _ => (Ok [], w)
  end.
Proof.
  destruct raw; reflexivity.
Qed.

Lemma read_profiles_of_dict (d : dict) (w : world) :
  read_profiles_of (JObj d) w =
  (items <- py_items (dict_get d "profiles" (JObj [])) ;;
   profile_loop (dict_get d "usageStats" (JObj []))
                (w_clock w (w_ticks w)) items,
   snd (now_ms w)).
Proof. reflexivity. Qed.

Lemma read_profiles_of_ticks (src : json) (w : world) :
  w_ticks (snd (read_profiles_of src w)) <= S (w_ticks w).
Proof.
  destruct src; simpl; lia.
Qed.

End ReadFacts.

(** One profile, read off the body of the loop. *)
Lemma profile_entry_spec (usage : json) (now : Q) (pid : string)
      (pdata : json) (p : auth_profile) :
  profile_entry usage now pid pdata = Ok p ->
  ap_profile_id p = pid /\
  exists u st cu pd,
    usage = JObj u /\
    dict_get u pid (JObj []) = JObj st /\
    as_number (dict_get st "cooldownUntil" (JNum 0%Q)) = Ok cu /\
    pdata = JObj pd /\
    ap_in_cooldown p = Qgtb cu now /\
    ap_cooldown_remaining_ms p
    = (if Qgtb cu now then max0 (cu - now)%Q else 0%Q) /\
    (truthy (dict_get pd "apiKey" JNull) = true ->
     key_hint (dict_get pd "apiKey" (JStr empty_str)) = Ok
       match ap_api_key p with Some h => h | None => EmptyString end
     /\ ap_api_key p <> None) /\
    (truthy (dict_get pd "apiKey" JNull) = false -> ap_api_key p = None).
Proof.
  unfold profile_entry. intros Hp.
  apply bind_Ok_inv in Hp. destruct Hp as (stats & Hstats & Hp).
  apply bind_Ok_inv in Hp. destruct Hp as (cooldown_until & Hcu & Hp).
  apply bind_Ok_inv in Hp. destruct Hp as (cu & Hnum & Hp).
  apply bind_Ok_inv in Hp. destruct Hp as (provider & Hprov & Hp).
  apply bind_Ok_inv in Hp. destruct Hp as (auth_type & _ & Hp).
  apply bind_Ok_inv in Hp. destruct Hp as (email & _ & Hp).
  apply bind_Ok_inv in Hp. destruct Hp as (key & Hkey & Hp).
  apply bind_Ok_inv in Hp. destruct Hp as (api_key & Hapi & Hp).
  apply bind_Ok_inv in Hp. destruct Hp as (expires & _ & Hp).
  apply bind_Ok_inv in Hp. destruct Hp as (error_count & _ & Hp).
  apply bind_Ok_inv in Hp. destruct Hp as (last_used & _ & Hp).
  injection Hp as <-. simpl. split; [reflexivity |].
  destruct usage as [| | | | | u]; try discriminate Hstats.
  simpl in Hstats. injection Hstats as <-.
  destruct (dict_get u pid (JObj [])) as [| | | | | st] eqn:Hst;
    try discriminate Hcu.
  simpl in Hcu. injection Hcu as <-.
  destruct pdata as [| | | | | pd]; try discriminate Hprov.
  simpl in Hkey. injection Hkey as <-.
  exists u, st, cu, pd.
  repeat (split; [reflexivity || assumption |]).
  split.
  - intros Htr. rewrite Htr in Hapi. simpl in Hapi.
    apply bind_Ok_inv in Hapi. destruct Hapi as (h & Hh & Hapi).
    injection Hapi as <-. split; [exact Hh | discriminate].
  - intros Hfa. rewrite Hfa in Hapi. injection Hapi as <-. reflexivity.
Qed.

Lemma profile_entry_total (usage : json) (now : Q) (pid : string)
      (pdata : json) :
  stats_typed usage pid = true -> pdata_typed pdata = true ->
  exists p, profile_entry usage now pid pdata = Ok p.
Proof.
  unfold stats_typed, pdata_typed, profile_entry. intros Hs Hp.
  destruct usage as [| | | | | u]; try discriminate Hs. simpl.
  destruct (dict_get u pid (JObj [])) as [| | | | | st];
    try discriminate Hs.
  simpl.
  assert (Hnum : exists cu,
             as_number (dict_get st "cooldownUntil" (JNum 0%Q)) = Ok cu).
  { destruct (dict_get st "cooldownUntil" (JNum 0%Q));
      try discriminate Hs; simpl; eauto. }
  destruct Hnum as (cu & ->). simpl.
  destruct pdata as [| | | | | pd]; try discriminate Hp. simpl.
  destruct (truthy (dict_get pd "apiKey" JNull)) eqn:Htr; simpl in *.
  - unfold dict_get in *.
    destruct (lookup "apiKey" pd) as [k |]; [| discriminate Htr].
    destruct k; try discriminate Hp. simpl. eauto.
  - eauto.
Qed.

Lemma profile_entry_cooldown (u : dict) (now : Q) (pid : string)
      (pdata : json) (p : auth_profile) :
  profile_entry (JObj u) now pid pdata = Ok p -> cooldown_ok u now pid p.
Proof.
  intros Hp. apply profile_entry_spec in Hp.
  destruct Hp as (_ & u' & st & cu & pd & Hu & Hst & Hcu & _ & Hin & Hrem & _).
  injection Hu as <-. unfold cooldown_ok. rewrite Hin, Hrem.
  unfold dict_get in Hst, Hcu. split.
  - intros st0 cu0 T Hl Hl0 HT.
    rewrite Hl in Hst. injection Hst as <-.
    rewrite Hl0 in Hcu. simpl in Hcu. injection Hcu as <-.
    split; intros Hnow.
    + assert (Hgt : Qgtb cu0 now = true) by (apply Qgtb_true; lra).
      rewrite Hgt. split; [reflexivity |].
      unfold max0.
      assert (Hpos : Qgtb (cu0 - now) 0 = true) by (apply Qgtb_true; lra).
      rewrite Hpos. split; lra.
    + assert (Hle : Qgtb cu0 now = false) by (apply Qgtb_false; lra).
      rewrite Hle. split; [reflexivity | lra].
  - intros Hnow Hno.
    assert (Hcu0 : cu = 0%Q).
    { destruct Hno as [Hnone | (st0 & Hl & Hl0)].
      - rewrite Hnone in Hst. injection Hst as <-.
        simpl in Hcu. injection Hcu as <-. reflexivity.
      - rewrite Hl in Hst. injection Hst as <-.
        rewrite Hl0 in Hcu. simpl in Hcu. injection Hcu as <-. reflexivity. }
    subst cu.
    assert (Hle : Qgtb 0 now = false) by (apply Qgtb_false; exact Hnow).
    rewrite Hle. split; [reflexivity | lra].
Qed.

Lemma read_auth_profiles_entries {P : PyJson} (raw : json) (w : world)
      (d : dict) (ps : list auth_profile) :
  loaded_source raw w = Ok (JObj d) ->
  fst (read_auth_profiles raw w) = Ok ps ->
  exists items,
    dict_get d "profiles" (JObj []) = JObj items /\
    Forall2 (fun (kv : string * json) p =>
               profile_entry (dict_get d "usageStats" (JObj []))
                             (w_clock w (w_ticks w)) (fst kv) (snd kv) = Ok p)
            items ps.
Proof.
  intros Hsrc. rewrite read_auth_profiles_source, Hsrc, read_profiles_of_dict.
  simpl. intros Hps.
  apply bind_Ok_inv in Hps. destruct Hps as (items & Hitems & Hloop).
  destruct (dict_get d "profiles" (JObj [])) as [| | | | | items'];
    try discriminate Hitems.
  injection Hitems as ->. exists items. split; [reflexivity |].
  exact (mapM_Ok_Forall2 _ _ Hloop).
Qed.

Lemma profile_loop_total (usage : json) (now : Q) (items : dict) :
  profiles_typed usage items = true ->
  exists ps, profile_loop usage now items = Ok ps.
Proof.
  unfold profiles_typed, profile_loop. intros Ht.
  apply mapM_total. apply Forall_forall. intros kv Hin.
  rewrite forallb_forall in Ht. specialize (Ht kv Hin).
  apply andb_true_iff in Ht. destruct Ht as (Hs & Hp).
  apply profile_entry_total; assumption.
Qed.

(** The tests of [test_data_layer.py] on [read_auth_profiles], with the
    clock at 1770900000000 ms. *)
Example test_read_auth_profiles_finds_cooldown :
  exists result p,
    fst (read_auth_profiles (H := MiniJson.codec) SAMPLE_AUTH w_offline)
    = Ok result /\
    In p result /\
    ap_profile_id p = "google-gemini-cli:bob" /\
    ap_in_cooldown p = true.
Proof.
  eexists. eexists. split; [reflexivity |].
  split; [right; left; reflexivity |]. split; reflexivity.
Qed.

Example test_read_auth_profiles_api_key_type :
  exists result groq,
    fst (read_auth_profiles (H := MiniJson.codec) SAMPLE_AUTH w_offline)
    = Ok result /\
    nth_error result 0 = Some groq /\
    ap_profile_id groq = "groq:manual" /\
    ap_auth_type groq = JStr "apiKey" /\
    ap_in_cooldown groq = false.
Proof. eexists. eexists. repeat split; reflexivity. Qed.

(** C6, in the form that holds of the code.  [read_auth_profiles] reads the wall clock at most
    once per call: not at all when the credential file cannot be read or
    decoded (the call returns the empty list), and exactly once when it has a
    source dict, given or read from the file; all profiles of the call are
    computed against that one reading.  For a profile whose usage entry has
    [cooldownUntil = T + 5000], the read at time [T] reports
    [in_cooldown = True] and a remaining time in (0, 5000], the read at time
    [T + 6000] reports [in_cooldown = False] and 0; a profile without a
    cooldown entry is not reported in cooldown (the clock being at or after
    the epoch).  The call returns when the entries are well typed. *)
Theorem C6_read_auth_profiles_cooldown
  (P : PyJson) (raw : json) (w : world) :
  let now := w_clock w (w_ticks w) in
  let out := read_auth_profiles raw w in
  w_ticks (snd out) <= S (w_ticks w) /\
  (forall e, loaded_source raw w = Raise e -> out = (Ok [], w)) /\
  (forall d, loaded_source raw w = Ok (JObj d) ->
     snd out = snd (now_ms w) /\
     w_ticks (snd out) = S (w_ticks w) /\
     forall items u,
       dict_get d "profiles" (JObj []) = JObj items ->
       dict_get d "usageStats" (JObj []) = JObj u ->
       (profiles_typed (JObj u) items = true -> exists ps, fst out = Ok ps) /\
       (forall ps, fst out = Ok ps ->
          forall k pid pdata, nth_error items k = Some (pid, pdata) ->
            exists p, nth_error ps k = Some p /\
                      ap_profile_id p = pid /\
                      cooldown_ok u now pid p)).
Proof.
  intros now out. subst out.
  split.
  { rewrite read_auth_profiles_source.
    destruct (loaded_source raw w) as [src | e].
    - apply read_profiles_of_ticks.
    - simpl. lia. }
  split.
  { intros e He. rewrite read_auth_profiles_source, He. reflexivity. }
  intros d Hsrc.
  assert (Hout : read_auth_profiles raw w = read_profiles_of (JObj d) w)
    by (rewrite read_auth_profiles_source, Hsrc; reflexivity).
  split; [rewrite Hout; reflexivity |].
  split; [rewrite Hout; reflexivity |].
  intros items u Hitems Hu. split.
  - intros Ht. rewrite Hout, read_profiles_of_dict, Hitems, Hu. simpl.
    apply profile_loop_total. exact Ht.
  - intros ps Hps k pid pdata Hk.
    destruct (read_auth_profiles_entries _ _ Hsrc Hps) as (items' & Hi & Hall).
    rewrite Hitems in Hi. injection Hi as <-. rewrite Hu in Hall.
    destruct (Forall2_nth_error_l Hall _ Hk) as (p & Hp & Hentry).
    simpl in Hentry. exists p. split; [exact Hp |]. split.
    + exact (proj1 (@profile_entry_spec _ _ _ _ _ Hentry)).
    + exact (@profile_entry_cooldown _ _ _ _ _ Hentry).
Qed.

Lemma C6_read_auth_profiles_cooldown_witness :
  exists ps p,
    fst (read_auth_profiles (H := MiniJson.codec) cooling_auth w_offline) = Ok ps /\
    nth_error ps 0 = Some p /\
    ap_profile_id p = "google-gemini-cli:bob" /\
    ap_in_cooldown p = true /\
    (0 < ap_cooldown_remaining_ms p)%Q /\
    (ap_cooldown_remaining_ms p <= 5000)%Q.
Proof.
  destruct (@C6_read_auth_profiles_cooldown MiniJson.codec cooling_auth w_offline)
    as (_ & _ & Hdict).
  destruct (Hdict _ eq_refl) as (_ & _ & Hitems).
  destruct (Hitems _ _ eq_refl eq_refl) as (Htotal & Hentries).
  destruct (Htotal eq_refl) as (ps & Hps).
  destruct (Hentries ps Hps 0 _ _ eq_refl) as (p & Hp & Hid & Hcool & _).
  destruct (Hcool _ (1770900005000 # 1)%Q (1770900000000 # 1)%Q eq_refl eq_refl)
    as (Hat & _); [reflexivity |].
  destruct Hat as (Hin & Hpos & Hle); [reflexivity |].
  exists ps, p. repeat split; assumption.
Defined.

(** C6, as the specification states it, fails: a call does not always read
    the clock once.  With the default argument and a credential file that
    cannot be read, the call returns the empty list and no reading of the
    clock was taken.  And "never in cooldown" needs a clock that is not
    before the epoch: read at -1 ms, the profile [groq:manual] of the test
    data, which has no usage entry, is reported in cooldown. *)
Lemma C6_clock_not_sampled_counterexample :
  (read_auth_profiles (H := MiniJson.codec) JNull w_offline = (Ok [], w_offline)
   /\ w_ticks (snd (read_auth_profiles (H := MiniJson.codec) JNull w_offline))
      <> S (w_ticks w_offline))
  /\ (exists ps p,
        fst (read_auth_profiles (H := MiniJson.codec) SAMPLE_AUTH w_pre_epoch)
        = Ok ps /\
        nth_error ps 0 = Some p /\
        ap_profile_id p = "groq:manual" /\
        ap_in_cooldown p = true).
Proof.
  split.
  - split; [reflexivity | discriminate].
  - eexists. eexists. split; [reflexivity |]. split; [reflexivity |].
    split; reflexivity.
Qed.

(** ** The key hint *)

Lemma str_take_length (n : nat) (s : string) :
  String.length (str_take n s) <= n.
Proof.
  revert s. induction n as [| n IH]; intros s; simpl; [lia |].
  destruct s as [| c s]; simpl; [lia |]. specialize (IH s). lia.
Qed.

Lemma str_take_all (n : nat) (s : string) :
  String.length s <= n -> str_take n s = s.
Proof.
  revert s. induction n as [| n IH]; intros s Hl.
  - destruct s; [reflexivity | simpl in Hl; lia].
  - destruct s as [| c s]; simpl; [reflexivity |].
    rewrite IH; [reflexivity | simpl in Hl; lia].
Qed.

Lemma str_append_length (a b : string) :
  String.length (a ++ b)%string = String.length a + String.length b.
Proof.
  induction a as [| c a IH]; simpl; [reflexivity | rewrite IH; reflexivity].
Qed.

Lemma prefix_length (p s : string) :
  String.prefix p s = true -> String.length p <= String.length s.
Proof.
  revert s. induction p as [| c p IH]; intros s Hp; [simpl; lia |].
  destruct s as [| c' s]; simpl in Hp; [discriminate Hp |].
  destruct (ascii_dec c c'); [| discriminate Hp].
  specialize (IH s Hp). simpl. lia.
Qed.

Lemma contains_length (p s : string) :
  contains p s = true -> String.length p <= String.length s.
Proof.
  induction s as [| c s IH]; cbn [contains]; intros Hc.
  - rewrite orb_false_r in Hc. apply prefix_length. exact Hc.
  - apply orb_true_iff in Hc. destruct Hc as [Hp | Hc].
    + apply prefix_length. exact Hp.
    + specialize (IH Hc). simpl. lia.
Qed.

(** C7, in the form that holds of the code.  For a profile entry whose API key is a non-empty
    str, the [api_key] that [read_auth_profiles] returns is the first 8
    characters of the key followed by [...]: the whole key and the marker
    when the key has at most 8 characters.  A key of more than 11
    characters does not occur in the returned field. *)
Theorem C7_api_key_truncated
  (P : PyJson) (raw : json) (w : world) (d items : dict)
  (ps : list auth_profile) (k : nat) (pid : string) (pd : dict)
  (key : string) :
  loaded_source raw w = Ok (JObj d) ->
  dict_get d "profiles" (JObj []) = JObj items ->
  nth_error items k = Some (pid, JObj pd) ->
  lookup "apiKey" pd = Some (JStr key) ->
  key <> EmptyString ->
  fst (read_auth_profiles raw w) = Ok ps ->
  exists p,
    nth_error ps k = Some p /\
    ap_profile_id p = pid /\
    ap_api_key p = Some (str_take 8 key ++ "...")%string /\
    String.length (str_take 8 key) <= 8 /\
    (String.length key <= 8 -> ap_api_key p = Some (key ++ "...")%string) /\
    (11 < String.length key ->
     contains key (str_take 8 key ++ "...")%string = false).
Proof.
  intros Hsrc Hitems Hk Hkey Hne Hps.
  destruct (read_auth_profiles_entries _ _ Hsrc Hps) as (items' & Hi & Hall).
  rewrite Hitems in Hi. injection Hi as <-.
  destruct (Forall2_nth_error_l Hall _ Hk) as (p & Hp & Hentry).
  simpl in Hentry. apply profile_entry_spec in Hentry.
  destruct Hentry
    as (Hid & u & st & cu & pd' & _ & _ & _ & Hpd & _ & _ & Htruthy & _).
  injection Hpd as <-.
  assert (Hapi : ap_api_key p = Some (str_take 8 key ++ "...")%string).
  { unfold dict_get in Htruthy. rewrite Hkey in Htruthy. simpl in Htruthy.
    destruct Htruthy as (Hhint & Hsome).
    - destruct key; [congruence | reflexivity].
    - destruct (ap_api_key p) as [h |]; [| congruence].
      injection Hhint as <-. reflexivity. }
  exists p. repeat split; auto.
  - apply str_take_length.
  - intros Hshort. rewrite Hapi, (str_take_all _ Hshort). reflexivity.
  - intros Hlong.
    destruct (contains key (str_take 8 key ++ "...")%string) eqn:Hc;
      [| reflexivity].
    apply contains_length in Hc. rewrite str_append_length in Hc.
    pose proof (str_take_length 8 key) as Ht.
    change (String.length "...") with 3 in Hc. lia.
Qed.

Lemma C7_api_key_truncated_witness :
  exists ps p,
    fst (read_auth_profiles (H := MiniJson.codec) cooling_auth w_offline) = Ok ps /\
    nth_error ps 1 = Some p /\
    ap_api_key p = Some "gsk_0123..." /\
    contains "gsk_0123456789abcdef" "gsk_0123..." = false.
Proof.
  destruct (fst (read_auth_profiles (H := MiniJson.codec)
                                    cooling_auth w_offline))
    as [ps | e] eqn:Hps; [| discriminate Hps].
  destruct (@C7_api_key_truncated MiniJson.codec cooling_auth w_offline
              _ _ ps 1 "groq:manual" _ "gsk_0123456789abcdef"
              eq_refl eq_refl eq_refl eq_refl)
    as (p & Hp & _ & Hapi & _ & _ & Hlong);
    [discriminate | exact Hps |].
  exists ps, p. repeat split; try assumption; reflexivity.
Defined.

(** C7, as the specification states it, fails: a key of at most 8
    characters is returned in full, before the marker.  The key of the test
    data, [gsk_abc], is in the returned [api_key]. *)
Lemma C7_short_key_counterexample :
  exists ps p,
    fst (read_auth_profiles (H := MiniJson.codec) SAMPLE_AUTH w_offline) = Ok ps /\
    nth_error ps 0 = Some p /\
    ap_profile_id p = "groq:manual" /\
    ap_api_key p = Some "gsk_abc..." /\
    contains "gsk_abc" "gsk_abc..." = true.
Proof.
  eexists. eexists.
  split; [reflexivity |].
  split; [reflexivity |].
  repeat split; reflexivity.
Qed.

(** * More of the program

    Properties of the functions above that the specification does not
    state, and of the rest of the file: the cooldown and provider writers,
    the bars and panels, and the screens as machines that take keys.  What a
    screen draws is part of the model where the drawing is plain Python over
    the values at hand; calls into the widget toolkit are not. *)

Unset Implicit Arguments.

(** ** [_shorten] *)

Lemma startswith_drop (p s : string) :
  startswith p s = true -> s = (p ++ str_drop (String.length p) s)%string.
Proof.
  unfold startswith. revert s.
  induction p as [| c p IH]; intros s Hp; [reflexivity |].
  destruct s as [| c' s]; simpl in Hp; [discriminate Hp |].
  destruct (ascii_dec c c') as [-> | _]; [| discriminate Hp].
  simpl. rewrite <- (IH s Hp). reflexivity.
Qed.

Lemma removeprefix_spec (p s : string) :
  removeprefix p s = s \/ s = (p ++ removeprefix p s)%string.
Proof.
  unfold removeprefix. destruct (startswith p s) eqn:Hp.
  - right. apply startswith_drop. exact Hp.
  - left. reflexivity.
Qed.

Lemma split_on_nonempty (sep : ascii) (s : string) : split_on sep s <> [].
Proof.
  destruct s as [| c s]; simpl; [discriminate |].
  destruct (Ascii.eqb c sep); [discriminate |].
  destruct (split_on sep s); discriminate.
Qed.

(** Joining the pieces of a split with the separator gives the string
    back. *)
Lemma join_split_on (sep : ascii) (s : string) :
  join (String sep EmptyString) (split_on sep s) = s.
Proof.
  induction s as [| c s IH]; [reflexivity |].
  simpl. destruct (Ascii.eqb_spec c sep) as [-> | Hc].
  - destruct (split_on sep s) as [| p ps] eqn:Hs.
    + exfalso. exact (split_on_nonempty sep s Hs).
    + rewrite <- IH. reflexivity.
  - destruct (split_on sep s) as [| p ps] eqn:Hs.
    + exfalso. exact (split_on_nonempty sep s Hs).
    + destruct ps as [| p' ps]; simpl in *; rewrite <- IH; reflexivity.
Qed.

Lemma str_append_assoc (a b c : string) :
  ((a ++ b) ++ c = a ++ (b ++ c))%string.
Proof.
  induction a as [| x a IH]; simpl; [reflexivity | rewrite IH; reflexivity].
Qed.

Lemma split_on_free (sep : ascii) (a : string) :
  (forall b, split_on sep a = [b] -> b = a).
Proof.
  intros b Hb. pose proof (join_split_on sep a) as Hj.
  rewrite Hb in Hj. exact Hj.
Qed.

(** X1.  [_shorten] takes nothing but a leading [google-] off a model id:
    the id is the label, or [google-] followed by the label.  An id that
    does not have exactly one slash is returned as it is, and in a
    two-segment id the segment after the slash is kept. *)
Theorem X1_shorten_strips_only_google (model_id : string) :
  (_shorten model_id = model_id \/
   model_id = ("google-" ++ _shorten model_id)%string) /\
  (length (split_on "/" model_id) <> 2 -> _shorten model_id = model_id) /\
  (forall provider name,
      split_on "/" model_id = [provider; name] ->
      model_id = (provider ++ "/" ++ name)%string /\
      _shorten model_id
      = (removeprefix "google-" provider ++ "/" ++ name)%string).
Proof.
  pose proof (join_split_on "/" model_id) as Hj.
  unfold _shorten.
  destruct (split_on "/" model_id) as [| provider [| name [| x rest]]] eqn:Hs;
    simpl in Hj.
  - split; [left; reflexivity |]. split; [reflexivity |]. discriminate.
  - split; [left; reflexivity |]. split; [reflexivity |]. discriminate.
  - split; [| split].
    + destruct (removeprefix_spec "google-" provider) as [-> | Hp].
      * left. exact Hj.
      * right. rewrite <- Hj. rewrite Hp at 1.
        rewrite str_append_assoc. reflexivity.
    + simpl. intros Hne. exfalso. apply Hne. reflexivity.
    + intros provider' name' Heq. injection Heq as <- <-.
      split; [symmetry; exact Hj | reflexivity].
  - split; [left; reflexivity |]. split; [reflexivity |]. discriminate.
Qed.

(** ** [parse_model_status]: aliases and status labels *)

Lemma invert_is_swap (items : dict) (inv : list (json * string)) :
  invert items = Ok inv ->
  inv = map (fun kv : string * json => (snd kv, fst kv)) items.
Proof.
  revert inv. induction items as [| kv items IH]; simpl; intros inv Hi.
  - injection Hi as <-. reflexivity.
  - apply bind_Ok_inv in Hi. destruct Hi as (y & Hy & Hi).
    apply bind_Ok_inv in Hi. destruct Hi as (ys & Hys & Hi).
    injection Hi as <-.
    destruct (hashable (snd kv)); [| discriminate Hy].
    injection Hy as <-. rewrite <- (IH _ Hys). reflexivity.
Qed.

Lemma is_str_true (m : string) (v : json) : is_str m v = true <-> v = JStr m.
Proof.
  destruct v; simpl; try (split; [discriminate | intros Hv; discriminate Hv]).
  split.
  - intros He. apply String.eqb_eq in He. congruence.
  - intros Hv. injection Hv as ->. apply String.eqb_refl.
Qed.

Lemma inv_get_sound (inv : list (json * string)) (m a : string) :
  inv_get inv m = Some a -> In (JStr m, a) inv.
Proof.
  induction inv as [| [v k] inv IH]; simpl; [discriminate |].
  destruct (inv_get inv m) as [k' |].
  - intros Hk. right. apply IH. exact Hk.
  - destruct (is_str m v) eqn:Hv; [| discriminate].
    intros Hk. injection Hk as <-. apply is_str_true in Hv. subst v.
    left. reflexivity.
Qed.

Lemma inv_get_complete (inv : list (json * string)) (m a : string) :
  In (JStr m, a) inv -> inv_get inv m <> None.
Proof.
  induction inv as [| [v k] inv IH]; simpl; [intros [] |].
  intros [Hhead | Htail].
  - injection Hhead as -> ->.
    destruct (inv_get inv m); [discriminate |].
    cbn [is_str]. rewrite String.eqb_refl. discriminate.
  - specialize (IH Htail). destruct (inv_get inv m); [discriminate | congruence].
Qed.

Lemma inv_get_last (pre post : list (json * string)) (m a : string) :
  (forall a', ~ In (JStr m, a') post) ->
  inv_get (pre ++ (JStr m, a) :: post) m = Some a.
Proof.
  intros Hpost.
  assert (Hnone : inv_get post m = None).
  { destruct (inv_get post m) as [a' |] eqn:Hg; [| reflexivity].
    exfalso. exact (Hpost a' (inv_get_sound _ _ _ Hg)). }
  induction pre as [| [v k] pre IH]; simpl.
  - rewrite Hnone. cbn [is_str]. rewrite String.eqb_refl. reflexivity.
  - rewrite IH. reflexivity.
Qed.

Lemma rotation_loop_alias inv :
  forall models i entries,
    rotation_loop inv i models = Ok entries ->
    Forall2 (fun m e => re_model e = m /\
                        re_alias e = alias_of inv m /\
                        shorten_value m = Ok (re_label e))
            models entries.
Proof.
  induction models as [| model rest IH]; simpl; intros i entries Hl.
  - injection Hl as <-. constructor.
  - apply bind_Ok_inv in Hl. destruct Hl as (label & Hlab & Hl).
    apply bind_Ok_inv in Hl. destruct Hl as (es & Hes & Hl).
    injection Hl as <-. constructor; [simpl; auto | eauto].
Qed.

Lemma Forall2_nth_error_r {A B : Type} (R : A -> B -> Prop) l ys :
  Forall2 R l ys ->
  forall k y, nth_error ys k = Some y -> exists x, nth_error l k = Some x /\ R x y.
Proof.
  induction 1 as [| x0 y0 l ys HR _ IH]; intros k y Hk.
  - destruct k; discriminate Hk.
  - destruct k as [| k]; simpl in *.
    + injection Hk as <-. eauto.
    + eauto.
Qed.

(** The whole of what [parse_model_status] computes for the rotation. *)
Lemma parse_model_status_rotation d snap :
  parse_model_status (JObj d) = Ok snap ->
  exists items fl,
    dict_get d "aliases" (JObj []) = JObj items /\
    dict_get d "fallbacks" (JArr []) = JArr fl /\
    rotation_loop (map (fun kv : string * json => (snd kv, fst kv)) items) 0
                  (dict_get d "defaultModel" (JStr empty_str) :: fl)
    = Ok (sn_rotation snap).
Proof.
  unfold parse_model_status. simpl. intros Hp.
  apply bind_Ok_inv in Hp. destruct Hp as (items & Hitems & Hp).
  apply bind_Ok_inv in Hp. destruct Hp as (inv & Hinv & Hp).
  apply bind_Ok_inv in Hp. destruct Hp as (models & Hmodels & Hp).
  apply bind_Ok_inv in Hp. destruct Hp as (rot & Hrot & Hp).
  apply bind_Ok_inv in Hp. destruct Hp as (oauth & _ & Hp).
  apply bind_Ok_inv in Hp. destruct Hp as (profs & _ & Hp).
  apply bind_Ok_inv in Hp. destruct Hp as (ps & _ & Hp).
  apply bind_Ok_inv in Hp. destruct Hp as (os & _ & Hp).
  injection Hp as <-. simpl.
  destruct (dict_get d "aliases" (JObj [])) as [| | | | | al];
    try discriminate Hitems.
  injection Hitems as <-.
  destruct (dict_get d "fallbacks" (JArr [])) as [| | | | fl |];
    try discriminate Hmodels.
  injection Hmodels as <-.
  exists al, fl. rewrite <- (invert_is_swap _ _ Hinv). auto.
Qed.

(** X2.  The alias of a rotation entry is the reverse lookup of its model
    in the [aliases] mapping: an alias that is reported maps to the model;
    no alias is reported exactly when none maps to the model; and when
    several do, the one written last in the mapping is reported. *)
Theorem X2_alias_reverse_lookup
  (d : dict) (snap : snapshot) (items : dict)
  (i : nat) (e : rotation_entry) (m : string) :
  parse_model_status (JObj d) = Ok snap ->
  dict_get d "aliases" (JObj []) = JObj items ->
  nth_error (sn_rotation snap) i = Some e ->
  re_model e = JStr m ->
  (forall a, re_alias e = Some a -> In (a, JStr m) items) /\
  (re_alias e = None <-> forall a, ~ In (a, JStr m) items) /\
  (forall pre a post,
      items = pre ++ (a, JStr m) :: post ->
      (forall a', ~ In (a', JStr m) post) ->
      re_alias e = Some a).
Proof.
  intros Hp Hitems He Hm.
  destruct (parse_model_status_rotation _ _ Hp) as (items' & fl & Hi & _ & Hrot).
  rewrite Hitems in Hi. injection Hi as <-.
  pose proof (rotation_loop_alias _ _ _ _ Hrot) as Hall.
  destruct (Forall2_nth_error_r _ _ _ Hall _ _ He) as (model & _ & Hmod & Hal & _).
  rewrite Hm in Hmod. subst model. simpl in Hal.
  set (inv := map (fun kv : string * json => (snd kv, fst kv)) items) in *.
  assert (Hin : forall a, In (JStr m, a) inv <-> In (a, JStr m) items).
  { intros a. unfold inv. rewrite in_map_iff. split.
    - intros ([k v] & Hkv & Hin). simpl in Hkv. injection Hkv as -> ->.
      exact Hin.
    - intros Hin. exists (a, JStr m). auto. }
  rewrite Hal. split; [| split].
  - intros a Ha. apply Hin. exact (inv_get_sound _ _ _ Ha).
  - split.
    + intros Hnone a Ha. apply Hin in Ha.
      exact (inv_get_complete _ _ _ Ha Hnone).
    + intros Hno. destruct (inv_get inv m) as [a |] eqn:Hg; [| reflexivity].
      exfalso. apply (Hno a). apply Hin. exact (inv_get_sound _ _ _ Hg).
  - intros pre a post Heq Hpost. unfold inv. rewrite Heq, map_app. simpl.
    apply inv_get_last. intros a' Ha'. apply (Hpost a').
    apply in_map_iff in Ha'. destruct Ha' as ([k v] & Hkv & Hin').
    simpl in Hkv. injection Hkv as -> ->. exact Hin'.
Qed.

Lemma X2_alias_reverse_lookup_witness :
  exists snap e,
    parse_model_status SAMPLE_STATUS = Ok snap /\
    nth_error (sn_rotation snap) 0 = Some e /\
    re_alias e = Some "gemini-flash".
Proof.
  destruct (parse_model_status SAMPLE_STATUS) as [snap | err] eqn:Hp;
    [| discriminate Hp].
  destruct (nth_error (sn_rotation snap) 0) as [e |] eqn:He.
  - exists snap, e. split; [reflexivity |]. split; [exact He |].
    assert (Hm : re_model e = JStr "google-gemini-cli/gemini-3-flash").
    { vm_compute in Hp. injection Hp as <-. vm_compute in He.
      injection He as <-. reflexivity. }
    destruct (X2_alias_reverse_lookup _ snap _ 0 e _ Hp eq_refl He Hm)
      as (_ & _ & Hlast).
    apply (Hlast [] "gemini-flash" []); [reflexivity |].
    intros a' [].
  - exfalso. vm_compute in Hp. injection Hp as <-. discriminate He.
Defined.

Lemma str_of_nat_inj (i j : nat) : str_of_nat i = str_of_nat j -> i = j.
Proof.
  unfold str_of_nat. intros Hs.
  apply (f_equal NilEmpty.uint_of_string) in Hs.
  rewrite !NilEmpty.usu in Hs. injection Hs as Hs.
  apply DecimalNat.Unsigned.to_uint_inj. exact Hs.
Qed.

Lemma status_label_inj (i j : nat) : status_label i = status_label j -> i = j.
Proof.
  unfold status_label.
  destruct i as [| i], j as [| j]; simpl; try discriminate; [reflexivity |].
  intros Hs. injection Hs as Hs. apply str_of_nat_inj. exact Hs.
Qed.

(** The character [c] occurs in [s]. *)
Lemma contains_first_char (c : ascii) (p s : string) :
  contains (String c p) s = true ->
  exists a b, s = (a ++ String c b)%string.
Proof.
  induction s as [| c' s IH]; cbn [contains]; intros Hc.
  - simpl in Hc. discriminate Hc.
  - apply orb_true_iff in Hc. destruct Hc as [Hp | Hc].
    + simpl in Hp. destruct (ascii_dec c c') as [-> | _]; [| discriminate Hp].
      exists EmptyString, s. reflexivity.
    + destruct (IH Hc) as (a & b & ->). exists (String c' a), b. reflexivity.
Qed.

Lemma digits_of_uint (d : Decimal.uint) (a b : string) (c : ascii) :
  NilEmpty.string_of_uint d = (a ++ String c b)%string -> is_digit c = true.
Proof.
  revert a.
  induction d; intros a Hs; simpl in Hs;
    try (destruct a as [| x a]; simpl in Hs;
         [injection Hs as <- _; reflexivity
         | injection Hs as _ Hs; exact (IHd a Hs)]).
  destruct a; discriminate Hs.
Qed.

Lemma status_label_no_cooldown (i : nat) :
  contains "COOLDOWN" (status_label i) = false.
Proof.
  unfold status_label. destruct i as [| i]; [reflexivity |].
  cbn [Nat.eqb].
  destruct (contains "COOLDOWN" ("#" ++ str_of_nat (S i))%string) eqn:Hc;
    [| reflexivity].
  apply contains_first_char in Hc. destruct Hc as (a & b & Hs).
  destruct a as [| x a]; simpl in Hs; [discriminate Hs |].
  injection Hs as _ Hs. apply digits_of_uint in Hs. discriminate Hs.
Qed.

(** X3.  In every snapshot that [parse_model_status] returns, the entry at
    index [i] has position [i]; the status [ACTIVE] is on the entry at
    index 0 and on no other; two entries never share a status; and no status
    contains [COOLDOWN]. *)
Theorem X3_status_labels
  (d : dict) (snap : snapshot) (i : nat) (e : rotation_entry) :
  parse_model_status (JObj d) = Ok snap ->
  nth_error (sn_rotation snap) i = Some e ->
  re_position e = i /\
  (re_status e = "ACTIVE" <-> i = 0) /\
  contains "COOLDOWN" (re_status e) = false /\
  (forall j e', nth_error (sn_rotation snap) j = Some e' ->
                re_status e' = re_status e -> j = i).
Proof.
  intros Hp He.
  destruct (parse_model_status_rotation _ _ Hp) as (items & fl & _ & _ & Hrot).
  destruct (@rotation_loop_spec _ _ _ _ Hrot) as (Hlen & Hnth).
  assert (Hat : forall k x, nth_error (sn_rotation snap) k = Some x ->
                            re_status x = status_label k /\ re_position x = k).
  { intros k x Hx.
    assert (Hk : k < length (sn_rotation snap))
      by (apply nth_error_Some; congruence).
    rewrite Hlen in Hk. apply nth_error_Some in Hk.
    destruct (nth_error (dict_get d "defaultModel" (JStr empty_str) :: fl) k)
      as [m |] eqn:Hm; [| congruence].
    destruct (Hnth k m Hm) as (x' & Hx' & _ & Hs & Hpos).
    rewrite Hx in Hx'. injection Hx' as <-. auto. }
  destruct (Hat i e He) as (Hs & Hpos).
  split; [exact Hpos |]. split; [| split].
  - rewrite Hs. change "ACTIVE" with (status_label 0). split.
    + apply status_label_inj.
    + intros ->. reflexivity.
  - rewrite Hs. apply status_label_no_cooldown.
  - intros j e' He' Heq. destruct (Hat j e' He') as (Hs' & _).
    rewrite Hs, Hs' in Heq. apply status_label_inj. exact Heq.
Qed.

Lemma X3_status_labels_witness :
  exists snap e,
    parse_model_status SAMPLE_STATUS = Ok snap /\
    nth_error (sn_rotation snap) 2 = Some e /\
    re_position e = 2 /\
    contains "COOLDOWN" (re_status e) = false.
Proof.
  destruct (parse_model_status SAMPLE_STATUS) as [snap | err] eqn:Hp;
    [| discriminate Hp].
  destruct (nth_error (sn_rotation snap) 2) as [e |] eqn:He.
  - exists snap, e. split; [reflexivity |]. split; [exact He |].
    destruct (X3_status_labels _ snap 2 e Hp He) as (Hpos & _ & Hno & _).
    split; assumption.
  - exfalso. vm_compute in Hp. injection Hp as <-. discriminate He.
Defined.

(** ** [fetch_model_status]: the preamble *)

Lemma from_json_start_skip (pre rest : list string) :
  Forall (fun l => startswith "{" l = false) pre ->
  from_json_start (pre ++ rest) = from_json_start rest.
Proof.
  induction 1 as [| l pre Hl _ IH]; [reflexivity |].
  simpl. rewrite Hl. exact IH.
Qed.

(** X4.  [fetch_model_status] drops the lines of the output that come
    before the first line starting with a brace, and decodes all the lines
    from that one to the end, joined by newlines: what the preamble says does
    not matter, what follows the JSON document does.  With no such line, or
    when the command raises, the result is [None]. *)
Theorem X4_fetch_skips_preamble (P : PyJson) (stdout : string) :
  let lines := splitlines (strip stdout) in
  (forall e, fetch_model_status (Raise e) = Ok None) /\
  (Forall (fun l => startswith "{" l = false) lines ->
   fetch_model_status (Ok stdout) = Ok None) /\
  (forall pre l post,
      lines = pre ++ l :: post ->
      Forall (fun x => startswith "{" x = false) pre ->
      startswith "{" l = true ->
      fetch_model_status (Ok stdout)
      = try_except
          (raw <- json_loads (join (String nl EmptyString) (l :: post)) ;;
           parsed <- parse_model_status raw ;;
           Ok (Some parsed))
          (Ok None)).
Proof.
  intros lines. split; [reflexivity |]. split.
  - intros Hno. unfold fetch_model_status. simpl. fold lines.
    rewrite <- (app_nil_r lines), (from_json_start_skip _ _ Hno).
    reflexivity.
  - intros pre l post Hl Hpre Hbrace.
    unfold fetch_model_status. simpl. fold lines.
    rewrite Hl, (from_json_start_skip _ _ Hpre). simpl. rewrite Hbrace.
    reflexivity.
Qed.

(** ** [read_auth_profiles]: the fields of a profile *)


Lemma Forall2_map_eq {A B C : Type} (f : A -> C) (g : B -> C) l ys :
  Forall2 (fun x y => g y = f x) l ys -> map g ys = map f l.
Proof.
  induction 1 as [| x y l ys Hxy _ IH]; simpl; [reflexivity |].
  rewrite Hxy, IH. reflexivity.
Qed.




(** X6.  For every profile that [read_auth_profiles] returns, with [cu]
    the [cooldownUntil] of its usage entry (0 without one) and [now] the
    reading of the clock: the profile is in cooldown exactly when
    [cu > now]; the remaining time is [cu - now] in cooldown and 0
    otherwise; so the remaining time is never negative, and it is positive
    exactly when the profile is in cooldown. *)
Theorem X6_cooldown_remaining
  (P : PyJson) (raw : json) (w : world) (d items : dict)
  (ps : list auth_profile) (k : nat) (pid : string) (pdata : json)
  (p : auth_profile) :
  loaded_source raw w = Ok (JObj d) ->
  dict_get d "profiles" (JObj []) = JObj items ->
  fst (read_auth_profiles raw w) = Ok ps ->
  nth_error items k = Some (pid, pdata) ->
  nth_error ps k = Some p ->
  let now := w_clock w (w_ticks w) in
  exists u st cu,
    dict_get d "usageStats" (JObj []) = JObj u /\
    dict_get u pid (JObj []) = JObj st /\
    as_number (dict_get st "cooldownUntil" (JNum 0%Q)) = Ok cu /\
    (ap_in_cooldown p = true <-> (now < cu)%Q) /\
    (ap_in_cooldown p = true -> (ap_cooldown_remaining_ms p == cu - now)%Q) /\
    (ap_in_cooldown p = false -> (ap_cooldown_remaining_ms p == 0)%Q) /\
    (0 <= ap_cooldown_remaining_ms p)%Q /\
    (ap_in_cooldown p = true <-> (0 < ap_cooldown_remaining_ms p)%Q).
Proof.
  intros Hsrc Hitems Hps Hk Hp now.
  destruct (@read_auth_profiles_entries P raw w d ps Hsrc Hps)
    as (items' & Hi & Hall).
  rewrite Hitems in Hi. injection Hi as <-.
  destruct (@Forall2_nth_error_l _ _ _ _ _ Hall _ _ Hk) as (p' & Hp' & Hentry).
  rewrite Hp in Hp'. injection Hp' as <-. simpl in Hentry.
  destruct (@profile_entry_spec _ _ _ _ _ Hentry)
    as (_ & u & st & cu & pd & Hu & Hst & Hcu & _ & Hin & Hrem & _).
  fold now in Hin, Hrem.
  exists u, st, cu. repeat (split; [assumption |]).
  rewrite Hin, Hrem.
  destruct (Qgtb cu now) eqn:Hgt.
  - apply Qgtb_true in Hgt.
    assert (Hpos : Qgtb (cu - now) 0 = true) by (apply Qgtb_true; lra).
    unfold max0. rewrite Hpos.
    repeat split; try (intros; lra); auto.
  - apply Qgtb_false in Hgt.
    repeat split; try (intros; lra); try discriminate;
      try (intros Hlt; exfalso; lra).
Qed.

Lemma X6_cooldown_remaining_witness :
  exists ps p,
    fst (read_auth_profiles (H := MiniJson.codec) cooling_auth w_offline) = Ok ps /\
    nth_error ps 0 = Some p /\
    (ap_cooldown_remaining_ms p == 5000)%Q.
Proof.
  destruct (fst (read_auth_profiles (H := MiniJson.codec) cooling_auth w_offline))
    as [ps | e] eqn:Hps; [| discriminate Hps].
  destruct (nth_error ps 0) as [p |] eqn:Hp.
  - exists ps, p. split; [reflexivity |]. split; [exact Hp |].
    destruct (X6_cooldown_remaining MiniJson.codec cooling_auth w_offline
                _ _ ps 0 _ _ p eq_refl eq_refl Hps eq_refl Hp)
      as (u & st & cu & Hu & Hst & Hcu & Hin & Hrem & _).
    vm_compute in Hu. injection Hu as <-.
    vm_compute in Hst. injection Hst as <-.
    vm_compute in Hcu. injection Hcu as <-.
    rewrite Hrem; [reflexivity |].
    apply Hin. reflexivity.
  - exfalso. vm_compute in Hps. injection Hps as <-. discriminate Hp.
Defined.

(** ** [_parse_log_line]: which lines give an event, and what it holds *)

Section LogLineMore.
Context {P : PyJson}.

Lemma parse_log_obj_fields (d : dict) (ev : log_event) :
  parse_log_obj (JObj d) = Ok (Some ev) ->
  exists meta l t sub,
    dict_get d "_meta" (JObj []) = JObj meta /\
    dict_get meta "logLevelName" (JStr "INFO") = JStr l /\
    dict_get d "time" (JStr empty_str) = JStr t /\
    subsystem_of (dict_get meta "name" (JStr "{}")) = Ok sub /\
    ev_subsystem ev = sub /\
    ev_level ev = upper l /\
    ev_time ev = replace_char "T" " " (str_take 19 t).
Proof.
  unfold parse_log_obj. simpl. intros Hp.
  apply bind_Ok_inv in Hp. destruct Hp as (name_raw & Hname & Hp).
  apply bind_Ok_inv in Hp. destruct Hp as (sub & Hsub & Hp).
  apply bind_Ok_inv in Hp. destruct Hp as (level_raw & Hlr & Hp).
  apply bind_Ok_inv in Hp. destruct Hp as (level & Hl & Hp).
  apply bind_Ok_inv in Hp. destruct Hp as (ts & Hts & Hp).
  injection Hp as <-. simpl.
  destruct (dict_get d "_meta" (JObj [])) as [| | | | | meta];
    try discriminate Hname.
  simpl in Hname, Hlr. injection Hname as <-. injection Hlr as <-.
  destruct (dict_get meta "logLevelName" (JStr "INFO")) as [| | | l | |]
    eqn:Hlevel; try discriminate Hl.
  injection Hl as <-.
  destruct (dict_get d "time" (JStr empty_str)) as [| | | t | |]
    eqn:Htime; try discriminate Hts.
  injection Hts as <-.
  exists meta, l, t, sub. repeat split; auto.
Qed.

Lemma parse_log_obj_typed (d meta : dict) (l t : string) :
  dict_get d "_meta" (JObj []) = JObj meta ->
  dict_get meta "logLevelName" (JStr "INFO") = JStr l ->
  dict_get d "time" (JStr empty_str) = JStr t ->
  exists ev, parse_log_obj (JObj d) = Ok (Some ev).
Proof.
  intros Hm Hl Ht. unfold parse_log_obj. simpl. rewrite Hm. simpl.
  destruct (subsystem_of_total (dict_get meta "name" (JStr "{}")))
    as (sub & ->).
  simpl. rewrite Hl. simpl. rewrite Ht. simpl. eauto.
Qed.

End LogLineMore.

(** X7.  [_parse_log_line] returns an event exactly for the lines that
    decode to an object whose [_meta], level and time, where present, are an
    object, a str and a str; for every other line (not JSON, JSON that is not
    an object, a field of another type) it returns [None]. *)
Theorem X7_log_line_event_iff (P : PyJson) (line : string) :
  ((exists ev, _parse_log_line line = Ok (Some ev)) <->
   log_line_typed (json_loads line) = true) /\
  (_parse_log_line line = Ok None <->
   log_line_typed (json_loads line) = false).
Proof.
  assert (Hiff : (exists ev, _parse_log_line line = Ok (Some ev)) <->
                 log_line_typed (json_loads line) = true).
  { split.
    - intros (ev & Hev).
      destruct (@parse_log_line_event P line ev Hev) as (obj & Hobj & Hp).
      destruct (@parse_log_obj_event P obj ev Hp) as (d & -> & _).
      destruct (parse_log_obj_fields d ev Hp)
        as (meta & l & t & sub & Hm & Hl & Ht & _).
      rewrite Hobj. simpl. rewrite Hm, Hl, Ht. reflexivity.
    - unfold log_line_typed. intros Ht.
      destruct (json_loads line) as [[| | | | | d] | e] eqn:Hload;
        try discriminate Ht.
      destruct (dict_get d "_meta" (JObj [])) as [| | | | | meta] eqn:Hm;
        try discriminate Ht.
      apply andb_true_iff in Ht. destruct Ht as (Hl & Htime).
      destruct (dict_get meta "logLevelName" (JStr "INFO"))
        as [| | | l | |] eqn:Hlv; try discriminate Hl.
      destruct (dict_get d "time" (JStr empty_str))
        as [| | | t | |] eqn:Htm; try discriminate Htime.
      destruct (parse_log_obj_typed d meta l t Hm Hlv Htm) as (ev & Hev).
      exists ev. unfold _parse_log_line, parse_log_body.
      rewrite Hload. simpl. rewrite Hev. reflexivity. }
  split; [exact Hiff |].
  destruct (@parse_log_line_total P line) as ([ev |] & Hr); rewrite Hr.
  - split; [discriminate |]. intros Hf.
    assert (Ht : log_line_typed (json_loads line) = true)
      by (apply Hiff; exists ev; exact Hr).
    congruence.
  - split; [| reflexivity]. intros _.
    apply Bool.not_true_is_false. intros Ht.
    apply Hiff in Ht. destruct Ht as (ev & Hev). congruence.
Qed.

Lemma upper_char_idem (c : ascii) : upper_char (upper_char c) = upper_char c.
Proof.
  destruct c as [[] [] [] [] [] [] [] []]; reflexivity.
Qed.

Lemma upper_idem (s : string) : upper (upper s) = upper s.
Proof.
  induction s as [| c s IH]; simpl; [reflexivity |].
  rewrite upper_char_idem, IH. reflexivity.
Qed.

Lemma replace_char_length (a b : ascii) (s : string) :
  String.length (replace_char a b s) = String.length s.
Proof.
  induction s as [| c s IH]; simpl; [reflexivity | rewrite IH; reflexivity].
Qed.

Lemma replace_char_gone (a b : ascii) (s x y : string) :
  a <> b -> replace_char a b s <> (x ++ String a y)%string.
Proof.
  intros Hab. revert x.
  induction s as [| c s IH]; intros x; simpl.
  - destruct x; discriminate.
  - destruct x as [| c' x]; simpl.
    + destruct (Ascii.eqb_spec c a); congruence.
    + intros Heq. injection Heq as _ Heq. exact (IH x Heq).
Qed.

(** X8.  An event that [_parse_log_line] returns has a time of at most 19
    characters with no [T] in it (the time of the line cut to the second,
    the [T] between date and time replaced by a space), and a level with no
    lowercase ASCII letter left. *)
Theorem X8_event_time_and_level
  (P : PyJson) (line : string) (ev : log_event) :
  _parse_log_line line = Ok (Some ev) ->
  String.length (ev_time ev) <= 19 /\
  contains "T" (ev_time ev) = false /\
  upper (ev_level ev) = ev_level ev /\
  exists d t,
    json_loads line = Ok (JObj d) /\
    dict_get d "time" (JStr empty_str) = JStr t /\
    ev_time ev = replace_char "T" " " (str_take 19 t) /\
    (String.length t >= 19 -> String.length (ev_time ev) = 19).
Proof.
  intros Hev.
  destruct (@parse_log_line_event P line ev Hev) as (obj & Hobj & Hp).
  destruct (@parse_log_obj_event P obj ev Hp) as (d & -> & _).
  destruct (parse_log_obj_fields d ev Hp)
    as (meta & l & t & sub & Hm & Hl & Ht & _ & _ & Hlevel & Htime).
  split; [| split; [| split]].
  - rewrite Htime, replace_char_length. apply str_take_length.
  - destruct (contains "T" (ev_time ev)) eqn:Hc; [| reflexivity].
    apply contains_first_char in Hc. destruct Hc as (x & y & Hxy).
    rewrite Htime in Hxy. exfalso.
    apply (replace_char_gone "T" " " (str_take 19 t) x y); [discriminate |].
    exact Hxy.
  - rewrite Hlevel. apply upper_idem.
  - exists d, t. repeat split; auto.
    intros Hlen. rewrite Htime, replace_char_length.
    clear - Hlen. revert Hlen. generalize 19. intros n. revert t.
    induction n as [| n IH]; intros t Hlen; [reflexivity |].
    destruct t as [| c t]; simpl in *; [lia |].
    rewrite IH; [reflexivity | lia].
Qed.

Lemma X8_event_time_and_level_witness :
  String.length (ev_time reload_event) <= 19 /\
  contains "T" (ev_time reload_event) = false /\
  upper (ev_level reload_event) = ev_level reload_event.
Proof.
  destruct (X8_event_time_and_level MiniJson.codec reload_line reload_event)
    as (Hlen & Hno & Hup & _).
  - vm_compute. reflexivity.
  - repeat split; assumption.
Defined.

(** X9.  The subsystem of an event.  When the [name] field holds (as JSON
    text, or directly) an object whose [subsystem] is a str, the subsystem
    of the event is that str with one leading [gateway/] removed.  When
    [name] is a str that is not JSON, the subsystem is that str as it is, the
    prefix included. *)
Theorem X9_subsystem_extraction
  (P : PyJson) (line : string) (ev : log_event) :
  _parse_log_line line = Ok (Some ev) ->
  exists d meta,
    json_loads line = Ok (JObj d) /\
    dict_get d "_meta" (JObj []) = JObj meta /\
    let name_raw := dict_get meta "name" (JStr "{}") in
    (forall s n sub,
        name_raw = JStr s -> json_loads s = Ok (JObj n) ->
        dict_get n "subsystem" (JStr "unknown") = JStr sub ->
        ev_subsystem ev = removeprefix "gateway/" sub) /\
    (forall n sub,
        name_raw = JObj n ->
        dict_get n "subsystem" (JStr "unknown") = JStr sub ->
        ev_subsystem ev = removeprefix "gateway/" sub) /\
    (forall s e,
        name_raw = JStr s -> json_loads s = Raise e ->
        ev_subsystem ev = s).
Proof.
  intros Hev.
  destruct (@parse_log_line_event P line ev Hev) as (obj & Hobj & Hp).
  destruct (@parse_log_obj_event P obj ev Hp) as (d & -> & _).
  destruct (parse_log_obj_fields d ev Hp)
    as (meta & l & t & sub & Hm & _ & _ & Hsub & Hes & _).
  exists d, meta. split; [exact Hobj |]. split; [exact Hm |].
  intros name_raw. fold name_raw in Hsub. rewrite Hes.
  unfold subsystem_of in Hsub.
  split; [| split].
  - intros s n sub' Hn Hload Hs. rewrite Hn, Hload in Hsub. simpl in Hsub.
    rewrite Hs in Hsub. simpl in Hsub. congruence.
  - intros n sub' Hn Hs. rewrite Hn in Hsub. simpl in Hsub.
    rewrite Hs in Hsub. simpl in Hsub. congruence.
  - intros s e Hn Hload. rewrite Hn, Hload in Hsub. simpl in Hsub. congruence.
Qed.

Lemma X9_subsystem_extraction_witness :
  ev_subsystem reload_event = removeprefix "gateway/" "gateway/reload".
Proof.
  destruct (X9_subsystem_extraction MiniJson.codec reload_line reload_event)
    as (d & meta & Hd & Hm & Hdec & _).
  - vm_compute. reflexivity.
  - vm_compute in Hd. injection Hd as <-.
    vm_compute in Hm. injection Hm as <-.
    eapply Hdec; vm_compute; reflexivity.
Defined.

(** ** The queue between the two threads: order and loss *)

Section QueueOrder.
Context {P : PyJson}.

Lemma tailer_put_in_flight (dl : DataLayer) (path : string) (ev : log_event) :
  in_flight (tailer_put dl path ev) = _log_queue dl ++ [ev].
Proof.
  unfold tailer_put, in_flight.
  destruct (queue_put LOG_QUEUE_MAXSIZE (_log_queue dl) ev) as [q' |] eqn:Hq;
    simpl.
  - unfold queue_put in Hq.
    destruct (Nat.ltb 0 LOG_QUEUE_MAXSIZE
              && Nat.leb LOG_QUEUE_MAXSIZE (length (_log_queue dl)));
      [discriminate Hq |].
    injection Hq as <-. apply app_nil_r.
  - reflexivity.
Qed.

Lemma tailer_step_in_flight (e : env) (dl : DataLayer) :
  in_flight (tailer_step e dl) = in_flight dl ++ accepted e dl.
Proof.
  unfold tailer_step, accepted.
  destruct (_tailer dl) as [| path | path ev |] eqn:Ht.
  - rewrite app_nil_r.
    destruct (stop_set e); [unfold in_flight; simpl; rewrite Ht; reflexivity |].
    destruct (negb (path_exists e (log_path (today e)))); [reflexivity |].
    destruct (open_ok e); [| reflexivity].
    unfold in_flight. simpl. rewrite Ht. reflexivity.
  - assert (Hq : in_flight dl = _log_queue dl)
      by (unfold in_flight; rewrite Ht; apply app_nil_r).
    destruct (stop_set e);
      [rewrite app_nil_r, Hq; unfold in_flight; simpl; apply app_nil_r |].
    destruct (next_read e) as [line | |].
    + destruct (_parse_log_line (strip line)) as [[parsed |] | err].
      * rewrite tailer_put_in_flight, Hq. reflexivity.
      * rewrite app_nil_r. reflexivity.
      * rewrite app_nil_r, Hq. unfold in_flight. simpl. apply app_nil_r.
    + rewrite app_nil_r. reflexivity.
    + rewrite app_nil_r, Hq. unfold in_flight. simpl. apply app_nil_r.
  - rewrite app_nil_r, tailer_put_in_flight.
    unfold in_flight. rewrite Ht. reflexivity.
  - rewrite app_nil_r. reflexivity.
Qed.

Lemma consumer_get_in_flight (dl : DataLayer) :
  match get_nowait (_log_queue dl) with
  | Ok (x, _) => [x]
  | Raise _ => []
  end ++ in_flight (act dl ConsumerGet) = in_flight dl.
Proof.
  unfold act, in_flight.
  destruct (_log_queue dl) as [| x q] eqn:Hq; simpl.
  - rewrite Hq. reflexivity.
  - reflexivity.
Qed.

End QueueOrder.

(** X10.  Nothing is lost, duplicated or reordered between the log file
    and the poller: after any run of tailer turns and [get_nowait] calls, the
    events delivered so far followed by the events in flight (the queue, then
    the event the tailer holds) are the events that were in flight at the
    start followed by the events the tailer took from the file, in order. *)
Theorem X10_queue_keeps_order (P : PyJson) (acts : list action) (dl : DataLayer) :
  run_delivered acts dl ++ in_flight (run acts dl)
  = in_flight dl ++ run_accepted acts dl.
Proof.
  revert dl. induction acts as [| a acts IH]; intros dl.
  - simpl. rewrite app_nil_r. reflexivity.
  - change (run (a :: acts) dl) with (run acts (act dl a)).
    cbn [run_delivered run_accepted].
    rewrite <- app_assoc, IH, !app_assoc. f_equal.
    destruct a as [e |].
    + cbn [act]. rewrite app_nil_l. apply tailer_step_in_flight.
    + rewrite app_nil_r. apply consumer_get_in_flight.
Qed.

(** X11.  The stop flag.  A tailer that is not inside [put] ends within two
    turns of seeing the flag, and leaves the queue as it is; once ended it
    does nothing more.  A tailer that waits inside [put] on a full queue does
    not look at the flag: it stays there until the queue has room. *)
Theorem X11_stop_flag (P : PyJson) (dl : DataLayer) (e1 e2 : env) :
  stop_set e1 = true -> stop_set e2 = true ->
  (_tailer dl = Finished -> tailer_step e1 dl = dl) /\
  (_tailer dl = AtOuter \/ (exists path, _tailer dl = Tailing path) ->
   _tailer (tailer_step e2 (tailer_step e1 dl)) = Finished /\
   _log_queue (tailer_step e2 (tailer_step e1 dl)) = _log_queue dl) /\
  (forall path ev,
      _tailer dl = InPut path ev ->
      LOG_QUEUE_MAXSIZE <= length (_log_queue dl) ->
      tailer_step e1 dl = dl).
Proof.
  intros H1 H2. split; [| split].
  - intros Ht. unfold tailer_step. rewrite Ht. reflexivity.
  - intros [Ht | (path & Ht)].
    + assert (Hs : tailer_step e1 dl
                   = with_tailer dl Finished (_log_queue dl))
        by (unfold tailer_step; rewrite Ht, H1; reflexivity).
      rewrite Hs. split; reflexivity.
    + assert (Hs : tailer_step e1 dl
                   = with_tailer dl AtOuter (_log_queue dl))
        by (unfold tailer_step; rewrite Ht, H1; reflexivity).
      rewrite Hs. unfold tailer_step. simpl. rewrite H2. split; reflexivity.
  - intros path ev Ht Hfull. unfold tailer_step. rewrite Ht.
    unfold tailer_put, queue_put.
    destruct (Nat.leb_spec LOG_QUEUE_MAXSIZE (length (_log_queue dl)));
      [| lia].
    simpl. destruct dl as [q t s p]. simpl in *. subst t. reflexivity.
Qed.

Lemma X11_stop_flag_witness :
  let stop := {| stop_set := true; today := "2026-02-13";
                 path_exists := fun _ => true; open_ok := true;
                 next_read := ReadNothing |} in
  _tailer (tailer_step (H := MiniJson.codec) stop
             (tailer_step (H := MiniJson.codec) stop dl_full)) = Finished.
Proof.
  intros stop.
  apply (proj1 (proj2 (X11_stop_flag MiniJson.codec dl_full stop stop
                         eq_refl eq_refl))).
  right. exists old_path. reflexivity.
Defined.

(** ** Dict updates *)

Lemma lookup_put_same (d : dict) (k : string) (v : json) :
  lookup k (dict_put d k v) = Some v.
Proof.
  induction d as [| [k' v'] d IH]; simpl.
  - rewrite String.eqb_refl. reflexivity.
  - destruct (String.eqb k k') eqn:Hk; simpl.
    + rewrite String.eqb_refl. reflexivity.
    + rewrite Hk. exact IH.
Qed.

Lemma lookup_put_other (d : dict) (k k' : string) (v : json) :
  k' <> k -> lookup k' (dict_put d k v) = lookup k' d.
Proof.
  intros Hne. induction d as [| [k0 v0] d IH]; simpl.
  - destruct (String.eqb_spec k' k); [congruence | reflexivity].
  - destruct (String.eqb_spec k k0) as [-> | Hk]; simpl.
    + destruct (String.eqb_spec k' k0); [congruence | reflexivity].
    + destruct (String.eqb k' k0); [reflexivity | exact IH].
Qed.

Lemma dict_put_keys (d : dict) (k : string) (v x : json) :
  lookup k d = Some x -> map fst (dict_put d k v) = map fst d.
Proof.
  induction d as [| [k0 v0] d IH]; simpl; [discriminate |].
  destruct (String.eqb_spec k k0) as [-> | Hk]; simpl.
  - reflexivity.
  - intros Hl. rewrite (IH Hl). reflexivity.
Qed.


Lemma lookup_pop_same (d : dict) (k : string) : lookup k (dict_pop d k) = None.
Proof.
  unfold dict_pop. induction d as [| [k0 v0] d IH]; simpl; [reflexivity |].
  destruct (String.eqb k k0) eqn:Hk; simpl; [exact IH |].
  rewrite Hk. exact IH.
Qed.

Lemma lookup_pop_other (d : dict) (k k' : string) :
  k' <> k -> lookup k' (dict_pop d k) = lookup k' d.
Proof.
  intros Hne. unfold dict_pop.
  induction d as [| [k0 v0] d IH]; simpl; [reflexivity |].
  destruct (String.eqb_spec k k0) as [-> | Hk]; simpl.
  - destruct (String.eqb_spec k' k0); [congruence | exact IH].
  - destruct (String.eqb k' k0); [reflexivity | exact IH].
Qed.

Lemma dict_pop_absent (d : dict) (k : string) :
  lookup k d = None -> dict_pop d k = d.
Proof.
  unfold dict_pop. induction d as [| [k0 v0] d IH]; simpl; [reflexivity |].
  destruct (String.eqb k k0) eqn:Hk; [discriminate |].
  intros Hl. simpl. rewrite (IH Hl). reflexivity.
Qed.

Lemma lookup_app (d d' : dict) (k : string) :
  lookup k (d ++ d') =
  match lookup k d with Some v => Some v | None => lookup k d' end.
Proof.
  induction d as [| [k0 v0] d IH]; simpl; [reflexivity |].
  destruct (String.eqb k k0); [reflexivity | exact IH].
Qed.

(** ** [_clear_cooldown_in_file] *)

(** X12.  Clearing the cooldown of a profile that has a usage entry:
    the entry loses [cooldownUntil] and gets [errorCount] 0, its other
    fields stay; the usage entries of the other profiles stay; everything
    outside [usageStats] stays; no key is added or moved. *)
Theorem X12_clear_cooldown_effect
  (profile_id : string) (d u st : dict) :
  lookup "usageStats" d = Some (JObj u) ->
  lookup profile_id u = Some (JObj st) ->
  exists d' u' st',
    clear_cooldown profile_id (JObj d) = Ok (JObj d') /\
    lookup "usageStats" d' = Some (JObj u') /\
    lookup profile_id u' = Some (JObj st') /\
    lookup "cooldownUntil" st' = None /\
    lookup "errorCount" st' = Some (JNum 0%Q) /\
    (forall k, k <> "cooldownUntil" -> k <> "errorCount" ->
               lookup k st' = lookup k st) /\
    (forall q, q <> profile_id -> lookup q u' = lookup q u) /\
    (forall k, k <> "usageStats" -> lookup k d' = lookup k d) /\
    map fst d' = map fst d /\
    map fst u' = map fst u.
Proof.
  intros Hd Hu.
  set (st' := dict_put (dict_pop st "cooldownUntil") "errorCount" (JNum 0%Q)).
  set (u' := dict_put u profile_id (JObj st')).
  exists (dict_put d "usageStats" (JObj u')), u', st'.
  split.
  { unfold clear_cooldown. simpl. rewrite Hd. simpl. rewrite Hu. simpl.
    reflexivity. }
  split; [apply lookup_put_same |].
  split; [apply lookup_put_same |].
  split.
  { unfold st'. rewrite lookup_put_other by discriminate.
    apply lookup_pop_same. }
  split; [apply lookup_put_same |].
  split.
  { intros k Hk1 Hk2. unfold st'.
    rewrite lookup_put_other by exact Hk2.
    apply lookup_pop_other. exact Hk1. }
  split; [intros q Hq; apply lookup_put_other; exact Hq |].
  split; [intros k Hk; apply lookup_put_other; exact Hk |].
  split; [exact (dict_put_keys d "usageStats" (JObj u') (JObj u) Hd) |].
  exact (dict_put_keys u profile_id (JObj st') (JObj st) Hu).
Qed.

Lemma X12_clear_cooldown_effect_witness :
  exists data',
    clear_cooldown "google-gemini-cli:bob" SAMPLE_AUTH = Ok data' /\
    read_profiles_of data' w_offline
    = (Ok [{| ap_profile_id := "groq:manual";
              ap_provider := JStr "groq";
              ap_auth_type := JStr "apiKey";
              ap_email := JNull;
              ap_api_key := Some "gsk_abc...";
              ap_expires_ms := JNull;
              ap_in_cooldown := false;
              ap_cooldown_remaining_ms := 0%Q;
              ap_error_count := JNum 0%Q;
              ap_last_used_ms := JNull |};
           {| ap_profile_id := "google-gemini-cli:bob";
              ap_provider := JStr "google-gemini-cli";
              ap_auth_type := JStr "oauth";
              ap_email := JStr "bob@example.com";
              ap_api_key := None;
              ap_expires_ms := JNum (9999999999000 # 1);
              ap_in_cooldown := false;
              ap_cooldown_remaining_ms := 0%Q;
              ap_error_count := JNum 0%Q;
              ap_last_used_ms := JNum (1770900000000 # 1) |}],
       snd (now_ms w_offline)).
Proof.
  destruct (X12_clear_cooldown_effect "google-gemini-cli:bob"
              (match SAMPLE_AUTH with JObj d => d | _ => [] end) _ _
              eq_refl eq_refl)
    as (d' & u' & st' & Hclear & _).
  exists (JObj d'). split; [exact Hclear |].
  vm_compute in Hclear. injection Hclear as <-. reflexivity.
Defined.

Lemma mapM_map {A B : Type} (f : A -> result B) (g : B -> B)
      (l : list A) (ys : list B) :
  Forall2 (fun x y => f x = Ok (g y)) l ys -> mapM f l = Ok (map g ys).
Proof.
  induction 1 as [| x y l ys Hxy _ IH]; simpl; [reflexivity |].
  rewrite Hxy, IH. reflexivity.
Qed.

Lemma profile_entry_usage_irrelevant (u u' : dict) (now : Q) (q : string)
      (pdata : json) :
  lookup q u' = lookup q u ->
  profile_entry (JObj u') now q pdata = profile_entry (JObj u) now q pdata.
Proof.
  intros Hl.
  assert (Hg : dict_get u' q (JObj []) = dict_get u q (JObj []))
    by (unfold dict_get; rewrite Hl; reflexivity).
  unfold profile_entry. simpl. rewrite Hg. reflexivity.
Qed.

Lemma profile_entry_cleared (u u' st' : dict) (now : Q) (pid : string)
      (pdata : json) (p : auth_profile) :
  profile_entry (JObj u) now pid pdata = Ok p ->
  lookup pid u' = Some (JObj st') ->
  lookup "cooldownUntil" st' = None ->
  lookup "errorCount" st' = Some (JNum 0%Q) ->
  (forall st, lookup pid u = Some (JObj st) ->
              lookup "lastUsed" st' = lookup "lastUsed" st) ->
  (exists st, lookup pid u = Some (JObj st)) ->
  (0 <= now)%Q ->
  profile_entry (JObj u') now pid pdata = Ok (cleared pid p).
Proof.
  intros Hp Hu' Hcu' Herr' Hlast' (st & Hu) Hnow.
  assert (Hg : dict_get u pid (JObj []) = JObj st)
    by (unfold dict_get; rewrite Hu; reflexivity).
  assert (Hg' : dict_get u' pid (JObj []) = JObj st')
    by (unfold dict_get; rewrite Hu'; reflexivity).
  assert (Hc' : dict_get st' "cooldownUntil" (JNum 0%Q) = JNum 0%Q)
    by (unfold dict_get; rewrite Hcu'; reflexivity).
  unfold profile_entry in Hp. simpl in Hp. rewrite Hg in Hp. simpl in Hp.
  apply bind_Ok_inv in Hp. destruct Hp as (cu & Hnum & Hp).
  apply bind_Ok_inv in Hp. destruct Hp as (provider & Hprov & Hp).
  apply bind_Ok_inv in Hp. destruct Hp as (auth_type & Hty & Hp).
  apply bind_Ok_inv in Hp. destruct Hp as (email & Hem & Hp).
  apply bind_Ok_inv in Hp. destruct Hp as (key & Hkey & Hp).
  apply bind_Ok_inv in Hp. destruct Hp as (api_key & Hapi & Hp).
  apply bind_Ok_inv in Hp. destruct Hp as (expires & Hex & Hp).
  injection Hp as <-.
  unfold profile_entry. simpl. rewrite Hg'. simpl. rewrite Hc'. simpl.
  rewrite Hprov. simpl. rewrite Hty. simpl. rewrite Hem. simpl.
  rewrite Hkey. simpl. rewrite Hapi. simpl. rewrite Hex. simpl.
  unfold cleared. simpl. rewrite String.eqb_refl.
  assert (Hle : Qgtb 0 now = false) by (apply Qgtb_false; exact Hnow).
  rewrite Hle. unfold dict_get. rewrite Herr', (Hlast' st Hu). reflexivity.
Qed.

(** X13.  Clearing and reading again.  When the store holds a usage entry
    for the profile and a read of it returns [ps], then after
    [clear_cooldown] a read at the same time (at or after the epoch) returns
    the same profiles in the same order, the cleared one no longer in
    cooldown, with nothing remaining and an error count of 0, and all others
    exactly as before. *)
Theorem X13_clear_then_read
  (P : PyJson) (profile_id : string) (d u st : dict) (w : world)
  (ps : list auth_profile) :
  lookup "usageStats" d = Some (JObj u) ->
  lookup profile_id u = Some (JObj st) ->
  fst (read_auth_profiles (JObj d) w) = Ok ps ->
  (0 <= w_clock w (w_ticks w))%Q ->
  exists data',
    clear_cooldown profile_id (JObj d) = Ok data' /\
    fst (read_auth_profiles data' w) = Ok (map (cleared profile_id) ps).
Proof.
  intros Hd Hu Hps Hnow.
  destruct (X12_clear_cooldown_effect profile_id d u st Hd Hu)
    as (d' & u' & st' & Hclear & Hd' & Hu' & Hcu' & Herr' & Hst' & Hother
        & Hkeep & _).
  exists (JObj d'). split; [exact Hclear |].
  destruct (@read_auth_profiles_entries P (JObj d) w d ps eq_refl Hps)
    as (items & Hitems & Hall).
  assert (Husage : dict_get d "usageStats" (JObj []) = JObj u)
    by (unfold dict_get; rewrite Hd; reflexivity).
  rewrite Husage in Hall.
  change (read_auth_profiles (JObj d') w) with (read_profiles_of (JObj d') w).
  rewrite read_profiles_of_dict. cbn [fst].
  unfold dict_get. rewrite (Hkeep "profiles") by discriminate.
  fold (dict_get d "profiles" (JObj [])). rewrite Hitems, Hd'. simpl.
  unfold profile_loop. apply mapM_map.
  eapply Forall2_impl; [| exact Hall].
  intros [q pdata] p Hentry. simpl in *.
  pose proof (proj1 (@profile_entry_spec _ _ _ _ _ Hentry)) as Hid.
  destruct (String.eqb_spec q profile_id) as [-> | Hq].
  - apply (profile_entry_cleared u u' st' _ _ _ _ Hentry Hu' Hcu' Herr').
    + intros st0 Hst0. rewrite Hu in Hst0. injection Hst0 as <-.
      apply Hst'; discriminate.
    + exists st. exact Hu.
    + exact Hnow.
  - rewrite (profile_entry_usage_irrelevant u u' _ q pdata (Hother q Hq)).
    rewrite Hentry. unfold cleared. rewrite Hid.
    destruct (String.eqb_spec q profile_id); [congruence | reflexivity].
Qed.

Lemma X13_clear_then_read_witness :
  exists data' ps,
    clear_cooldown "google-gemini-cli:bob" SAMPLE_AUTH = Ok data' /\
    fst (read_auth_profiles (H := MiniJson.codec) SAMPLE_AUTH w_offline) = Ok ps /\
    existsb ap_in_cooldown ps = true /\
    fst (read_auth_profiles (H := MiniJson.codec) data' w_offline)
    = Ok (map (cleared "google-gemini-cli:bob") ps) /\
    existsb ap_in_cooldown (map (cleared "google-gemini-cli:bob") ps) = false.
Proof.
  destruct (fst (read_auth_profiles (H := MiniJson.codec) SAMPLE_AUTH w_offline))
    as [ps | e] eqn:Hps; [| discriminate Hps].
  destruct (X13_clear_then_read MiniJson.codec "google-gemini-cli:bob"
              (match SAMPLE_AUTH with JObj d => d | _ => [] end) _ _
              w_offline ps eq_refl eq_refl Hps)
    as (data' & Hclear & Hread).
  - vm_compute. discriminate.
  - exists data', ps. split; [exact Hclear |]. split; [reflexivity |].
    vm_compute in Hps. injection Hps as <-.
    split; [reflexivity |]. split; [exact Hread | reflexivity].
Defined.






(** ** [_load_providers] *)

Lemma count_oauth_spec (pid : string) (ps : list json) (n : nat) :
  count_oauth pid ps = Ok n -> n = length (filter (is_oauth_of pid) ps).
Proof.
  revert n. induction ps as [| p ps IH]; simpl; intros n Hc.
  - injection Hc as <-. reflexivity.
  - apply bind_Ok_inv in Hc. destruct Hc as (prov & Hprov & Hc).
    apply bind_Ok_inv in Hc. destruct Hc as (hit & Hhit & Hc).
    apply bind_Ok_inv in Hc. destruct Hc as (m & Hm & Hc).
    injection Hc as <-. rewrite (IH m Hm).
    destruct p as [| | | | | pd]; try discriminate Hprov.
    simpl in Hprov. injection Hprov as <-. simpl.
    destruct (is_str pid (dict_get pd "provider" JNull)); simpl.
    + simpl in Hhit. injection Hhit as <-.
      destruct (is_str "oauth" (dict_get pd "type" JNull)); reflexivity.
    + injection Hhit as <-. reflexivity.
Qed.

Lemma provider_entry_spec (auth_profiles : json) (pid : string)
      (pdata : json) (p : provider) :
  provider_entry auth_profiles pid pdata = Ok p ->
  exists pd tag,
    pdata = JObj pd /\
    pv_id p = pid /\
    pv_base_url p = dict_get pd "baseUrl" (JStr empty_str) /\
    pv_api_key p = dict_get pd "apiKey" (JStr empty_str) /\
    pv_models p = dict_get pd "models" (JArr []) /\
    pv_auth_tag p = tag /\
    auth_tag_of (length (filter (is_oauth_of pid)
                                (profiles_of_store auth_profiles)))
                (dict_get pd "apiKey" (JStr empty_str)) pdata = Ok tag.
Proof.
  unfold provider_entry. intros Hp.
  apply bind_Ok_inv in Hp. destruct Hp as (profs & Hprofs & Hp).
  apply bind_Ok_inv in Hp. destruct Hp as (vals & Hvals & Hp).
  apply bind_Ok_inv in Hp. destruct Hp as (n & Hn & Hp).
  apply bind_Ok_inv in Hp. destruct Hp as (api_key & Hkey & Hp).
  apply bind_Ok_inv in Hp. destruct Hp as (tag & Htag & Hp).
  apply bind_Ok_inv in Hp. destruct Hp as (base_url & Hurl & Hp).
  apply bind_Ok_inv in Hp. destruct Hp as (models & Hmodels & Hp).
  injection Hp as <-. simpl.
  destruct pdata as [| | | | | pd]; try discriminate Hkey.
  simpl in Hkey, Hurl, Hmodels.
  injection Hkey as <-. injection Hurl as <-. injection Hmodels as <-.
  exists pd, tag. repeat (split; [reflexivity |]).
  apply count_oauth_spec in Hn. subst n.
  destruct auth_profiles as [| | | | | a]; try discriminate Hprofs.
  simpl in Hprofs. injection Hprofs as <-.
  destruct (dict_get a "profiles" (JObj [])) as [| | | | | pr] eqn:Hpr;
    try discriminate Hvals.
  simpl in Hvals. injection Hvals as <-.
  unfold profiles_of_store. rewrite Hpr. exact Htag.
Qed.

(** X15.  [_load_providers] never raises, and it is all or nothing: the
    list is empty when either file cannot be read or decoded (the
    credential store too, although the providers are in the configuration);
    otherwise, when it is not empty, it has one entry per provider of
    [models.providers], in the order of the mapping, with the keys as ids and
    the entry's [baseUrl], [apiKey] and [models], or their defaults. *)
Theorem X15_load_providers_all_or_nothing
  (P : PyJson) (fs : files) :
  (exists ps, _load_providers fs = Ok ps) /\
  ((exists e, f_config fs = Raise e) \/ (exists e, f_auth fs = Raise e) \/
   (exists text e, f_config fs = Ok text /\ json_loads text = Raise e) \/
   (exists text e, f_auth fs = Ok text /\ json_loads text = Raise e) ->
   _load_providers fs = Ok []) /\
  (forall ps, _load_providers fs = Ok ps -> ps <> [] ->
     exists text d,
       f_config fs = Ok text /\ json_loads text = Ok (JObj d) /\
       map pv_id ps = map fst (providers_table d) /\
       forall k pid pd p,
         nth_error (providers_table d) k = Some (pid, JObj pd) ->
         nth_error ps k = Some p ->
         pv_base_url p = dict_get pd "baseUrl" (JStr empty_str) /\
         pv_api_key p = dict_get pd "apiKey" (JStr empty_str) /\
         pv_models p = dict_get pd "models" (JArr [])).
Proof.
  split; [apply try_except_total |]. split.
  - unfold _load_providers.
    intros [(e & ->) | [(e & Ha) | [(text & e & -> & Hl) | (text & e & Ha & Hl)]]];
      simpl.
    + reflexivity.
    + destruct (f_config fs) as [ctext | e0]; simpl; [| reflexivity].
      destruct (json_loads ctext) as [cfg | e0]; simpl; [| reflexivity].
      destruct (py_get cfg "models" (JObj [])) as [m | e0]; simpl;
        [| reflexivity].
      destruct (py_get m "providers" (JObj [])) as [pc | e0]; simpl;
        [| reflexivity].
      rewrite Ha. reflexivity.
    + rewrite Hl. reflexivity.
    + destruct (f_config fs) as [ctext | e0]; simpl; [| reflexivity].
      destruct (json_loads ctext) as [cfg | e0]; simpl; [| reflexivity].
      destruct (py_get cfg "models" (JObj [])) as [m | e0]; simpl;
        [| reflexivity].
      destruct (py_get m "providers" (JObj [])) as [pc | e0]; simpl;
        [| reflexivity].
      rewrite Ha. simpl. rewrite Hl. reflexivity.
  - unfold _load_providers. intros ps Hps Hne.
    destruct (f_config fs) as [text | e0]; simpl in Hps;
      [| injection Hps as <-; congruence].
    destruct (json_loads text) as [cfg | e0] eqn:Hcfg; simpl in Hps;
      [| injection Hps as <-; congruence].
    destruct (py_get cfg "models" (JObj [])) as [m | e0] eqn:Hm;
      simpl in Hps; [| injection Hps as <-; congruence].
    destruct (py_get m "providers" (JObj [])) as [pc | e0] eqn:Hpc;
      simpl in Hps; [| injection Hps as <-; congruence].
    destruct (f_auth fs) as [atext | e0]; simpl in Hps;
      [| injection Hps as <-; congruence].
    destruct (json_loads atext) as [auth | e0]; simpl in Hps;
      [| injection Hps as <-; congruence].
    destruct (providers_of pc auth) as [ps' | e0] eqn:Hof; simpl in Hps;
      [| injection Hps as <-; congruence].
    injection Hps as <-.
    destruct cfg as [| | | | | d]; try discriminate Hm.
    simpl in Hm. injection Hm as <-.
    destruct (dict_get d "models" (JObj [])) as [| | | | | md] eqn:Hmd;
      try discriminate Hpc.
    simpl in Hpc. injection Hpc as <-.
    unfold providers_of in Hof.
    apply bind_Ok_inv in Hof. destruct Hof as (items & Hitems & Hof).
    destruct (dict_get md "providers" (JObj [])) as [| | | | | pt] eqn:Hpt;
      try discriminate Hitems.
    injection Hitems as <-.
    exists text, d. split; [reflexivity |]. split; [exact Hcfg |].
    assert (Htab : providers_table d = pt)
      by (unfold providers_table; rewrite Hmd, Hpt; reflexivity).
    rewrite Htab.
    pose proof (@mapM_Ok_Forall2 _ _ _ _ _ Hof) as Hall.
    split.
    + apply Forall2_map_eq. eapply Forall2_impl; [| exact Hall].
      intros kv p Hentry. simpl in Hentry.
      destruct (provider_entry_spec _ _ _ _ Hentry) as (pd & tag & _ & Hid & _).
      exact Hid.
    + intros k pid pd p Hk Hp.
      destruct (@Forall2_nth_error_l _ _ _ _ _ Hall _ _ Hk) as (p' & Hp' & Hentry).
      rewrite Hp in Hp'. injection Hp' as <-. simpl in Hentry.
      destruct (provider_entry_spec _ _ _ _ Hentry)
        as (pd' & tag & Hpd & _ & Hurl & Hkey & Hmod & _).
      injection Hpd as <-. auto.
Qed.

Lemma X15_load_providers_all_or_nothing_witness :
  exists ps,
    _load_providers (H := MiniJson.codec) config_files = Ok ps /\
    map pv_id ps = ["groq"; "ollama"; "google-gemini-cli"].
Proof.
  destruct (X15_load_providers_all_or_nothing MiniJson.codec config_files)
    as ((ps & Hps) & _ & Hord).
  exists ps. split; [exact Hps |].
  assert (Hne : ps <> []).
  { intros ->. vm_compute in Hps. discriminate Hps. }
  destruct (Hord ps Hps Hne) as (text & d & Ht & Hd & Hids & _).
  vm_compute in Ht. injection Ht as <-.
  vm_compute in Hd. injection Hd as <-.
  exact Hids.
Defined.

(** X16.  The tag of every listed provider is decided in this order: the
    number [n] of OAuth profiles of that provider in the credential store,
    when it is not zero ([OAUTH n]); else a key that is not empty and not the
    placeholder [from-auth-profiles] ([API KEY]); else the base URL, which
    then is a string: loopback ([LOCAL  ]) or anything else ([CUSTOM ]). *)
Theorem X16_auth_tag_precedence
  (providers_cfg auth_profiles : json) (ps : list provider) (p : provider) :
  providers_of providers_cfg auth_profiles = Ok ps ->
  In p ps ->
  let n := length (filter (is_oauth_of (pv_id p))
                          (profiles_of_store auth_profiles)) in
  (n <> 0 -> pv_auth_tag p = ("OAUTH " ++ str_of_nat n)%string) /\
  (n = 0 -> truthy (pv_api_key p) = true ->
   is_str PLACEHOLDER_KEY (pv_api_key p) = false ->
   pv_auth_tag p = "API KEY") /\
  (n = 0 ->
   truthy (pv_api_key p) = false \/
   is_str PLACEHOLDER_KEY (pv_api_key p) = true ->
   exists url,
     pv_base_url p = JStr url /\
     pv_auth_tag p =
       if startswith "http://127" url || startswith "http://localhost" url
       then "LOCAL  " else "CUSTOM ").
Proof.
  unfold providers_of. intros Hof Hin.
  apply bind_Ok_inv in Hof. destruct Hof as (items & _ & Hof).
  pose proof (@mapM_Ok_Forall2 _ _ _ _ _ Hof) as Hall.
  destruct (In_nth_error _ _ Hin) as (k & Hk).
  destruct (@Forall2_nth_error_r _ _ _ _ _ Hall _ _ Hk)
    as ([pid pdata] & _ & Hentry).
  simpl in Hentry.
  destruct (provider_entry_spec _ _ _ _ Hentry)
    as (pd & tag & -> & Hid & Hurl & Hkey & _ & Htag & Hof_tag).
  rewrite Hid, Htag, Hkey, Hurl. clear Hid Htag Hkey Hurl. cbv zeta.
  unfold auth_tag_of in Hof_tag.
  set (n := length (filter (is_oauth_of pid)
                           (profiles_of_store auth_profiles))) in *.
  destruct (Nat.eqb_spec n 0) as [Hn | Hn]; simpl in Hof_tag.
  - split; [intros; contradiction |].
    destruct (truthy (dict_get pd "apiKey" (JStr empty_str))
              && negb (is_str PLACEHOLDER_KEY
                              (dict_get pd "apiKey" (JStr empty_str))))
      eqn:Hk0.
    + injection Hof_tag as <-.
      split; [reflexivity |].
      intros _ [Ht | Hp].
      * rewrite Ht in Hk0. discriminate Hk0.
      * rewrite Hp in Hk0. rewrite Bool.andb_false_r in Hk0. discriminate Hk0.
    + split.
      { intros _ Ht Hp. rewrite Ht, Hp in Hk0. discriminate Hk0. }
      intros _ _.
      destruct (dict_get pd "baseUrl" (JStr empty_str)) as [| | | url | |];
        try discriminate Hof_tag.
      exists url. split; [reflexivity |].
      simpl in Hof_tag.
      destruct (startswith "http://127" url); simpl in *.
      * injection Hof_tag as <-. reflexivity.
      * destruct (startswith "http://localhost" url);
          injection Hof_tag as <-; reflexivity.
  - injection Hof_tag as <-.
    split; [reflexivity |]. split; intros; contradiction.
Qed.

Lemma X16_auth_tag_precedence_witness :
  exists ps,
    _load_providers (H := MiniJson.codec) config_files = Ok ps /\
    map pv_auth_tag ps = ["API KEY"; "LOCAL  "; "OAUTH 1"].
Proof.
  eexists. split; [vm_compute; reflexivity |].
  pose proof (fun p => X16_auth_tag_precedence
                (JObj (providers_table
                         match config_doc with JObj d => d | _ => [] end))
                store_doc _ p eq_refl) as Htag.
  cbn [map].
  refine (f_equal2 cons _ (f_equal2 cons _ (f_equal2 cons _ eq_refl))).
  - destruct (Htag _ (or_introl eq_refl)) as (_ & Hk & _).
    apply Hk; reflexivity.
  - destruct (Htag _ (or_intror (or_introl eq_refl))) as (_ & _ & Hu).
    destruct (Hu eq_refl (or_introl eq_refl)) as (url & Hurl & Ht).
    cbn in Hurl. injection Hurl as <-. exact Ht.
  - destruct (Htag _ (or_intror (or_intror (or_introl eq_refl)))) as (Ho & _).
    apply Ho. vm_compute. discriminate.
Defined.

(** ** [_write_new_provider] and [_remove_current] *)

Lemma setdefault_inv (o : json) (k : string) (dflt v : json) (d1 : dict) :
  py_setdefault o k dflt = Ok (v, d1) ->
  exists d,
    o = JObj d /\ v = dict_get d k dflt /\
    (forall k', k' <> k -> lookup k' d1 = lookup k' d).
Proof.
  destruct o as [| | | | | d]; try discriminate.
  unfold py_setdefault, dict_get.
  destruct (lookup k d) as [x |] eqn:Hk; intros Hs; injection Hs as <- <-.
  - exists d. rewrite Hk. split; [reflexivity |]. split; [reflexivity |].
    intros k' Hne. reflexivity.
  - exists d. rewrite Hk. split; [reflexivity |]. split; [reflexivity |].
    intros k' Hne. rewrite lookup_app. simpl.
    destruct (lookup k' d); [reflexivity |].
    destruct (String.eqb_spec k' k); [congruence | reflexivity].
Qed.

Lemma dict_get_put_same (d : dict) (k : string) (v dflt : json) :
  dict_get (dict_put d k v) k dflt = v.
Proof.
  unfold dict_get. rewrite lookup_put_same. reflexivity.
Qed.

Lemma dict_get_lookup (d d' : dict) (k : string) (dflt : json) :
  lookup k d' = lookup k d -> dict_get d' k dflt = dict_get d k dflt.
Proof.
  unfold dict_get. intros ->. reflexivity.
Qed.

Lemma providers_table_lookup (d d' : dict) :
  lookup "models" d' = lookup "models" d ->
  providers_table d' = providers_table d.
Proof.
  intros Hl. unfold providers_table.
  rewrite (dict_get_lookup _ _ _ _ Hl). reflexivity.
Qed.

Lemma fallbacks_of_lookup (d d' : dict) :
  lookup "agents" d' = lookup "agents" d -> fallbacks_of d' = fallbacks_of d.
Proof.
  intros Hl. unfold fallbacks_of.
  rewrite (dict_get_lookup _ _ _ _ Hl). reflexivity.
Qed.

Lemma put_provider_spec (name base_url api_key : string) (d d' : dict) :
  put_provider name base_url api_key (JObj d) = Ok d' ->
  providers_table d' =
    dict_put (providers_table d) name (new_provider base_url api_key) /\
  (forall k, k <> "models" -> lookup k d' = lookup k d).
Proof.
  unfold put_provider. intros Hp.
  apply bind_Ok_inv in Hp. destruct Hp as ([models d1] & Hsm & Hp).
  apply bind_Ok_inv in Hp. destruct Hp as ([providers m1] & Hsp & Hp).
  apply bind_Ok_inv in Hp. destruct Hp as (providers' & Hset & Hp).
  injection Hp as <-.
  destruct (setdefault_inv _ _ _ _ _ Hsm) as (d0 & Hd0 & Hmodels & Hrest).
  injection Hd0 as <-.
  destruct (setdefault_inv _ _ _ _ _ Hsp) as (m & -> & Hprov & _).
  destruct providers as [| | | | | pt]; try discriminate Hset.
  simpl in Hset. injection Hset as <-.
  split.
  - unfold providers_table. rewrite dict_get_put_same, dict_get_put_same.
    rewrite <- Hmodels, <- Hprov. reflexivity.
  - intros k Hk. rewrite lookup_put_other by exact Hk. apply Hrest, Hk.
Qed.

Lemma append_fallback_spec (name : string) (d d' : dict) :
  append_fallback name d = Ok d' ->
  fallbacks_of d' = fallbacks_of d ++ [JStr (name ++ "/default")] /\
  (forall k, k <> "agents" -> lookup k d' = lookup k d).
Proof.
  unfold append_fallback. intros Hp.
  apply bind_Ok_inv in Hp. destruct Hp as ([agents d1] & Hsa & Hp).
  apply bind_Ok_inv in Hp. destruct Hp as ([defaults a1] & Hsd & Hp).
  apply bind_Ok_inv in Hp. destruct Hp as ([model df1] & Hsm & Hp).
  apply bind_Ok_inv in Hp. destruct Hp as ([fallbacks mo1] & Hsf & Hp).
  apply bind_Ok_inv in Hp. destruct Hp as (fallbacks' & Happ & Hp).
  injection Hp as <-.
  destruct (setdefault_inv _ _ _ _ _ Hsa) as (d0 & Hd0 & Hagents & Hrest).
  injection Hd0 as <-.
  destruct (setdefault_inv _ _ _ _ _ Hsd) as (a & -> & Hdefaults & _).
  destruct (setdefault_inv _ _ _ _ _ Hsm) as (df & -> & Hmodel & _).
  destruct (setdefault_inv _ _ _ _ _ Hsf) as (mo & -> & Hfb & _).
  destruct fallbacks as [| | | | l |]; try discriminate Happ.
  simpl in Happ. injection Happ as <-.
  split.
  - unfold fallbacks_of. rewrite !dict_get_put_same.
    rewrite <- Hagents, <- Hdefaults, <- Hmodel, <- Hfb. reflexivity.
  - intros k Hk. rewrite lookup_put_other by exact Hk. apply Hrest, Hk.
Qed.

(** X17.  What [_write_new_provider] does to the configuration before it
    writes it: the new entry is put under its name in [models.providers]
    (in place when the name is there already, at the end otherwise), every
    other provider is as it was; [agents...fallbacks] gets [name/default]
    appended when the provider is added to the rotation, also when that
    string is there already, and is as it was otherwise; every other
    top-level key keeps its value. *)
Theorem X17_add_provider_effect
  (name base_url api_key : string) (add_to_rotation : bool)
  (d : dict) (cfg' : json) :
  add_provider name base_url api_key add_to_rotation (JObj d) = Ok cfg' ->
  exists d',
    cfg' = JObj d' /\
    providers_table d' =
      dict_put (providers_table d) name (new_provider base_url api_key) /\
    lookup name (providers_table d') = Some (new_provider base_url api_key) /\
    (forall q, q <> name ->
       lookup q (providers_table d') = lookup q (providers_table d)) /\
    fallbacks_of d' =
      fallbacks_of d ++
      (if add_to_rotation then [JStr (name ++ "/default")] else []) /\
    (forall k, k <> "models" -> k <> "agents" -> lookup k d' = lookup k d).
Proof.
  unfold add_provider. intros Ha.
  apply bind_Ok_inv in Ha. destruct Ha as (d1 & Hput & Ha).
  destruct (put_provider_spec _ _ _ _ _ Hput) as (Htab & Hrest).
  assert (Hag : lookup "agents" d1 = lookup "agents" d)
    by (apply Hrest; discriminate).
  destruct add_to_rotation.
  - apply bind_Ok_inv in Ha. destruct Ha as (d2 & Happ & Ha).
    injection Ha as <-.
    destruct (append_fallback_spec _ _ _ Happ) as (Hfb & Hrest2).
    assert (Hmo : lookup "models" d2 = lookup "models" d1)
      by (apply Hrest2; discriminate).
    assert (Htab2 : providers_table d2 =
                    dict_put (providers_table d) name
                             (new_provider base_url api_key))
      by (rewrite (providers_table_lookup _ _ Hmo); exact Htab).
    exists d2. split; [reflexivity |]. split; [exact Htab2 |].
    rewrite Htab2.
    split; [apply lookup_put_same |].
    split; [intros q Hq; apply lookup_put_other; exact Hq |].
    split.
    + rewrite Hfb, (fallbacks_of_lookup _ _ Hag). reflexivity.
    + intros k Hk1 Hk2. rewrite (Hrest2 k Hk2). apply Hrest, Hk1.
  - injection Ha as <-.
    exists d1. split; [reflexivity |]. split; [exact Htab |].
    rewrite Htab.
    split; [apply lookup_put_same |].
    split; [intros q Hq; apply lookup_put_other; exact Hq |].
    split.
    + rewrite (fallbacks_of_lookup _ _ Hag), app_nil_r. reflexivity.
    + intros k Hk1 _. apply Hrest, Hk1.
Qed.

Lemma X17_add_provider_effect_witness :
  exists d',
    add_provider "lmstudio" "http://localhost:1234/v1" EmptyString true
                 config_doc = Ok (JObj d') /\
    map fst (providers_table d') =
      ["groq"; "ollama"; "google-gemini-cli"; "lmstudio"] /\
    fallbacks_of d' = [JStr "ollama/qwen3"; JStr "lmstudio/default"].
Proof.
  destruct (add_provider "lmstudio" "http://localhost:1234/v1" EmptyString true
                         config_doc) as [cfg' | e] eqn:Ha;
    [| vm_compute in Ha; discriminate Ha].
  destruct (X17_add_provider_effect _ _ _ _ _ _ Ha)
    as (d' & -> & Htab & _ & _ & Hfb & _).
  exists d'. split; [reflexivity |].
  rewrite Htab, Hfb. split; reflexivity.
Defined.

Lemma rewrite_config_written
      (P : PyJson) (I : PyJsonIndent) (change : json -> result json)
      (fs : files) (text : string) (cfg cfg' : json) :
  f_config fs = Ok text ->
  json_loads text = Ok cfg ->
  change cfg = Ok cfg' ->
  f_config_write_fails fs = false ->
  rewrite_config change fs =
  Ok (with_config fs (Ok (json_dumps_indent2 cfg'))).
Proof.
  intros Hc Hl Hch Hw. unfold rewrite_config.
  rewrite Hc. cbn [bind]. rewrite Hl. cbn [bind]. rewrite Hch.
  unfold write_config. rewrite Hw. reflexivity.
Qed.

Lemma put_provider_shape (name base_url api_key : string) (d d' : dict) :
  put_provider name base_url api_key (JObj d) = Ok d' ->
  exists m',
    lookup "models" d' = Some (JObj m') /\
    lookup "providers" m' = Some (JObj (providers_table d')).
Proof.
  unfold put_provider. intros Hp.
  apply bind_Ok_inv in Hp. destruct Hp as ([models d1] & Hsm & Hp).
  apply bind_Ok_inv in Hp. destruct Hp as ([providers m1] & Hsp & Hp).
  apply bind_Ok_inv in Hp. destruct Hp as (providers' & Hset & Hp).
  injection Hp as <-.
  exists (dict_put m1 "providers" (JObj providers')).
  split; [apply lookup_put_same |].
  unfold providers_table. rewrite !dict_get_put_same. apply lookup_put_same.
Qed.

Lemma add_provider_spec
      (name base_url api_key : string) (add_to_rotation : bool)
      (d : dict) (cfg' : json) :
  add_provider name base_url api_key add_to_rotation (JObj d) = Ok cfg' ->
  exists d' m',
    cfg' = JObj d' /\
    lookup "models" d' = Some (JObj m') /\
    lookup "providers" m' = Some (JObj (providers_table d')) /\
    providers_table d' =
      dict_put (providers_table d) name (new_provider base_url api_key).
Proof.
  unfold add_provider. intros Ha.
  apply bind_Ok_inv in Ha. destruct Ha as (d1 & Hput & Ha).
  destruct (put_provider_spec _ _ _ _ _ Hput) as (Htab & _).
  destruct (put_provider_shape _ _ _ _ _ Hput) as (m' & Hm & Hp).
  destruct add_to_rotation.
  - apply bind_Ok_inv in Ha. destruct Ha as (d2 & Happ & Ha).
    injection Ha as <-.
    destruct (append_fallback_spec _ _ _ Happ) as (_ & Hrest2).
    assert (Hmo : lookup "models" d2 = lookup "models" d1)
      by (apply Hrest2; discriminate).
    exists d2, m'. rewrite (providers_table_lookup _ _ Hmo), Hmo. auto.
  - injection Ha as <-. exists d1, m'. auto.
Qed.







Lemma dict_pop_put (t : dict) (k : string) (v : json) :
  dict_pop (dict_put t k v) k = dict_pop t k.
Proof.
  unfold dict_pop. induction t as [| [k0 v0] t IH]; simpl.
  - rewrite String.eqb_refl. reflexivity.
  - destruct (String.eqb k k0) eqn:Hk; simpl.
    + rewrite String.eqb_refl. reflexivity.
    + rewrite Hk. simpl. rewrite IH. reflexivity.
Qed.

Lemma remove_provider_present (pid : string) (d m t : dict) :
  lookup "models" d = Some (JObj m) ->
  lookup "providers" m = Some (JObj t) ->
  remove_provider pid (JObj d) =
  Ok (JObj (dict_put d "models"
              (JObj (dict_put m "providers" (JObj (dict_pop t pid)))))).
Proof.
  intros Hm Hp. unfold remove_provider. cbn [py_get bind].
  unfold dict_get. rewrite Hm. cbn [py_get bind].
  unfold dict_get. rewrite Hp. cbn [py_pop bind]. rewrite ?Hm, ?Hp.
  reflexivity.
Qed.

Lemma remove_provider_spec (pid : string) (d : dict) (cfg' : json) :
  remove_provider pid (JObj d) = Ok cfg' ->
  exists d',
    cfg' = JObj d' /\
    providers_table d' = dict_pop (providers_table d) pid /\
    (forall k, k <> "models" -> lookup k d' = lookup k d).
Proof.
  unfold remove_provider. intros Hr.
  apply bind_Ok_inv in Hr. destruct Hr as (models & Hmo & Hr).
  apply bind_Ok_inv in Hr. destruct Hr as (providers & Hpr & Hr).
  apply bind_Ok_inv in Hr. destruct Hr as (providers' & Hpop & Hr).
  injection Hr as <-.
  simpl in Hmo. injection Hmo as <-.
  destruct (dict_get d "models" (JObj [])) as [| | | | | m] eqn:Hm;
    try discriminate Hpr.
  simpl in Hpr. injection Hpr as <-.
  destruct (dict_get m "providers" (JObj [])) as [| | | | | t] eqn:Ht;
    try discriminate Hpop.
  simpl in Hpop. injection Hpop as <-.
  assert (Htab : providers_table d = t)
    by (unfold providers_table; rewrite Hm, Ht; reflexivity).
  unfold dict_get in Hm, Ht.
  destruct (lookup "models" d) as [x |] eqn:Hlm.
  - subst x. destruct (lookup "providers" m) as [y |] eqn:Hlp.
    + subst y. eexists. split; [reflexivity |]. split.
      * unfold providers_table. rewrite !dict_get_put_same.
        fold (providers_table d). rewrite Htab. reflexivity.
      * intros k Hk. apply lookup_put_other, Hk.
    + injection Ht as <-. exists d. split; [reflexivity |].
      rewrite Htab. split; [reflexivity | reflexivity].
  - injection Hm as <-. simpl in Ht. injection Ht as <-.
    exists d. split; [reflexivity |].
    rewrite Htab. split; [reflexivity | reflexivity].
Qed.

(** X19.  What [_remove_current] does to the configuration before it
    writes it: the provider is taken out of [models.providers], the other
    providers stay, in their order and with their entries, and every other
    top-level key keeps its value.  The fallbacks are among those: a
    fallback that names a model of the removed provider stays in the
    rotation. *)
Theorem X19_remove_provider_effect
  (pid : string) (d : dict) (cfg' : json) :
  remove_provider pid (JObj d) = Ok cfg' ->
  exists d',
    cfg' = JObj d' /\
    providers_table d' = dict_pop (providers_table d) pid /\
    lookup pid (providers_table d') = None /\
    (forall q, q <> pid ->
       lookup q (providers_table d') = lookup q (providers_table d)) /\
    fallbacks_of d' = fallbacks_of d /\
    (forall k, k <> "models" -> lookup k d' = lookup k d).
Proof.
  intros Hr.
  destruct (remove_provider_spec _ _ _ Hr) as (d' & -> & Htab & Hrest).
  exists d'. split; [reflexivity |]. split; [exact Htab |].
  rewrite Htab.
  split; [apply lookup_pop_same |].
  split; [intros q Hq; apply lookup_pop_other; exact Hq |].
  split; [| exact Hrest].
  apply fallbacks_of_lookup, Hrest. discriminate.
Qed.

Lemma X19_remove_provider_effect_witness :
  exists d',
    remove_provider "ollama" config_doc = Ok (JObj d') /\
    map fst (providers_table d') = ["groq"; "google-gemini-cli"] /\
    fallbacks_of d' = [JStr "ollama/qwen3"].
Proof.
  destruct (remove_provider "ollama" config_doc) as [cfg' | e] eqn:Hr;
    [| vm_compute in Hr; discriminate Hr].
  destruct (X19_remove_provider_effect _ _ _ Hr)
    as (d' & -> & Htab & _ & _ & Hfb & _).
  exists d'. split; [reflexivity |].
  rewrite Htab, Hfb. split; reflexivity.
Defined.

(** X20.  Adding a provider under a name that is not in use and removing
    it again gives back the provider table as it was, but not the rotation:
    when the provider was added to the rotation, its fallback [name/default]
    is still there after the removal. *)
Theorem X20_add_then_remove
  (name base_url api_key : string) (add_to_rotation : bool)
  (d : dict) (cfg1 : json) :
  lookup name (providers_table d) = None ->
  add_provider name base_url api_key add_to_rotation (JObj d) = Ok cfg1 ->
  exists d2,
    remove_provider name cfg1 = Ok (JObj d2) /\
    providers_table d2 = providers_table d /\
    fallbacks_of d2 =
      fallbacks_of d ++
      (if add_to_rotation then [JStr (name ++ "/default")] else []).
Proof.
  intros Hfresh Ha.
  destruct (add_provider_spec _ _ _ _ _ _ Ha)
    as (d1 & m1 & -> & Hm & Hp & Htab).
  rewrite (remove_provider_present name _ _ _ Hm Hp).
  eexists. split; [reflexivity |].
  split.
  - unfold providers_table at 1. rewrite !dict_get_put_same.
    rewrite Htab, dict_pop_put. apply dict_pop_absent, Hfresh.
  - assert (Hag : forall x,
               lookup "agents" (dict_put d1 "models" x) = lookup "agents" d1)
      by (intros x; apply lookup_put_other; discriminate).
    rewrite (fallbacks_of_lookup _ _ (Hag _)).
    unfold add_provider in Ha.
    apply bind_Ok_inv in Ha. destruct Ha as (d0 & Hput & Ha).
    destruct (put_provider_spec _ _ _ _ _ Hput) as (_ & Hrest).
    assert (Hag0 : lookup "agents" d0 = lookup "agents" d)
      by (apply Hrest; discriminate).
    destruct add_to_rotation.
    + apply bind_Ok_inv in Ha. destruct Ha as (d2 & Happ & Ha).
      injection Ha as <-.
      destruct (append_fallback_spec _ _ _ Happ) as (Hfb & _).
      rewrite Hfb, (fallbacks_of_lookup _ _ Hag0). reflexivity.
    + injection Ha as <-.
      rewrite (fallbacks_of_lookup _ _ Hag0), app_nil_r. reflexivity.
Qed.

Lemma X20_add_then_remove_witness :
  exists cfg1 d2,
    add_provider "lmstudio" "http://localhost:1234/v1" EmptyString true
                 config_doc = Ok cfg1 /\
    remove_provider "lmstudio" cfg1 = Ok (JObj d2) /\
    map fst (providers_table d2) = ["groq"; "ollama"; "google-gemini-cli"] /\
    fallbacks_of d2 = [JStr "ollama/qwen3"; JStr "lmstudio/default"].
Proof.
  destruct (add_provider "lmstudio" "http://localhost:1234/v1" EmptyString true
                         config_doc) as [cfg1 | e] eqn:Ha;
    [| vm_compute in Ha; discriminate Ha].
  destruct (X20_add_then_remove
              "lmstudio" "http://localhost:1234/v1" EmptyString true
              match config_doc with JObj d => d | _ => [] end
              cfg1 eq_refl Ha) as (d2 & Hr & Htab & Hfb).
  exists cfg1, d2. split; [reflexivity |]. split; [exact Hr |].
  rewrite Htab, Hfb. split; reflexivity.
Defined.

Section ConfigWriters.
Context (P : PyJson) (I : PyJsonIndent).

Lemma rewrite_config_total (change : json -> result json) (fs : files) :
  exists fs', rewrite_config change fs = Ok fs'.
Proof.
  unfold rewrite_config.
  destruct (text <- f_config fs ;; cfg <- json_loads text ;; change cfg);
    eauto.
Qed.



End ConfigWriters.


(** ** [make_bar] *)

Lemma py_round_bounds (x : Q) :
  (Qfloor x <= py_round x <= Qfloor x + 1)%Z.
Proof.
  unfold py_round.
  destruct (Qcompare (x - inject_Z (Qfloor x)) (1 # 2)); try lia.
  destruct (Z.even (Qfloor x)); lia.
Qed.


Lemma py_round_mono (x y : Q) : (x <= y)%Q -> (py_round x <= py_round y)%Z.
Proof.
  intros Hxy.
  pose proof (Qfloor_resp_le _ _ Hxy) as Hf.
  destruct (Z.eq_dec (Qfloor x) (Qfloor y)) as [Heq | Hne].
  - unfold py_round. rewrite <- Heq.
    destruct (Qcompare (x - inject_Z (Qfloor x)) (1 # 2)) eqn:Hx;
      destruct (Qcompare (y - inject_Z (Qfloor x)) (1 # 2)) eqn:Hy;
      try (destruct (Z.even (Qfloor x))); try lia; exfalso.
    + apply Qeq_alt in Hx. apply Qlt_alt in Hy. lra.
    + apply Qgt_alt in Hx. apply Qeq_alt in Hy. lra.
    + apply Qgt_alt in Hx. apply Qlt_alt in Hy. lra.
    + apply Qgt_alt in Hx. apply Qlt_alt in Hy. lra.
  - pose proof (py_round_bounds x). pose proof (py_round_bounds y). lia.
Qed.

Lemma clamp_bounds (pct : Q) : (0 <= max0 (min1 pct) <= 1)%Q.
Proof.
  unfold max0, min1.
  destruct (Qgtb 1 pct) eqn:H1.
  - apply Qgtb_true in H1.
    destruct (Qgtb pct 0) eqn:H0.
    + apply Qgtb_true in H0. lra.
    + lra.
  - destruct (Qgtb 1 0) eqn:H0; lra.
Qed.





(** ** [AuthPanelWidget.render] *)

Lemma py_int_floor (x : Q) : (0 <= x)%Q -> py_int x = Qfloor x.
Proof.
  destruct x as [n d]. unfold Qle, py_int, Qfloor. simpl. intros Hn.
  apply Z.quot_div_nonneg; lia.
Qed.







Lemma py_round_comp (x y : Q) : (x == y)%Q -> py_round x = py_round y.
Proof.
  intros Hxy. apply Z.le_antisymm; apply py_round_mono; lra.
Qed.

Lemma py_int_comp (x y : Q) :
  (0 <= x)%Q -> (x == y)%Q -> py_int x = py_int y.
Proof.
  intros Hx Hxy. rewrite !py_int_floor by lra. apply Qfloor_comp, Hxy.
Qed.



(** ** [ModelTableWidget.render] *)

Lemma rotation_loop_models inv :
  forall models i entries,
    rotation_loop inv i models = Ok entries ->
    Forall (fun e => exists s, re_model e = JStr s /\ re_label e = _shorten s)
           entries.
Proof.
  induction models as [| model rest IH]; simpl; intros i entries Hl.
  - injection Hl as <-. constructor.
  - apply bind_Ok_inv in Hl. destruct Hl as (label & Hlabel & Hl).
    apply bind_Ok_inv in Hl. destruct Hl as (es & Hes & Hl).
    injection Hl as <-. constructor; [| exact (IH _ _ Hes)].
    destruct model as [| | | s | |]; try discriminate Hlabel.
    simpl in Hlabel. injection Hlabel as <-. exists s. auto.
Qed.

Lemma of_str_cons (c : ascii) (s : string) :
  of_str (String c s) = N_of_ascii c :: of_str s.
Proof. reflexivity. Qed.

(** X24.  The table of a rotation that [parse_model_status] returned: the
    rendering does not raise and has one row per entry, in order; the row at
    index 0 is the one marked with the pointer and [[ACTIVE]]; a later row
    shows [[LOCAL] ] for a model of the provider [ollama] and its position
    [#i], padded to 7, for any other.  No row ever shows [COOLDOWN], nor
    does an [ollama] default model show [[LOCAL] ]. *)
Theorem X24_model_table_rows
  (d : dict) (snap : snapshot) :
  parse_model_status (JObj d) = Ok snap ->
  exists rows,
    model_table_render (sn_rotation snap) = Ok rows /\
    length rows = length (sn_rotation snap) /\
    forall i e row,
      nth_error (sn_rotation snap) i = Some e ->
      nth_error rows i = Some row ->
      (i = 0 ->
         row_status row = plain "[ACTIVE]" "bold cyan" /\
         row_name row = [{| content := POINTER; style := "bold cyan" |};
                         plain (" " ++ re_label e) "bold cyan"]) /\
      (i <> 0 ->
         row_status row =
           (if is_local_entry e then plain "[LOCAL] " "bold green"
            else plain (ljust 7 ("#" ++ str_of_nat i)) "dim white") /\
         row_name row =
           [plain ("  " ++ re_label e)
                  (if is_local_entry e then "green" else "dim white")]) /\
      row_status row <> plain "COOLDOWN" "bold red".
Proof.
  intros Hp.
  destruct (parse_model_status_rotation _ _ Hp) as (items & fl & _ & _ & Hrot).
  pose proof (rotation_loop_models _ _ _ _ Hrot) as Hmodels.
  assert (Hstatus : forall i e, nth_error (sn_rotation snap) i = Some e ->
                                re_status e = status_label i).
  { intros i e He.
    destruct (@rotation_loop_spec _ _ _ _ Hrot) as (Hlen & Hnth).
    assert (Hk : i < length (sn_rotation snap))
      by (apply nth_error_Some; congruence).
    rewrite Hlen in Hk. apply nth_error_Some in Hk.
    destruct (nth_error (dict_get d "defaultModel" (JStr empty_str) :: fl) i)
      as [m |] eqn:Hm; [| congruence].
    destruct (Hnth i m Hm) as (x' & Hx' & _ & Hs & _).
    rewrite He in Hx'. injection Hx' as <-. exact Hs. }
  assert (Hrows : exists rows,
             model_table_render (sn_rotation snap) = Ok rows).
  { apply mapM_total. eapply Forall_impl; [| exact Hmodels].
    intros e (s & Hs & _). unfold table_row_of. rewrite Hs. eauto. }
  destruct Hrows as (rows & Hrows). exists rows. split; [exact Hrows |].
  pose proof (@mapM_Ok_Forall2 _ _ _ _ _ Hrows) as Hall.
  split; [symmetry; exact (Forall2_length Hall) |].
  intros i e row He Hrow.
  destruct (@Forall2_nth_error_l _ _ _ _ _ Hall _ _ He) as (row' & Hrow' & Hof).
  rewrite Hrow in Hrow'. injection Hrow' as <-.
  rewrite Forall_forall in Hmodels.
  destruct (Hmodels e (nth_error_In _ _ He)) as (s & Hs & _).
  unfold table_row_of in Hof. rewrite Hs, (Hstatus i e He) in Hof.
  unfold is_local_entry. rewrite Hs.
  destruct i as [| i].
  - injection Hof as <-. simpl.
    split; [intros _; split; reflexivity |].
    split; [intros Hc; congruence |]. discriminate.
  - assert (Hna : String.eqb (status_label (S i)) "ACTIVE" = false)
      by reflexivity.
    rewrite Hna, status_label_no_cooldown in Hof.
    injection Hof as <-. cbn [row_status row_name].
    split; [intros Hc; discriminate Hc |].
    split.
    + intros _.
      destruct (String.eqb (hd EmptyString (split_on "/" s)) "ollama");
        split; reflexivity.
    + destruct (String.eqb (hd EmptyString (split_on "/" s)) "ollama");
        [discriminate |].
      unfold status_label. cbn [Nat.eqb]. unfold ljust, plain.
      cbn [append]. rewrite of_str_cons. discriminate.
Qed.

Lemma X24_model_table_rows_witness :
  exists rows,
    model_table_render
      (match parse_model_status SAMPLE_STATUS with
       | Ok snap => sn_rotation snap
       | Raise _ => []
       end) = Ok rows /\
    map row_status rows =
      [plain "[ACTIVE]" "bold cyan"; plain "#1     " "dim white";
       plain "#2     " "dim white"].
Proof.
  destruct (parse_model_status SAMPLE_STATUS) as [snap | err] eqn:Hp;
    [| vm_compute in Hp; discriminate Hp].
  destruct (X24_model_table_rows
              match SAMPLE_STATUS with JObj d => d | _ => [] end snap Hp)
    as (rows & Hrows & _ & _).
  exists rows. split; [exact Hrows |].
  vm_compute in Hp. injection Hp as <-.
  vm_compute in Hrows. injection Hrows as <-. reflexivity.
Defined.

(** ** [DashboardScreen._drain_logs] *)

Section PanelFacts.
Context {P : PyJson} {M : RichMarkup}.

Lemma write_events_all (verbose : bool) (events : list log_event) :
  forall panel,
    forallb markup_ok
            (map DashboardScreen.markup
                 (filter (fun event => verbose || ev_important event) events))
    = true ->
    DashboardScreen.write_events verbose events panel =
    (true,
     panel ++ map DashboardScreen.markup
                  (filter (fun event => verbose || ev_important event)
                          events)).
Proof.
  induction events as [| ev events IH]; intros panel; simpl.
  - intros _. rewrite app_nil_r. reflexivity.
  - destruct (verbose || ev_important ev) eqn:Hshown.
    + assert (Hgo : negb verbose && negb (ev_important ev) = false)
        by (destruct verbose, (ev_important ev); simpl in *; congruence).
      rewrite Hgo. simpl. intros Hok.
      apply Bool.andb_true_iff in Hok. destruct Hok as (Hev & Hok).
      rewrite Hev, (IH _ Hok), <- app_assoc. reflexivity.
    + assert (Hgo : negb verbose && negb (ev_important ev) = true)
        by (destruct verbose, (ev_important ev); simpl in *; congruence).
      rewrite Hgo. apply IH.
Qed.

Lemma write_events_refused (verbose : bool) (events : list log_event) :
  forall panel before ev after,
    filter (fun event => verbose || ev_important event) events
    = before ++ ev :: after ->
    forallb markup_ok (map DashboardScreen.markup before) = true ->
    markup_ok (DashboardScreen.markup ev) = false ->
    DashboardScreen.write_events verbose events panel =
    (false, panel ++ map DashboardScreen.markup before).
Proof.
  induction events as [| e events IH]; intros panel before ev after Hf Hb Hev.
  - destruct before; discriminate Hf.
  - cbn [filter DashboardScreen.write_events] in *.
    destruct (verbose || ev_important e) eqn:Hshown.
    + assert (Hgo : negb verbose && negb (ev_important e) = false)
        by (destruct verbose, (ev_important e); simpl in *; congruence).
      rewrite Hgo.
      destruct before as [| b before]; simpl in Hf; injection Hf as -> Hf.
      * rewrite Hev. simpl. rewrite app_nil_r. reflexivity.
      * simpl in Hb. apply Bool.andb_true_iff in Hb.
        destruct Hb as (Hb0 & Hb). rewrite Hb0.
        rewrite (IH _ before ev after Hf Hb Hev).
        simpl. rewrite <- app_assoc. reflexivity.
    + assert (Hgo : negb verbose && negb (ev_important e) = true)
        by (destruct verbose, (ev_important e); simpl in *; congruence).
      rewrite Hgo. exact (IH _ before ev after Hf Hb Hev).
Qed.

End PanelFacts.

(** X25.  A poll of the dashboard whose [drain_logs] returns [events],
    with [shown] the events that pass the filter (all of them in verbose
    mode, the important ones in filtered mode).  The drain has found the
    queue empty.  When the panel reads the line of every shown event, the
    poll returns with those lines written after what the panel held, in the
    order of the queue; a poll that follows at once, in either mode and
    before the tailer has queued anything, writes nothing, so an event that
    the filter hid is gone.  When the panel cannot read the line of a shown
    event, the poll raises at that event: the lines before it are written,
    and the events from it on are neither written nor in the queue any
    more. *)
Theorem X25_drain_logs_panel
  (P : PyJson) (M : RichMarkup) (acts : list action)
  (s : DashboardScreen.screen) (events : list log_event) (data' : DataLayer) :
  drain_logs acts (DashboardScreen._data s) = Returns events data' ->
  let shown :=
    filter (fun event => DashboardScreen.verbose s || ev_important event)
           events in
  _log_queue data' = [] /\
  (forallb markup_ok (map DashboardScreen.markup shown) = true ->
   exists s1,
     DashboardScreen._drain_logs acts s = DashboardScreen.Polled s1 /\
     DashboardScreen.log_panel s1 =
       DashboardScreen.log_panel s ++ map DashboardScreen.markup shown /\
     DashboardScreen._data s1 = data' /\
     DashboardScreen.verbose s1 = DashboardScreen.verbose s /\
     forall rest s2,
       s2 = s1 \/ s2 = DashboardScreen.action_toggle_verbose s1 ->
       exists s3,
         DashboardScreen._drain_logs (ConsumerGet :: rest) s2
           = DashboardScreen.Polled s3 /\
         DashboardScreen.log_panel s3 = DashboardScreen.log_panel s1) /\
  (forall before ev after,
     shown = before ++ ev :: after ->
     forallb markup_ok (map DashboardScreen.markup before) = true ->
     markup_ok (DashboardScreen.markup ev) = false ->
     exists s1,
       DashboardScreen._drain_logs acts s = DashboardScreen.PollRaised s1 /\
       DashboardScreen.log_panel s1 =
         DashboardScreen.log_panel s ++ map DashboardScreen.markup before /\
       DashboardScreen._data s1 = data').
Proof.
  intros Hd shown.
  assert (Hempty : _log_queue data' = []).
  { unfold drain_logs in Hd.
    exact (proj1 (@drain_loop_returns P acts _ _ _ _ Hd)). }
  split; [exact Hempty |].
  split.
  - intros Hok. unfold DashboardScreen._drain_logs. rewrite Hd.
    rewrite (write_events_all _ _ _ Hok).
    eexists. split; [reflexivity |].
    cbn [DashboardScreen.log_panel DashboardScreen._data
         DashboardScreen.verbose].
    split; [reflexivity |]. split; [reflexivity |]. split; [reflexivity |].
    intros rest s2 [-> | ->];
      unfold DashboardScreen._drain_logs, drain_logs;
      cbn [drain_loop DashboardScreen.action_toggle_verbose
           DashboardScreen._data DashboardScreen.verbose
           DashboardScreen.log_panel];
      rewrite Hempty; cbn [DashboardScreen.write_events];
      eexists; split; reflexivity.
  - intros before ev after Hshown Hb Hev.
    unfold DashboardScreen._drain_logs. rewrite Hd.
    rewrite (write_events_refused _ _ _ _ _ _ Hshown Hb Hev).
    eexists. split; [reflexivity |]. split; reflexivity.
Qed.

Lemma X25_drain_logs_panel_witness :
  exists s1,
    DashboardScreen._drain_logs
      (H := MiniJson.codec) (H0 := no_tmp_x)
      [ConsumerGet; ConsumerGet; ConsumerGet] dashboard_two
      = DashboardScreen.PollRaised s1 /\
    DashboardScreen.log_panel s1 = [] /\
    _log_queue (DashboardScreen._data s1) = [].
Proof.
  destruct (X25_drain_logs_panel
              MiniJson.codec no_tmp_x
              [ConsumerGet; ConsumerGet; ConsumerGet] dashboard_two
              [reload_event; path_event]
              (with_tailer (DashboardScreen._data dashboard_two)
                           (Tailing old_path) [])
              eq_refl)
    as (Hempty & _ & Hraise).
  destruct (Hraise [] path_event [] eq_refl eq_refl eq_refl)
    as (s1 & Hrun & Hpanel & Hdata).
  exists s1. split; [exact Hrun |]. split; [exact Hpanel |].
  rewrite Hdata. reflexivity.
Defined.

Section LogStyles.
Context {P : PyJson}.


End LogStyles.




(** ** [SwitchModelScreen] *)

Lemma py_index_in_range {A : Type} (l : list A) (i : Z) :
  (- Z.of_nat (length l) <= i < Z.of_nat (length l))%Z ->
  exists x, py_index l i = Some x /\ In x l.
Proof.
  intros Hi. unfold py_index.
  destruct (Z.leb_spec 0 i) as [Hpos | Hneg].
  - destruct (nth_error l (Z.to_nat i)) as [x |] eqn:Hx.
    + exists x. split; [reflexivity | exact (nth_error_In _ _ Hx)].
    + apply nth_error_None in Hx. lia.
  - destruct (Z.leb_spec (- Z.of_nat (length l)) i) as [Hlow | Hlow]; [| lia].
    destruct (nth_error l (Z.to_nat (Z.of_nat (length l) + i))) as [x |] eqn:Hx.
    + exists x. split; [reflexivity | exact (nth_error_In _ _ Hx)].
    + apply nth_error_None in Hx. lia.
Qed.

Lemma py_index_cursor {A : Type} (l : list A) (cursor : Z) :
  l <> [] -> cursor_in cursor (length l) ->
  exists x,
    py_index l cursor = Some x /\ In x l /\
    ((0 <= cursor)%Z -> nth_error l (Z.to_nat cursor) = Some x) /\
    (cursor = (-1)%Z -> nth_error l (length l - 1) = Some x).
Proof.
  intros Hne (Hlow & Hup).
  assert (Hlen : 0 < length l) by (destruct l; [congruence | simpl; lia]).
  destruct (py_index_in_range l cursor ltac:(lia)) as (x & Hx & Hin).
  exists x. split; [exact Hx |]. split; [exact Hin |].
  unfold py_index in Hx. split.
  - intros Hpos. destruct (Z.leb_spec 0 cursor); [exact Hx | lia].
  - intros ->. simpl in Hx.
    destruct (Z.leb_spec (- Z.of_nat (length l)) (-1)); [| lia].
    replace (Z.to_nat (Z.of_nat (length l) + -1)) with (length l - 1) in Hx
      by lia.
    exact Hx.
Qed.

Lemma filtered_In (s : SwitchModelScreen.screen) (e : rotation_entry) :
  In e (SwitchModelScreen._filtered s) ->
  In e (SwitchModelScreen._rotation s) /\
  (SwitchModelScreen._filter s = EmptyString \/
   contains (lower (SwitchModelScreen._filter s)) (lower (re_label e)) = true).
Proof.
  unfold SwitchModelScreen._filtered.
  destruct (String.eqb_spec (SwitchModelScreen._filter s) EmptyString)
    as [He | He].
  - intros Hin. auto.
  - intros Hin. apply filter_In in Hin. destruct Hin as (Hin & Hm). auto.
Qed.

Lemma filtered_length (s : SwitchModelScreen.screen) :
  length (SwitchModelScreen._filtered s)
  <= length (SwitchModelScreen._rotation s).
Proof.
  unfold SwitchModelScreen._filtered.
  destruct (String.eqb (SwitchModelScreen._filter s) EmptyString);
    [lia | apply filter_length_le].
Qed.

Lemma rows_from_total (cursor : Z) (entries : list rotation_entry) :
  models_typed entries ->
  forall i, exists rows,
    SwitchModelScreen.rows_from cursor i entries = Ok rows.
Proof.
  induction 1 as [| e entries He _ IH]; intros i; simpl; [eauto |].
  destruct (re_model e) as [| | | m | |] eqn:Hm; try discriminate He.
  unfold SwitchModelScreen.row_of. rewrite Hm. cbn [py_startswith bind].
  destruct (IH (S i)) as (rows & ->).
  destruct (if String.eqb (re_status e) "ACTIVE"
            then ("[ACTIVE]", "bold cyan")
            else if startswith "ollama/" m
                 then ("[LOCAL] ", "bold green")
                 else ((" " ++ ljust 7 (re_status e))%string, "dim white"))
    as [tag tag_style].
  cbn [bind]. eauto.
Qed.

Lemma render_list_ok (s : SwitchModelScreen.screen) :
  models_typed (SwitchModelScreen._rotation s) ->
  exists s',
    SwitchModelScreen._render_list s = Ok s' /\
    SwitchModelScreen._rotation s' = SwitchModelScreen._rotation s /\
    SwitchModelScreen._cursor s' = SwitchModelScreen._cursor s /\
    SwitchModelScreen._filter s' = SwitchModelScreen._filter s.
Proof.
  intros Ht. unfold SwitchModelScreen._render_list.
  assert (Hf : models_typed (SwitchModelScreen._filtered s)).
  { unfold models_typed in *. rewrite Forall_forall in *.
    intros e He. apply Ht. apply filtered_In, He. }
  destruct (rows_from_total (SwitchModelScreen._cursor s) _ Hf 0)
    as (rows & ->).
  cbn [bind]. eexists. split; [reflexivity |]. auto.
Qed.

Lemma filtered_ext (s s' : SwitchModelScreen.screen) :
  SwitchModelScreen._rotation s' = SwitchModelScreen._rotation s ->
  SwitchModelScreen._filter s' = SwitchModelScreen._filter s ->
  SwitchModelScreen._filtered s' = SwitchModelScreen._filtered s.
Proof.
  unfold SwitchModelScreen._filtered. intros -> ->. reflexivity.
Qed.

Lemma filtered_with_cursor (s : SwitchModelScreen.screen) (cursor : Z) :
  SwitchModelScreen._filtered (SwitchModelScreen.with_cursor s cursor) =
  SwitchModelScreen._filtered s.
Proof. reflexivity. Qed.

Lemma switch_on_key_inv (key : string) (s : SwitchModelScreen.screen) :
  models_typed (SwitchModelScreen._rotation s) ->
  cursor_in (SwitchModelScreen._cursor s)
            (length (SwitchModelScreen._filtered s)) ->
  exists s',
    SwitchModelScreen.on_key key s = Ok s' /\
    SwitchModelScreen._rotation s' = SwitchModelScreen._rotation s /\
    cursor_in (SwitchModelScreen._cursor s')
              (length (SwitchModelScreen._filtered s')).
Proof.
  intros Ht (Hlow & Hup). unfold SwitchModelScreen.on_key.
  assert (Hstep : forall s1,
             SwitchModelScreen._rotation s1 = SwitchModelScreen._rotation s ->
             cursor_in (SwitchModelScreen._cursor s1)
                       (length (SwitchModelScreen._filtered s1)) ->
             exists s',
               SwitchModelScreen._render_list s1 = Ok s' /\
               SwitchModelScreen._rotation s' = SwitchModelScreen._rotation s /\
               cursor_in (SwitchModelScreen._cursor s')
                         (length (SwitchModelScreen._filtered s'))).
  { intros s1 Hr Hc.
    destruct (render_list_ok s1) as (s' & Hs' & Hrot & Hcur & Hflt);
      [rewrite Hr; exact Ht |].
    exists s'. split; [exact Hs' |]. split; [congruence |].
    rewrite Hcur, (filtered_ext s1 s' Hrot Hflt). exact Hc. }
  destruct (String.eqb key "up").
  { apply Hstep; [reflexivity |]. unfold cursor_in.
    cbn [SwitchModelScreen.with_cursor SwitchModelScreen._cursor].
    rewrite filtered_with_cursor. lia. }
  destruct (String.eqb key "down").
  { apply Hstep; [reflexivity |]. unfold cursor_in.
    cbn [SwitchModelScreen.with_cursor SwitchModelScreen._cursor].
    rewrite filtered_with_cursor. lia. }
  destruct (String.eqb key "slash").
  { apply Hstep; [reflexivity |]. unfold cursor_in.
    cbn [SwitchModelScreen.with_filter SwitchModelScreen._cursor].
    pose proof (filtered_length s) as Hlen.
    change (SwitchModelScreen._filtered
              (SwitchModelScreen.with_filter s EmptyString))
      with (SwitchModelScreen._rotation s).
    lia. }
  destruct (Nat.eqb (String.length key) 1 && isprintable key
            && negb (contains key (String nl (String (ascii_of_nat 13)
                                                     EmptyString)))).
  { apply Hstep; [reflexivity |]. unfold cursor_in.
    cbn [SwitchModelScreen.with_cursor SwitchModelScreen._cursor]. lia. }
  destruct (String.eqb key "backspace"
            && negb (String.eqb (SwitchModelScreen._filter s) EmptyString)).
  { apply Hstep; [reflexivity |]. unfold cursor_in.
    cbn [SwitchModelScreen.with_cursor SwitchModelScreen._cursor]. lia. }
  exists s. split; [reflexivity |]. split; [reflexivity |].
  split; assumption.
Qed.

Lemma switch_run_inv (keys : list string) :
  forall s,
    models_typed (SwitchModelScreen._rotation s) ->
    cursor_in (SwitchModelScreen._cursor s)
              (length (SwitchModelScreen._filtered s)) ->
    exists s',
      SwitchModelScreen.run keys s = Ok s' /\
      SwitchModelScreen._rotation s' = SwitchModelScreen._rotation s /\
      cursor_in (SwitchModelScreen._cursor s')
                (length (SwitchModelScreen._filtered s')).
Proof.
  induction keys as [| key keys IH]; intros s Ht Hc; simpl.
  - exists s. auto.
  - destruct (switch_on_key_inv key s Ht Hc) as (s1 & -> & Hr1 & Hc1).
    cbn [bind].
    destruct (IH s1) as (s' & Hs' & Hr' & Hc'); [rewrite Hr1; exact Ht | exact Hc1 |].
    exists s'. split; [exact Hs' |]. split; [congruence | exact Hc'].
Qed.

(** X27.  The model picker, opened on a rotation whose models are strs
    and given any keys: no key raises; the cursor stays between -1 and the
    end of the filtered list (0 for an empty one), so that [action_select]
    never raises an [IndexError]; it does nothing exactly when the filtered
    list is empty, and a model it dismisses with is the model of an entry of
    the rotation whose label matches the filter, without regard to case:
    the entry at the cursor, or the last of the filtered list when the
    cursor is at -1, where no row shows the pointer. *)
Theorem X27_switch_model_selection
  (rotation : list rotation_entry) (keys : list string) :
  models_typed rotation ->
  exists s,
    SwitchModelScreen.run keys (SwitchModelScreen.init rotation) = Ok s /\
    SwitchModelScreen._rotation s = rotation /\
    cursor_in (SwitchModelScreen._cursor s)
              (length (SwitchModelScreen._filtered s)) /\
    SwitchModelScreen.action_select s <> SwitchModelScreen.IndexError /\
    (SwitchModelScreen.action_select s = SwitchModelScreen.Nothing <->
     SwitchModelScreen._filtered s = []) /\
    (forall model,
       SwitchModelScreen.action_select s = SwitchModelScreen.Dismissed model ->
       exists e,
         In e rotation /\ re_model e = model /\
         (SwitchModelScreen._filter s = EmptyString \/
          contains (lower (SwitchModelScreen._filter s))
                   (lower (re_label e)) = true) /\
         ((0 <= SwitchModelScreen._cursor s)%Z ->
          nth_error (SwitchModelScreen._filtered s)
                    (Z.to_nat (SwitchModelScreen._cursor s)) = Some e) /\
         (SwitchModelScreen._cursor s = (-1)%Z ->
          nth_error (SwitchModelScreen._filtered s)
                    (length (SwitchModelScreen._filtered s) - 1) = Some e)).
Proof.
  intros Ht.
  destruct (switch_run_inv keys (SwitchModelScreen.init rotation))
    as (s & Hrun & Hrot & Hc).
  { exact Ht. }
  { unfold cursor_in. simpl. lia. }
  exists s. split; [exact Hrun |]. split; [exact Hrot |].
  split; [exact Hc |].
  unfold SwitchModelScreen.action_select.
  destruct (SwitchModelScreen._filtered s) as [| e0 rest] eqn:Hf.
  - split; [discriminate |]. split; [split; reflexivity |]. discriminate.
  - destruct (py_index_cursor (e0 :: rest) (SwitchModelScreen._cursor s))
      as (x & Hx & Hin & Hpos & Hneg); [discriminate | exact Hc |].
    rewrite Hx.
    split; [discriminate |].
    split; [split; discriminate |].
    intros model Hm. injection Hm as <-.
    exists x. rewrite <- Hf in Hin. apply filtered_In in Hin.
    destruct Hin as (Hin & Hmatch). rewrite Hrot in Hin.
    split; [exact Hin |]. split; [reflexivity |]. split; [exact Hmatch |].
    split; [exact Hpos | exact Hneg].
Qed.

Lemma X27_switch_model_selection_witness :
  exists s,
    SwitchModelScreen.run ["z"; "down"; "slash"]
                          (SwitchModelScreen.init sample_rotation) = Ok s /\
    SwitchModelScreen._cursor s = (-1)%Z /\
    SwitchModelScreen.action_select s =
      SwitchModelScreen.Dismissed (JStr "groq/llama-3.3-70b-versatile").
Proof.
  destruct (X27_switch_model_selection sample_rotation ["z"; "down"; "slash"])
    as (s & Hrun & _).
  { vm_compute. repeat constructor. }
  exists s. split; [exact Hrun |].
  vm_compute in Hrun. injection Hrun as <-. split; reflexivity.
Defined.

(** ** [ClearCooldownScreen] *)

Lemma cooldown_on_key_inv (key : string) (s : ClearCooldownScreen.screen) :
  cursor_in (ClearCooldownScreen._cursor s)
            (length (ClearCooldownScreen._profiles s)) ->
  match ClearCooldownScreen.on_key key s with
  | ClearCooldownScreen.Open s' =>
      ClearCooldownScreen._profiles s' = ClearCooldownScreen._profiles s /\
      cursor_in (ClearCooldownScreen._cursor s')
                (length (ClearCooldownScreen._profiles s'))
  | ClearCooldownScreen.Dismissed pid =>
      exists p,
        In p (ClearCooldownScreen._profiles s) /\ ap_profile_id p = pid
  | ClearCooldownScreen.IndexError => False
  end.
Proof.
  intros Hc. pose proof Hc as (Hlow & Hup).
  unfold ClearCooldownScreen.on_key.
  destruct (String.eqb key "up").
  { split; [reflexivity |]. unfold cursor_in. simpl. lia. }
  destruct (String.eqb key "down").
  { split; [reflexivity |]. unfold cursor_in. simpl. lia. }
  destruct (String.eqb key "enter"); cbn [andb]; [| auto].
  destruct (ClearCooldownScreen._profiles s) as [| p0 rest] eqn:Hp.
  { cbn [andb]. split; [congruence | rewrite ?Hp; exact Hc]. }
  destruct (py_index_cursor (p0 :: rest) (ClearCooldownScreen._cursor s))
    as (x & Hx & Hin & _); [discriminate | exact Hc |].
  rewrite Hx. exists x. auto.
Qed.

(** X28.  The cooldown picker, opened on any list of profiles and given
    any keys: it never raises an [IndexError], and a profile id it is
    dismissed with is the id of a profile of the list that is in cooldown.
    With no profile in cooldown it is never dismissed with an id, whatever
    the keys: [Enter] does nothing. *)
Theorem X28_cooldown_picker
  (profiles : list auth_profile) (keys : list string) :
  match ClearCooldownScreen.run keys (ClearCooldownScreen.init profiles) with
  | ClearCooldownScreen.Open s =>
      ClearCooldownScreen._profiles s = filter ap_in_cooldown profiles /\
      cursor_in (ClearCooldownScreen._cursor s)
                (length (ClearCooldownScreen._profiles s))
  | ClearCooldownScreen.Dismissed pid =>
      exists p,
        In p profiles /\ ap_in_cooldown p = true /\ ap_profile_id p = pid
  | ClearCooldownScreen.IndexError => False
  end.
Proof.
  assert (Hgen : forall s,
             ClearCooldownScreen._profiles s = filter ap_in_cooldown profiles ->
             cursor_in (ClearCooldownScreen._cursor s)
                       (length (ClearCooldownScreen._profiles s)) ->
             match ClearCooldownScreen.run keys s with
             | ClearCooldownScreen.Open s' =>
                 ClearCooldownScreen._profiles s' =
                   filter ap_in_cooldown profiles /\
                 cursor_in (ClearCooldownScreen._cursor s')
                           (length (ClearCooldownScreen._profiles s'))
             | ClearCooldownScreen.Dismissed pid =>
                 exists p,
                   In p profiles /\ ap_in_cooldown p = true /\
                   ap_profile_id p = pid
             | ClearCooldownScreen.IndexError => False
             end).
  { induction keys as [| key keys IH]; intros s Hp Hc; simpl; [auto |].
    pose proof (cooldown_on_key_inv key s Hc) as Hkey.
    destruct (ClearCooldownScreen.on_key key s) as [s' | pid |].
    - destruct Hkey as (Hp' & Hc'). apply IH; [congruence | exact Hc'].
    - destruct Hkey as (p & Hin & Hid). rewrite Hp in Hin.
      apply filter_In in Hin. exists p. tauto.
    - exact Hkey. }
  apply Hgen; [reflexivity |]. unfold cursor_in. simpl. lia.
Qed.

(** ** [ProviderScreen._remove_current] *)

Lemma remove_provider_typed (pid : string) (d d' : dict) :
  remove_provider pid (JObj d) = Ok (JObj d') ->
  exists m',
    dict_get d' "models" (JObj []) = JObj m' /\
    dict_get m' "providers" (JObj []) = JObj (providers_table d').
Proof.
  unfold remove_provider. intros Hr.
  apply bind_Ok_inv in Hr. destruct Hr as (models & Hmo & Hr).
  apply bind_Ok_inv in Hr. destruct Hr as (providers & Hpr & Hr).
  apply bind_Ok_inv in Hr. destruct Hr as (providers' & Hpop & Hr).
  simpl in Hmo. injection Hmo as <-.
  destruct (dict_get d "models" (JObj [])) as [| | | | | m] eqn:Hm;
    try discriminate Hpr.
  simpl in Hpr. injection Hpr as <-.
  destruct (dict_get m "providers" (JObj [])) as [| | | | | t] eqn:Ht;
    try discriminate Hpop.
  simpl in Hpop. injection Hpop as <-.
  assert (Hsame : d' = d ->
                  exists m',
                    dict_get d' "models" (JObj []) = JObj m' /\
                    dict_get m' "providers" (JObj []) =
                      JObj (providers_table d')).
  { intros ->. exists m. split; [exact Hm |].
    unfold providers_table. rewrite Hm, Ht. reflexivity. }
  destruct (lookup "models" d) as [x |] eqn:Hlm.
  - destruct (lookup "providers" m) as [y |] eqn:Hlp.
    + injection Hr as <-.
      exists (dict_put m "providers" (JObj (dict_pop t pid))).
      split; [apply dict_get_put_same |].
      unfold providers_table. rewrite !dict_get_put_same. reflexivity.
    + injection Hr as <-. apply Hsame. reflexivity.
  - injection Hr as <-. apply Hsame. reflexivity.
Qed.

Lemma mapM_filter {A B : Type} (f : A -> result B)
      (g : A -> bool) (g' : B -> bool) (l : list A) :
  (forall x y, f x = Ok y -> g x = g' y) ->
  forall ys, mapM f l = Ok ys -> mapM f (filter g l) = Ok (filter g' ys).
Proof.
  intros Hg. induction l as [| x l IH]; simpl; intros ys Hm.
  - injection Hm as <-. reflexivity.
  - apply bind_Ok_inv in Hm. destruct Hm as (y & Hy & Hm).
    apply bind_Ok_inv in Hm. destruct Hm as (ys' & Hys & Hm).
    injection Hm as <-. simpl. rewrite <- (Hg x y Hy).
    destruct (g x); simpl.
    + rewrite Hy. simpl. rewrite (IH ys' Hys). reflexivity.
    + exact (IH ys' Hys).
Qed.

(** X29.  Removing the provider at the cursor, when the configuration can
    be read, changed and written back (and read again as it was written) and
    the credential store is one the list can be computed with: the method
    returns with the list of the providers of the file without the one
    removed, the others in their order and with their entries, and with the
    cursor on a row of the new list, not below where it was (at 0 for an
    empty list).  The credential store is not touched. *)
Theorem X29_remove_current
  (P : PyJson) (I : PyJsonIndent) (fs : files)
  (ps ps0 : list provider) (cursor : Z) (p : provider)
  (text atext : string) (d : dict) (cfg' auth : json) :
  py_index ps cursor = Some p ->
  f_config fs = Ok text ->
  json_loads text = Ok (JObj d) ->
  remove_provider (pv_id p) (JObj d) = Ok cfg' ->
  f_config_write_fails fs = false ->
  json_loads (json_dumps_indent2 cfg') = Ok cfg' ->
  f_auth fs = Ok atext ->
  json_loads atext = Ok auth ->
  providers_of (JObj (providers_table d)) auth = Ok ps0 ->
  exists s' fs',
    ProviderScreen._remove_current
      fs {| ProviderScreen._providers := ps;
            ProviderScreen._cursor := cursor |} =
      ProviderScreen.Returned s' fs' /\
    ProviderScreen._providers s' =
      filter (fun q => negb (String.eqb (pv_id p) (pv_id q))) ps0 /\
    (forall q, In q (ProviderScreen._providers s') -> pv_id q <> pv_id p) /\
    (0 <= ProviderScreen._cursor s')%Z /\
    (ProviderScreen._cursor s' <= Z.max 0 cursor)%Z /\
    (ProviderScreen._providers s' <> [] ->
     (ProviderScreen._cursor s'
      < Z.of_nat (length (ProviderScreen._providers s')))%Z) /\
    f_auth fs' = f_auth fs /\
    f_config fs' = Ok (json_dumps_indent2 cfg').
Proof.
  intros Hidx Hc Hl Hr Hw Hrt Hau Hal Hold.
  destruct (remove_provider_spec _ _ _ Hr) as (d' & -> & Htab & _).
  destruct (remove_provider_typed _ _ _ Hr) as (m' & Hm & Hp).
  assert (Hne : ps <> []).
  { intros ->. unfold py_index in Hidx.
    assert (Hnil : forall n, nth_error (@nil provider) n = None)
      by (intros [| n]; reflexivity).
    rewrite !Hnil in Hidx.
    destruct (Z.leb 0 cursor); [discriminate Hidx |].
    destruct (Z.leb (- Z.of_nat (length (@nil provider))) cursor);
      discriminate Hidx. }
  set (fs' := with_config fs (Ok (json_dumps_indent2 (JObj d')))).
  assert (Hfile : remove_provider_in_file (pv_id p) fs = Ok fs').
  { unfold remove_provider_in_file, fs'.
    apply (rewrite_config_written P I _ fs text (JObj d) (JObj d'));
      assumption. }
  set (ps' := filter (fun q => negb (String.eqb (pv_id p) (pv_id q))) ps0).
  assert (Hload : _load_providers fs' = Ok ps').
  { unfold _load_providers, fs'. cbn [with_config f_config f_auth bind].
    rewrite Hrt.
    cbn [bind py_get]. rewrite Hm. cbn [bind py_get]. rewrite Hp.
    cbn [bind]. rewrite Hau. cbn [bind]. rewrite Hal. cbn [bind].
    unfold providers_of in *. cbn [py_items bind] in *.
    rewrite Htab. unfold dict_pop.
    rewrite (mapM_filter
               (fun kv : string * json =>
                  provider_entry auth (fst kv) (snd kv))
               (fun kv : string * json =>
                  negb (String.eqb (pv_id p) (fst kv)))
               (fun q => negb (String.eqb (pv_id p) (pv_id q)))
               (providers_table d)) with (ys := ps0).
    - reflexivity.
    - intros kv y Hy.
      destruct (provider_entry_spec _ _ _ _ Hy) as (pd & tag & _ & Hid & _).
      rewrite Hid. reflexivity.
    - exact Hold. }
  eexists _, fs'. split.
  { unfold ProviderScreen._remove_current.
    cbn [ProviderScreen._providers ProviderScreen._cursor].
    destruct ps as [| p0 rest]; [congruence |].
    rewrite Hidx, Hfile, Hload. reflexivity. }
  cbn [ProviderScreen._providers ProviderScreen._cursor].
  split; [reflexivity |].
  split.
  { intros q Hq. apply filter_In in Hq. destruct Hq as (_ & Hq).
    apply Bool.negb_true_iff in Hq. intros Heq. rewrite Heq in Hq.
    rewrite String.eqb_refl in Hq. discriminate Hq. }
  split; [lia |]. split; [lia |].
  split; [| split; reflexivity].
  intros Hne'. fold ps' in Hne' |- *.
  assert (0 < length ps') by (destruct ps'; [congruence | simpl; lia]).
  lia.
Qed.

Lemma X29_remove_current_witness :
  exists s' fs',
    ProviderScreen._remove_current
      (H := MiniJson.codec) (H0 := MiniJsonIndent.printer) config_files
      {| ProviderScreen._providers :=
           match _load_providers (H := MiniJson.codec) config_files with
           | Ok ps => ps
           | Raise _ => []
           end;
         ProviderScreen._cursor := 2 |} =
      ProviderScreen.Returned s' fs' /\
    map pv_id (ProviderScreen._providers s') = ["groq"; "ollama"] /\
    ProviderScreen._cursor s' = 1%Z.
Proof.
  destruct (_load_providers (H := MiniJson.codec) config_files)
    as [ps | e] eqn:Hps; [| vm_compute in Hps; discriminate Hps].
  destruct (nth_error ps 2) as [p |] eqn:Hp;
    [| vm_compute in Hps; injection Hps as <-; discriminate Hp].
  assert (Hid : pv_id p = "google-gemini-cli").
  { vm_compute in Hps. injection Hps as <-.
    simpl in Hp. injection Hp as <-. reflexivity. }
  destruct (remove_provider "google-gemini-cli" config_doc)
    as [cfg' | e] eqn:Hr; [| vm_compute in Hr; discriminate Hr].
  destruct (providers_of
              (JObj (providers_table
                       match config_doc with JObj d => d | _ => [] end))
              store_doc) as [ps0 | e] eqn:Hold;
    [| vm_compute in Hold; discriminate Hold].
  assert (Hrt : MiniJson.loads (MiniJsonIndent.dumps 0 cfg') = Ok cfg').
  { vm_compute in Hr. injection Hr as <-. vm_compute. reflexivity. }
  destruct (X29_remove_current
              MiniJson.codec MiniJsonIndent.printer config_files
              ps ps0 2 p _ _
              match config_doc with JObj d => d | _ => [] end
              cfg' store_doc
              Hp eq_refl ltac:(vm_compute; reflexivity)
              ltac:(rewrite Hid; exact Hr) eq_refl Hrt
              eq_refl ltac:(vm_compute; reflexivity) Hold)
    as (s' & fs' & Hrun & Hlist & _ & _ & _ & _).
  exists s', fs'. split; [exact Hrun |].
  unfold ProviderScreen._remove_current in Hrun.
  cbn [ProviderScreen._providers ProviderScreen._cursor] in Hrun.
  rewrite Hlist. vm_compute in Hold. injection Hold as <-.
  rewrite Hid. split; [reflexivity |].
  vm_compute in Hps. injection Hps as <-.
  vm_compute in Hrun. injection Hrun as <- _. reflexivity.
Defined.

(** ** [AddProviderWizard] *)

Lemma form_get_set_same (f : AddProviderWizard.form) (k v : string) :
  AddProviderWizard.form_get (AddProviderWizard.form_set f k v) k = Some v.
Proof.
  induction f as [| [k' v'] f IH]; simpl.
  - rewrite String.eqb_refl. reflexivity.
  - destruct (String.eqb k k') eqn:Hk; simpl.
    + rewrite String.eqb_refl. reflexivity.
    + rewrite Hk. exact IH.
Qed.

Lemma form_get_set_other (f : AddProviderWizard.form) (k k' v : string) :
  k' <> k ->
  AddProviderWizard.form_get (AddProviderWizard.form_set f k v) k' =
  AddProviderWizard.form_get f k'.
Proof.
  intros Hne. induction f as [| [k0 v0] f IH]; simpl.
  - destruct (String.eqb_spec k' k); [congruence | reflexivity].
  - destruct (String.eqb_spec k k0) as [-> | Hk]; simpl.
    + destruct (String.eqb_spec k' k0); [congruence | reflexivity].
    + destruct (String.eqb k' k0); [reflexivity | exact IH].
Qed.

Lemma wizard_render_fields (s : AddProviderWizard.screen) :
  AddProviderWizard._step (AddProviderWizard._render s)
    = AddProviderWizard._step s /\
  AddProviderWizard._type (AddProviderWizard._render s)
    = AddProviderWizard._type s /\
  AddProviderWizard._type_cursor (AddProviderWizard._render s)
    = AddProviderWizard._type_cursor s /\
  AddProviderWizard._confirm_cursor (AddProviderWizard._render s)
    = AddProviderWizard._confirm_cursor s /\
  AddProviderWizard._form (AddProviderWizard._render s)
    = AddProviderWizard._form s /\
  (AddProviderWizard.oauth_threads s =
     (if AddProviderWizard._waiting_oauth s then 1 else 0) ->
   AddProviderWizard.oauth_threads (AddProviderWizard._render s) =
     (if AddProviderWizard._waiting_oauth (AddProviderWizard._render s)
      then 1 else 0)).
Proof.
  unfold AddProviderWizard._render.
  destruct (Nat.eqb (AddProviderWizard._step s) 2
            && match AddProviderWizard._type s with
               | Some t => String.eqb t "oauth"
               | None => false
               end
            && negb (AddProviderWizard._waiting_oauth s)) eqn:Hc;
    cbn; repeat split; try reflexivity; auto.
  intros Ht. apply Bool.andb_true_iff in Hc. destruct Hc as (_ & Hw).
  apply Bool.negb_true_iff in Hw. rewrite Hw in Ht. rewrite Ht. reflexivity.
Qed.

Lemma wizard_render_ok (seen : list AddProviderWizard.event)
      (s : AddProviderWizard.screen) :
  wizard_ok seen s -> wizard_ok seen (AddProviderWizard._render s).
Proof.
  intros (Ht & Hcc & Hth & Hform).
  destruct (wizard_render_fields s) as (Hs & _ & Htc & Hc & Hf & Hthr).
  unfold wizard_ok. rewrite Hs, Htc, Hc, Hf. auto.
Qed.

Lemma wizard_ok_more (seen : list AddProviderWizard.event)
      (ev : AddProviderWizard.event) (s : AddProviderWizard.screen) :
  wizard_ok seen s -> wizard_ok (seen ++ [ev]) s.
Proof.
  intros (Ht & Hcc & Hth & Hform). unfold wizard_ok.
  split; [exact Ht |]. split; [exact Hcc |]. split; [exact Hth |].
  intros H3. destruct (Hform H3) as (ev' & n & u & k & Hin & Hrest).
  exists ev', n, u, k. split; [apply in_or_app; left; exact Hin | exact Hrest].
Qed.

Section Wizard.
Context (P : PyJson) (I : PyJsonIndent).

Lemma wizard_read_inputs_ok (seen : list AddProviderWizard.event)
      (ev : AddProviderWizard.event) (s : AddProviderWizard.screen) :
  AddProviderWizard.key ev = "enter" ->
  AddProviderWizard._step s = 2 ->
  wizard_ok seen s ->
  wizard_ok (seen ++ [ev]) (AddProviderWizard.read_inputs ev s).
Proof.
  intros Hkey H2 Hok. pose proof Hok as (Ht & Hcc & Hth & _).
  assert (Hstay : forall f,
             wizard_ok (seen ++ [ev]) (AddProviderWizard.with_form s f)).
  { intros f. unfold wizard_ok. cbn. repeat split; try tauto; try lia;
      try (rewrite H2; discriminate). }
  unfold AddProviderWizard.read_inputs.
  destruct (AddProviderWizard.inp_name ev) as [name |] eqn:Hn;
    [| apply wizard_ok_more, Hok].
  destruct (AddProviderWizard.inp_url ev) as [url |] eqn:Hu;
    [| apply Hstay].
  destruct (AddProviderWizard.inp_key ev) as [api_key |] eqn:Hk;
    [| apply Hstay].
  destruct (negb (String.eqb name EmptyString)
            && negb (String.eqb url EmptyString)) eqn:Hfull;
    [| apply Hstay].
  apply wizard_render_ok. unfold wizard_ok. cbn.
  split; [lia |]. split; [lia |]. split; [exact Hth |].
  intros _. exists ev, name, url, api_key.
  split; [apply in_or_app; right; left; reflexivity |].
  apply Bool.andb_true_iff in Hfull. destruct Hfull as (Hne & Hue).
  apply Bool.negb_true_iff in Hne, Hue.
  split.
  { unfold entered. repeat split; try assumption.
    - intros ->. discriminate Hne.
    - intros ->. rewrite String.eqb_refl in Hue. discriminate Hue. }
  rewrite form_get_set_other by discriminate.
  rewrite form_get_set_other by discriminate.
  rewrite form_get_set_same.
  rewrite form_get_set_other by discriminate.
  rewrite form_get_set_same, form_get_set_same. auto.
Qed.

Lemma wizard_on_key_ok (seen : list AddProviderWizard.event)
      (ev : AddProviderWizard.event) (s : AddProviderWizard.screen)
      (fs : files) :
  wizard_ok seen s ->
  match AddProviderWizard.on_key ev s fs with
  | AddProviderWizard.Open s' fs' =>
      fs' = fs /\ wizard_ok (seen ++ [ev]) s'
  | AddProviderWizard.Cancelled fs' => fs' = fs
  | AddProviderWizard.Added name fs' =>
      exists ev' url api_key add_to_rotation,
        In ev' seen /\ entered ev' name url api_key /\
        _write_new_provider name url api_key add_to_rotation fs = Ok fs'
  | AddProviderWizard.LookupError => False
  end.
Proof.
  intros Hok. pose proof Hok as (Ht & Hcc & Hth & Hform).
  unfold AddProviderWizard.on_key.
  destruct (Nat.eqb_spec (AddProviderWizard._step s) 1) as [H1 | H1].
  { assert (Hcur : forall c, (0 <= c <= 2)%Z ->
               wizard_ok (seen ++ [ev])
                 (AddProviderWizard._render
                    (AddProviderWizard.with_type_cursor s c))).
    { intros c Hc. apply wizard_render_ok. unfold wizard_ok. cbn.
      repeat split; try tauto; try lia; try (rewrite H1; discriminate). }
    destruct (String.eqb (AddProviderWizard.key ev) "up");
      [split; [reflexivity | apply Hcur; lia] |].
    destruct (String.eqb (AddProviderWizard.key ev) "down");
      [split; [reflexivity | apply Hcur; lia] |].
    destruct (String.eqb (AddProviderWizard.key ev) "enter");
      [| split; [reflexivity | apply wizard_ok_more, Hok]].
    assert (Hc : AddProviderWizard._type_cursor s = 0%Z \/
                 AddProviderWizard._type_cursor s = 1%Z \/
                 AddProviderWizard._type_cursor s = 2%Z) by lia.
    destruct Hc as [-> | [-> | ->]]; cbn [py_index Z.leb Z.compare Z.to_nat
                                            Pos.to_nat Pos.iter_op Nat.add
                                            nth_error];
      (split; [reflexivity |]); apply wizard_render_ok; unfold wizard_ok; cbn;
      repeat split; try tauto; try lia; try discriminate. }
  destruct (Nat.eqb_spec (AddProviderWizard._step s) 2) as [H2 | H2].
  { cbn [andb].
    destruct (match AddProviderWizard._type s with
              | Some t => String.eqb t "apikey" || String.eqb t "custom"
              | None => false
              end).
    - destruct (String.eqb_spec (AddProviderWizard.key ev) "enter") as [Hk | Hk].
      + split; [reflexivity |]. apply wizard_read_inputs_ok; assumption.
      + split; [reflexivity | apply wizard_ok_more, Hok].
    - cbn [Nat.eqb]. rewrite H2. cbn.
      split; [reflexivity | apply wizard_ok_more, Hok]. }
  cbn [andb].
  destruct (Nat.eqb_spec (AddProviderWizard._step s) 3) as [H3 | H3];
    [| split; [reflexivity | apply wizard_ok_more, Hok]].
  assert (Hcur : forall c, (0 <= c <= 2)%Z ->
             wizard_ok (seen ++ [ev])
               (AddProviderWizard._render
                  (AddProviderWizard.with_confirm_cursor s c))).
  { intros c Hc. apply wizard_render_ok, wizard_ok_more.
    unfold wizard_ok. cbn. repeat split; try tauto; try lia. }
  destruct (String.eqb (AddProviderWizard.key ev) "up");
    [split; [reflexivity | apply Hcur; lia] |].
  destruct (String.eqb (AddProviderWizard.key ev) "down");
    [split; [reflexivity | apply Hcur; lia] |].
  destruct (String.eqb (AddProviderWizard.key ev) "enter");
    [| split; [reflexivity | apply wizard_ok_more, Hok]].
  unfold AddProviderWizard._confirm.
  destruct (Z.eqb (AddProviderWizard._confirm_cursor s) 2); [reflexivity |].
  destruct (Hform H3) as (ev' & name & url & api_key & Hin & Hent & Hn & Hu & Hk).
  rewrite Hn, Hu, Hk.
  destruct (rewrite_config_total P I
              (add_provider name url api_key
                 (Z.eqb (AddProviderWizard._confirm_cursor s) 0))
              fs) as (fs' & Hw).
  change (_write_new_provider name url api_key
            (Z.eqb (AddProviderWizard._confirm_cursor s) 0) fs = Ok fs') in Hw.
  rewrite Hw.
  exists ev', url, api_key, (Z.eqb (AddProviderWizard._confirm_cursor s) 0).
  auto.
Qed.

Lemma wizard_run_ok (events : list AddProviderWizard.event) (fs : files) :
  forall seen s,
    wizard_ok seen s ->
    match AddProviderWizard.run events s fs with
    | AddProviderWizard.Open s' fs' =>
        fs' = fs /\ wizard_ok (seen ++ events) s'
    | AddProviderWizard.Cancelled fs' => fs' = fs
    | AddProviderWizard.Added name fs' =>
        exists ev' url api_key add_to_rotation,
          In ev' (seen ++ events) /\ entered ev' name url api_key /\
          _write_new_provider name url api_key add_to_rotation fs = Ok fs'
    | AddProviderWizard.LookupError => False
    end.
Proof.
  induction events as [| ev events IH]; intros seen s Hok; simpl.
  - rewrite app_nil_r. auto.
  - pose proof (wizard_on_key_ok seen ev s fs Hok) as Hkey.
    destruct (AddProviderWizard.on_key ev s fs) as [s' fs' | fs' | name fs' |].
    + destruct Hkey as (-> & Hok').
      specialize (IH (seen ++ [ev]) s' Hok').
      rewrite <- app_assoc in IH. exact IH.
    + exact Hkey.
    + destruct Hkey as (ev' & url & api_key & rot & Hin & Hrest).
      exists ev', url, api_key, rot.
      split; [apply in_or_app; left; exact Hin | exact Hrest].
    + exact Hkey.
Qed.

End Wizard.

(** X30.  The wizard, from its start and for any key events, whatever the
    input fields hold or whether they can be queried: no index and no key of
    the form is ever missing.  As long as it is open, and when it is
    cancelled, nothing has been written; the cursors are between 0 and 2 and
    at most one OAuth thread has been started.  When it is dismissed with
    [{"added": name}], [_write_new_provider] has been called once, with a
    name and a URL that are not empty and the key, all three as an [Enter]
    found them in the input fields; the wizard reports the provider as
    added whatever that call did to the file. *)
Theorem X30_wizard_writes_once
  (P : PyJson) (I : PyJsonIndent)
  (events : list AddProviderWizard.event) (fs : files) :
  match AddProviderWizard.run events AddProviderWizard.init fs with
  | AddProviderWizard.Open s fs' =>
      fs' = fs /\
      (0 <= AddProviderWizard._type_cursor s <= 2)%Z /\
      (0 <= AddProviderWizard._confirm_cursor s <= 2)%Z /\
      AddProviderWizard.oauth_threads s <= 1
  | AddProviderWizard.Cancelled fs' => fs' = fs
  | AddProviderWizard.Added name fs' =>
      exists ev url api_key add_to_rotation,
        In ev events /\ entered ev name url api_key /\
        _write_new_provider name url api_key add_to_rotation fs = Ok fs'
  | AddProviderWizard.LookupError => False
  end.
Proof.
  assert (Hinit : wizard_ok [] AddProviderWizard.init).
  { unfold wizard_ok. cbn. repeat split; try lia; try discriminate. }
  pose proof (wizard_run_ok P I events fs [] AddProviderWizard.init Hinit)
    as Hrun.
  destruct (AddProviderWizard.run events AddProviderWizard.init fs)
    as [s fs' | fs' | name fs' |]; simpl in Hrun; try exact Hrun.
  destruct Hrun as (-> & Ht & Hc & Hth & _).
  split; [reflexivity |]. split; [exact Ht |]. split; [exact Hc |].
  rewrite Hth. destruct (AddProviderWizard._waiting_oauth s); lia.
Qed.
